(** * pj_assistant: a shallow embedding of the evaluation assistant

    The Python sources [src/pj_assistant/config.py] and
    [src/pj_assistant/assistant.py] drive a browser through Playwright.
    Every call into the browser, the clock, the random generator, the logger
    and the console is an _operation_ whose answer is chosen by the
    environment; a Python function becomes a tree of operations ([prog]).
    Running a tree against an environment yields the trace of operations
    with their answers and the way the function ended. *)

From Stdlib Require Import String Ascii List ZArith QArith Bool Lia.
From Stdlib Require Import DecimalString DecimalNat Sorted Permutation Lqa.
Import ListNotations.

Set Implicit Arguments.
Close Scope Q_scope.
Local Open Scope string_scope.

(* ================================================================== *)
(** * Python strings *)
(* ================================================================== *)

(** A Python [str] is kept as its UTF-8 bytes.  Equality, concatenation,
    substring search and the removal of white-space characters agree with
    the code-point operations on well-formed UTF-8. *)
Module Py.

Definition chr (n : nat) : string := String (ascii_of_nat n) EmptyString.

(** The double quote and the line feed, which cannot be written inside a
    literal. *)
Definition dq : string := chr 34.
Definition nl : string := chr 10.

Definition is_empty (s : string) : bool :=
  match s with EmptyString => true | _ => false end.

(** [x in s] *)
Fixpoint str_in (x s : string) : bool :=
  if prefix x s then true
  else match s with
       | EmptyString => false
       | String _ rest => str_in x rest
       end.

(** [s.lower()], on the ASCII letters.  The only other characters whose
    lower-casing produces an ASCII letter are U+0130 and U+212A; neither
    can produce one of the constants the program compares with. *)
Definition lower_ascii (a : ascii) : ascii :=
  let n := nat_of_ascii a in
  if andb (65 <=? n)%nat (n <=? 90)%nat then ascii_of_nat (n + 32) else a.

Fixpoint lower (s : string) : string :=
  match s with
  | EmptyString => EmptyString
  | String a rest => String (lower_ascii a) (lower rest)
  end.

(** [s.replace(a, b)] for one-character [a] and [b]. *)
Fixpoint replace_char (a b : ascii) (s : string) : string :=
  match s with
  | EmptyString => EmptyString
  | String c rest =>
      String (if Ascii.eqb c a then b else c) (replace_char a b rest)
  end.

(** The characters for which [str.isspace()] holds, by their UTF-8
    encodings: U+0009..000D, U+001C..0020, then U+0085, U+00A0 (two
    bytes), U+1680, U+2000..200A, U+2028, U+2029, U+202F, U+205F and
    U+3000 (three bytes). *)
Definition space1 (a : ascii) : bool :=
  let n := nat_of_ascii a in
  (orb (andb (9 <=? n) (n <=? 13)) (andb (28 <=? n) (n <=? 32)))%nat.

Definition space2 (a b : ascii) : bool :=
  let n := nat_of_ascii a in
  let m := nat_of_ascii b in
  (andb (n =? 194) (orb (m =? 133) (m =? 160)))%nat.

Definition space3 (a b c : ascii) : bool :=
  let n := nat_of_ascii a in
  let m := nat_of_ascii b in
  let k := nat_of_ascii c in
  (orb (andb (n =? 225) (andb (m =? 154) (k =? 128)))
  (orb (andb (n =? 226)
             (orb (andb (m =? 128)
                        (orb (andb (128 <=? k) (k <=? 138))
                             (orb (k =? 168) (orb (k =? 169) (k =? 175)))))
                  (andb (m =? 129) (k =? 159))))
       (andb (n =? 227) (andb (m =? 128) (k =? 128)))))%nat.

(** [s.lstrip()] *)
Fixpoint lstrip (s : string) : string :=
  match s with
  | EmptyString => s
  | String a r1 =>
      if space1 a then lstrip r1
      else match r1 with
           | EmptyString => s
           | String b r2 =>
               if space2 a b then lstrip r2
               else match r2 with
                    | EmptyString => s
                    | String c r3 =>
                        if space3 a b c then lstrip r3 else s
                    end
           end
  end.

Fixpoint rev_onto (s acc : string) : string :=
  match s with
  | EmptyString => acc
  | String a rest => rev_onto rest (String a acc)
  end.

Definition rev (s : string) : string := rev_onto s EmptyString.

(** The same scan on a reversed string: the bytes of a character arrive
    last byte first. *)
Fixpoint lstrip_rev (s : string) : string :=
  match s with
  | EmptyString => s
  | String a r1 =>
      if space1 a then lstrip_rev r1
      else match r1 with
           | EmptyString => s
           | String b r2 =>
               if space2 b a then lstrip_rev r2
               else match r2 with
                    | EmptyString => s
                    | String c r3 =>
                        if space3 c b a then lstrip_rev r3 else s
                    end
           end
  end.

(** [s.rstrip()] and [s.strip()] *)
Definition rstrip (s : string) : string := rev (lstrip_rev (rev s)).
Definition strip (s : string) : string := rstrip (lstrip s).

(** [str(n)] for a non-negative integer. *)
Definition str_of_nat (n : nat) : string :=
  NilZero.string_of_uint (Nat.to_uint n).

(** ** The progress pattern

    [re.search(r"(\d+)\s*/\s*(\d+)", text)] followed by [int] on both
    groups.  Digits, white space and the slash are disjoint classes, so
    the greedy scan never has to give characters back.  The digits are
    the ASCII digits. *)
Definition digit_val (a : ascii) : option Z :=
  let n := nat_of_ascii a in
  if andb (48 <=? n)%nat (n <=? 57)%nat then Some (Z.of_nat (n - 48)) else None.

(** Reads the digits at the head of [s]; [acc] is the value so far and
    [seen] tells whether a digit was read. *)
Fixpoint digits (s : string) (acc : Z) (seen : bool) : option (Z * string) :=
  match s with
  | EmptyString => if seen then Some (acc, s) else None
  | String a rest =>
      match digit_val a with
      | Some d => digits rest (10 * acc + d)%Z true
      | None => if seen then Some (acc, s) else None
      end
  end.

Definition match_progress_here (s : string) : option (Z * Z) :=
  match digits s 0%Z false with
  | None => None
  | Some (a, r1) =>
      match lstrip r1 with
      | String c r2 =>
          if Ascii.eqb c "/"%char then
            match digits (lstrip r2) 0%Z false with
            | Some (b, _) => Some (a, b)
            | None => None
            end
          else None
      | EmptyString => None
      end
  end.

Fixpoint search_progress (s : string) : option (Z * Z) :=
  match match_progress_here s with
  | Some r => Some r
  | None =>
      match s with
      | EmptyString => None
      | String _ rest => search_progress rest
      end
  end.

End Py.

(* ================================================================== *)
(** * Exceptions *)
(* ================================================================== *)

(** What a call into Playwright can raise: its [TimeoutError] (imported as
    [PlaywrightTimeoutError]), any other [playwright.Error], and the
    [AssertionError] of a failed [expect]. *)
Inductive browser_error : Type :=
| PlaywrightTimeoutError (msg : string)
| PlaywrightError (msg : string)
| AssertionError (msg : string).

(** The exceptions of the program: those of the browser, and the ones the
    Python code or the interpreter raises itself.  All of them derive from
    [Exception]. *)
Inductive exn : Type :=
| Browser (e : browser_error)
| ValueError (msg : string)
| KeyError (key : string)
| IndexError (msg : string)
| AttributeError (msg : string)
| RuntimeError (msg : string)
| TimeoutError (msg : string).

Inductive result (E X : Type) : Type :=
| Ok (x : X)
| Err (e : E).

Arguments Ok {E X} x.
Arguments Err {E X} e.

(** [except PlaywrightTimeoutError] *)
Definition is_PlaywrightTimeoutError (e : exn) : bool :=
  match e with
  | Browser (PlaywrightTimeoutError _) => true
  | _ => false
  end.

(** [except Exception] *)
Definition is_Exception (e : exn) : bool := true.

(* ================================================================== *)
(** * config.py *)
(* ================================================================== *)

Module Config.

Record Selectors : Type := {
  table : string;
  pending_button : string;
  modal : string;
  teacher_tabs : string;
  active_block : string;
  question_block : string;
  comment_textarea : string;
  done_text : string;
  submit_button : string;
  success_confirm_button : string
}.

Record Delays : Type := { min : Z; max : Z }.

Record BrowserConfig : Type := { headless : bool; slow_mo_ms : Z }.

Record AppConfig : Type := {
  login_url : string;
  list_url : string;
  browser : BrowserConfig;
  rating_text : string;
  comment_templates : list string;
  delays_ms : Delays;
  manual_submit_max_wait_s : Z;
  selectors : Selectors
}.

(** The document [yaml.safe_load] returns, with the keys [load_config]
    reads.  A key that is absent is [None]; a value is kept at the type
    the conversion ([str], [int], [bool]) gives it.  The three nested
    mappings default to the empty mapping, so their keys are optional one
    by one; [selectors] is kept as the list of its items. *)
Record Document : Type := {
  doc_login_url : option string;
  doc_list_url : option string;
  doc_headless : option bool;
  doc_slow_mo_ms : option Z;
  doc_rating_text : option string;
  doc_comment_templates : option (list string);
  doc_delays_min : option Z;
  doc_delays_max : option Z;
  doc_manual_submit_max_wait_s : option Z;
  doc_selectors : list (string * string)
}.

(** [d.get(key, default)] on the items of a mapping. *)
Fixpoint get (d : list (string * string)) (key default : string) : string :=
  match d with
  | [] => default
  | (k, v) :: rest => if String.eqb k key then v else get rest key default
  end.

Definition get_or {X} (o : option X) (default : X) : X :=
  match o with Some x => x | None => default end.

(** [data[key]] *)
Definition item {X} (o : option X) (key : string) : result exn X :=
  match o with Some x => Ok x | None => Err (KeyError key) end.

Definition load_config (data : Document) : result exn AppConfig :=
  let sel := doc_selectors data in
  let selectors := {|
    table := get sel "table" "#kcpjDataTable";
    pending_button :=
      get sel "pending_button"
          ("td:last-child button:text-is(" ++ Py.dq ++ "评价" ++ Py.dq ++ ")");
    modal := get sel "modal" ".modal:visible";
    teacher_tabs := get sel "teacher_tabs" ".title .jsxx";
    active_block := get sel "active_block" ".pjst .jslb.active";
    question_block :=
      get sel "question_block" (".tm[data-fs=" ++ Py.dq ++ "5" ++ Py.dq ++ "]");
    comment_textarea := get sel "comment_textarea" "textarea.form-control.da";
    done_text := get sel "done_text" ".tmtj span";
    submit_button := get sel "submit_button" ".modal-footer button.sure";
    success_confirm_button :=
      get sel "success_confirm_button"
          ".layui-layer-btn0, .bootbox-accept, button:has-text('确定'), a:has-text('确定')"
  |} in
  match item (doc_login_url data) "login_url" with
  | Err e => Err e
  | Ok login =>
  match item (doc_list_url data) "list_url" with
  | Err e => Err e
  | Ok list_ =>
    let cfg := {|
      login_url := login;
      list_url := list_;
      browser := {| headless := get_or (doc_headless data) false;
                    slow_mo_ms := get_or (doc_slow_mo_ms data) 0%Z |};
      rating_text := get_or (doc_rating_text data) "很满意";
      comment_templates := get_or (doc_comment_templates data) [];
      delays_ms := {| min := get_or (doc_delays_min data) 100%Z;
                      max := get_or (doc_delays_max data) 350%Z |};
      manual_submit_max_wait_s := get_or (doc_manual_submit_max_wait_s data) 0%Z;
      selectors := selectors
    |} in
    match comment_templates cfg with
    | [] => Err (ValueError "comment_templates 不能为空")
    | _ :: _ =>
        if orb (min (delays_ms cfg) <? 0)%Z
               (max (delays_ms cfg) <? min (delays_ms cfg))%Z
        then Err (ValueError "delays_ms 配置不合法")
        else Ok cfg
    end
  end
  end.

End Config.

(* ================================================================== *)
(** * The browser and the rest of the environment *)
(* ================================================================== *)

(** There is one [Page] and one logger in a run; both are left implicit.
    Frames and element handles are told apart by an identity. *)
Definition frame : Type := nat.
Definition handle : Type := nat.

(** Where a locator is resolved: the page (its top-level document) or a
    frame. *)
Inductive scope : Type :=
| ThePage
| Frame (f : frame).

(** Locators are descriptions, built without touching the page; the browser
    resolves them at each query.  An element handle stands for one element
    and answers the same calls. *)
Inductive locator : Type :=
| Locator (s : scope) (selector : string)       (* scope.locator(selector) *)
| Within (l : locator) (selector : string)      (* l.locator(selector) *)
| First (l : locator)                           (* l.first *)
| Nth (l : locator) (index : Z)                 (* l.nth(index) *)
| Or_ (l other : locator)                       (* l.or_(other) *)
| FilterHasText (l : locator) (pattern : string) (* l.filter(has_text=re) *)
| Element (h : handle).

(** A bounding box in pixels; the coordinates are Python floats, kept as
    rationals. *)
Record box : Type := { box_x : Q; box_y : Q; box_width : Q; box_height : Q }.

(** An argument of a logging call. *)
Inductive logarg : Type :=
| LStr (s : string)
| LNum (n : Z)
| LList (l : list string)
| LNone.

(** Calls that answer nothing ([None]) or raise. *)
Inductive action : Type :=
| Click (l : locator) (timeout : option Z) (force : bool)
| ScrollIntoViewIfNeeded (l : locator) (timeout : Z)
| Hover (l : locator) (timeout : Z)
| Evaluate (l : locator) (js : string)
| SetChecked (l : locator) (force : bool)       (* l.check(force=...) *)
| FillText (l : locator) (value : string)       (* l.fill(value) *)
| ExpectToBeVisible (l : locator) (timeout : option Z)
| ExpectToBeHidden (l : locator) (timeout : option Z)
| WaitForTimeout (ms : Z)
| KeyboardPress (key : string)
| Goto (url wait_until : string)
| StartPlaywright                               (* entering sync_playwright() *)
| StopPlaywright                                (* leaving it *)
| Launch (headless : bool) (slow_mo : Z)        (* p.chromium.launch(...) *)
| NewContext (storage_state : option string)
| NewPage
| Screenshot (path : string) (full_page : bool)
| StorageState (path : string)
| CloseContext
| CloseBrowser.

Inductive op : Type :=
| PageFrames                                    (* page.frames *)
| PageMainFrame                                 (* page.main_frame *)
| FrameUrl (f : frame)                          (* frame.url *)
| PageUrl                                       (* page.url *)
| Count (l : locator)
| InnerText (l : locator)
| GetAttribute (l : locator) (name : string)
| IsVisible (l : locator)
| BoundingBox (l : locator)
| ElementHandles (l : locator)
| EvaluateAll (l : locator) (js : string)
| Act (a : action)
| Monotonic                                     (* time.monotonic() *)
| Sleep (seconds : Q)                           (* time.sleep(seconds) *)
| RandomBits                                    (* the generator's next draw *)
| LoggerInfo (fmt : string) (args : list logarg)
| LoggerException (fmt : string) (args : list logarg)
| PrintLine (text : string)                     (* print(text) *)
| ReadLine                                      (* input() *)
| Strftime (fmt : string)                       (* datetime.now().strftime(fmt) *)
| Mkdir (path : string)                         (* Path(path).mkdir(...) *)
| OpenLog (path : string).                      (* the handlers of the logger *)

Definition fallible (X : Type) : Type := result browser_error X.

(** What each operation answers.  [EvaluateAll] is only used with the
    script that maps every tab to its [data-gh] attribute and its trimmed
    text. *)
Definition answer (o : op) : Type :=
  match o with
  | PageFrames => list frame
  | PageMainFrame => frame
  | FrameUrl _ => string
  | PageUrl => string
  | Count _ => fallible nat
  | InnerText _ => fallible string
  | GetAttribute _ _ => fallible (option string)
  | IsVisible _ => fallible bool
  | BoundingBox _ => fallible (option box)
  | ElementHandles _ => fallible (list handle)
  | EvaluateAll _ _ => fallible (list (option string * string))
  | Act _ => fallible unit
  | Monotonic => Q
  | Sleep _ => unit
  | RandomBits => N
  | LoggerInfo _ _ => unit
  | LoggerException _ _ => unit
  | PrintLine _ => unit
  | ReadLine => string
  | Strftime _ => string
  | Mkdir _ => unit
  | OpenLog _ => unit
  end.

(** ** Programs *)

(** A program either returns, raises, performs an operation and goes on
    with its answer, or is a [while] loop that has used up the iterations
    it was given ([Spin]): the Python loop would still be running. *)
Inductive prog (A : Type) : Type :=
| Ret (a : A)
| Raise (e : exn)
| Spin
| Do (o : op) (k : answer o -> prog A).

Arguments Ret {A} a.
Arguments Raise {A} e.
Arguments Spin {A}.
Arguments Do {A} o k.

Fixpoint bind {A B} (m : prog A) (f : A -> prog B) : prog B :=
  match m with
  | Ret a => f a
  | Raise e => Raise e
  | Spin => Spin
  | Do o k => Do o (fun x => bind (k x) f)
  end.

Declare Scope prog_scope.
Delimit Scope prog_scope with prog.
Bind Scope prog_scope with prog.

Notation "x <- m ;; k" := (bind m (fun x => k))
  (at level 61, m at next level, right associativity) : prog_scope.
Notation "' p <- m ;; k" := (bind m (fun p => k))
  (at level 61, p pattern, m at next level, right associativity) : prog_scope.
Notation "m ;; k" := (bind m (fun _ => k))
  (at level 61, right associativity) : prog_scope.

Local Open Scope prog_scope.

(** [try: body / except <handles>: handler] *)
Fixpoint try_except {A} (body : prog A) (handles : exn -> bool)
         (handler : prog A) : prog A :=
  match body with
  | Ret a => Ret a
  | Raise e => if handles e then handler else Raise e
  | Spin => Spin
  | Do o k => Do o (fun x => try_except (k x) handles handler)
  end.

(** [try: body / except <handles> as e: handler(e)] *)
Fixpoint try_except_as {A} (body : prog A) (handles : exn -> bool)
         (handler : exn -> prog A) : prog A :=
  match body with
  | Ret a => Ret a
  | Raise e => if handles e then handler e else Raise e
  | Spin => Spin
  | Do o k => Do o (fun x => try_except_as (k x) handles handler)
  end.

(** [try: body / finally: final] *)
Fixpoint try_finally {A} (body : prog A) (final : prog unit) : prog A :=
  match body with
  | Ret a => bind final (fun _ => Ret a)
  | Raise e => bind final (fun _ => Raise e)
  | Spin => Spin
  | Do o k => Do o (fun x => try_finally (k x) final)
  end.

(** How the body of a loop ends an iteration: it falls through or says
    [continue], it says [break], or the enclosing function returns. *)
Inductive ctl (R : Type) : Type :=
| Next
| Break
| Return (r : R).

Arguments Next {R}.
Arguments Break {R}.
Arguments Return {R} r.

(** [for x in xs: body], threading the local variables the body assigns.
    The result is [Some r] when the body returned [r] from the function. *)
Fixpoint for_ {T S R} (xs : list T) (s : S)
         (body : T -> S -> prog (S * ctl R)) : prog (S * option R) :=
  match xs with
  | [] => Ret (s, None)
  | x :: rest =>
      p <- body x s ;;
      match snd p with
      | Next => for_ rest (fst p) body
      | Break => Ret (fst p, None)
      | Return r => Ret (fst p, Some r)
      end
  end.

(** [while cond: body], for at most [fuel] iterations. *)
Fixpoint while_ {S R} (fuel : nat) (cond : prog bool) (s : S)
         (body : S -> prog (S * ctl R)) : prog (S * option R) :=
  match fuel with
  | O => Spin
  | Datatypes.S fuel' =>
      c <- cond ;;
      if c : bool then
        p <- body s ;;
        match snd p with
        | Next => while_ fuel' cond (fst p) body
        | Break => Ret (fst p, None)
        | Return r => Ret (fst p, Some r)
        end
      else Ret (s, None)
  end.

(** The loops whose bodies assign no local variable. *)
Definition for_each {T R} (xs : list T) (body : T -> prog (ctl R))
  : prog (option R) :=
  p <- for_ xs tt (fun x _ => c <- body x ;; Ret (tt, c)) ;; Ret (snd p).

Definition while_do {R} (fuel : nat) (cond : prog bool) (body : prog (ctl R))
  : prog (option R) :=
  p <- while_ fuel cond tt (fun _ => c <- body ;; Ret (tt, c)) ;; Ret (snd p).

(** Goes on with [rest] unless the loop returned from the function. *)
Definition or_else {R} (m : prog (option R)) (rest : prog R) : prog R :=
  r <- m ;; match r with Some x => Ret x | None => rest end.

(** ** The calls of the program *)

Definition of_answer {X} (r : fallible X) : prog X :=
  match r with
  | Ok x => Ret x
  | Err e => Raise (Browser e)
  end.

Definition page_frames : prog (list frame) := Do PageFrames Ret.
Definition page_main_frame : prog frame := Do PageMainFrame Ret.
Definition frame_url (f : frame) : prog string := Do (FrameUrl f) Ret.
Definition page_url : prog string := Do PageUrl Ret.
Definition count (l : locator) : prog nat := Do (Count l) of_answer.
Definition inner_text (l : locator) : prog string := Do (InnerText l) of_answer.
Definition get_attribute (l : locator) (name : string) : prog (option string) :=
  Do (GetAttribute l name) of_answer.
Definition is_visible (l : locator) : prog bool := Do (IsVisible l) of_answer.
Definition bounding_box (l : locator) : prog (option box) :=
  Do (BoundingBox l) of_answer.
Definition element_handles (l : locator) : prog (list handle) :=
  Do (ElementHandles l) of_answer.
Definition evaluate_all (l : locator) (js : string)
  : prog (list (option string * string)) := Do (EvaluateAll l js) of_answer.
Definition act (a : action) : prog unit := Do (Act a) of_answer.
Definition monotonic : prog Q := Do Monotonic Ret.
Definition sleep (seconds : Q) : prog unit := Do (Sleep seconds) Ret.
Definition logger_info (fmt : string) (args : list logarg) : prog unit :=
  Do (LoggerInfo fmt args) Ret.
Definition logger_exception (fmt : string) (args : list logarg) : prog unit :=
  Do (LoggerException fmt args) Ret.
Definition print (text : string) : prog unit := Do (PrintLine text) Ret.
Definition input : prog string := Do ReadLine Ret.
Definition strftime (fmt : string) : prog string := Do (Strftime fmt) Ret.
Definition mkdir (path : string) : prog unit := Do (Mkdir path) Ret.
Definition open_log (path : string) : prog unit := Do (OpenLog path) Ret.

(** A value or exception computed without the environment. *)
Definition of_result {X} (r : result exn X) : prog X :=
  match r with
  | Ok x => Ret x
  | Err e => Raise e
  end.

(** [random.randint(a, b)]: [randrange(a, b + 1)], which raises on an
    empty range and otherwise adds to [a] a draw below the width. *)
Definition randint (a b : Z) : prog Z :=
  if (b <? a)%Z then Raise (ValueError "empty range for randrange()")
  else Do RandomBits (fun r => Ret (a + Z.of_N r mod (b - a + 1))%Z).

(** [random.choice(seq)] *)
Definition choice (seq : list string) : prog string :=
  match seq with
  | [] => Raise (IndexError "Cannot choose from an empty sequence")
  | x :: _ =>
      Do RandomBits
         (fun r => Ret (nth (N.to_nat r mod length seq) seq x))
  end.

(** Python truth of an integer. *)
Definition nonzero (n : nat) : bool := negb (Nat.eqb n 0).

(** [x or ""] on an optional string. *)
Definition or_empty (o : option string) : string :=
  match o with Some s => s | None => "" end.

Definition Qlt_bool (a b : Q) : bool := negb (Qle_bool b a).

(** Runs [rest] when the statements before it fell through. *)
Definition and_then {R} (m : prog (ctl R)) (rest : prog (ctl R)) : prog (ctl R) :=
  c <- m ;;
  match c with
  | Next => rest
  | _ => Ret c
  end.

(** The loop result seen from an enclosing loop body. *)
Definition to_ctl {R} (r : option R) : ctl R :=
  match r with
  | Some x => Return x
  | None => Next
  end.

(** [enumerate(xs)] *)
Definition enumerate {T} (xs : list T) : list (nat * T) :=
  combine (seq 0 (length xs)) xs.

(** [range(n)] *)
Definition range (n : nat) : list Z := map Z.of_nat (seq 0 n).

(* ================================================================== *)
(** * assistant.py *)
(* ================================================================== *)

Module Assistant.

Import Config.

Record CourseRow : Type := {
  course_code : string;
  course_name : string;
  teacher_name : string
}.

Definition _td_text (tds : locator) (index : Z) : prog string :=
  if (index <? 0)%Z then Ret ""
  else
    n <- count tds ;;
    if (index >=? Z.of_nat n)%Z then Ret ""
    else t <- inner_text (Nth tds index) ;; Ret (Py.strip t).

(** [f"frame[{i}] {frame.url}"] *)
Definition frame_name (i : nat) (url : string) : string :=
  "frame[" ++ Py.str_of_nat i ++ "] " ++ url.

(** The list [scopes] that [_resolve_scope] and [_resolve_scope_fast]
    build first: the page, then every frame but the main one. *)
Definition build_scopes : prog (list (string * scope)) :=
  frames <- page_frames ;;
  p <- for_ (R := unit) (enumerate frames) [("page", ThePage)]
         (fun (it : nat * frame) scopes =>
            main <- page_main_frame ;;
            if Nat.eqb (snd it) main then Ret (scopes, Next)
            else
              url <- frame_url (snd it) ;;
              Ret ((scopes ++ [(frame_name (fst it) url, Frame (snd it))])%list,
                   Next)) ;;
  Ret (fst p).

(** One pass [for name, scope in scopes: try: ... except Exception:
    continue] with the selector [sel]. *)
Definition scan_scopes (scopes : list (string * scope)) (sel fmt : string)
  : prog (option scope) :=
  for_each scopes
    (fun (it : string * scope) =>
       try_except
         (n <- count (Locator (snd it) sel) ;;
          if nonzero n then
            logger_info fmt [LStr (fst it); LStr sel] ;;
            Ret (Return (snd it))
          else Ret Next)
         is_Exception
         (Ret Next)).

(** ['table:has(button:has-text("评价"))'] *)
Definition fallback_table : string :=
  "table:has(button:has-text(" ++ Py.dq ++ "评价" ++ Py.dq ++ "))".

Definition _resolve_scope (cfg : AppConfig) : prog scope :=
  scopes <- build_scopes ;;
  or_else (scan_scopes scopes (table (selectors cfg))
                       "table scope=%s selector=%s")
 (or_else (scan_scopes scopes fallback_table
                       "table scope=%s selector=%s (fallback)")
 (or_else (scan_scopes scopes fallback_table
                       "table scope=%s selector=%s (fallback)")
 (or_else (scan_scopes scopes fallback_table
                       "table scope=%s selector=%s (fallback)")
          (Ret ThePage)))).

Definition _resolve_scope_fast (cfg : AppConfig) : prog scope :=
  scopes <- build_scopes ;;
  or_else (scan_scopes scopes (table (selectors cfg))
                       "table scope=%s selector=%s")
 (or_else (scan_scopes scopes fallback_table
                       "table scope=%s selector=%s (fallback)")
          (Ret ThePage)).

(** The generator [_iter_scopes(page)] together with the [for] loop that
    consumes it: the page is yielded before [page.frames] is read. *)
Definition _iter_scopes {R} (body : string * scope -> prog (ctl R))
  : prog (option R) :=
  c <- body ("page", ThePage) ;;
  match c with
  | Return r => Ret (Some r)
  | Break => Ret None
  | Next =>
      frames <- page_frames ;;
      for_each (enumerate frames)
        (fun (it : nat * frame) =>
           main <- page_main_frame ;;
           if Nat.eqb (snd it) main then Ret Next
           else
             url <- frame_url (snd it) ;;
             body (frame_name (fst it) url, Frame (snd it)))
  end.

(** ['button:has-text("评价"), a:has-text("评价")'] *)
Definition rate_affordance : string :=
  "button:has-text(" ++ Py.dq ++ "评价" ++ Py.dq ++ "), a:has-text("
  ++ Py.dq ++ "评价" ++ Py.dq ++ ")".

(** ['table:has-text("评价")'] *)
Definition table_with_keyword : string :=
  "table:has-text(" ++ Py.dq ++ "评价" ++ Py.dq ++ ")".

Definition ancestor_table : string := "xpath=ancestor::table[1]".

(** [if l.count(): return found] and otherwise the rest. *)
Definition if_count (l : locator) (found : locator)
           (rest : prog (option locator)) : prog (option locator) :=
  n <- count l ;;
  if nonzero n then Ret (Some found) else rest.

Definition _find_table (s : scope) (cfg : AppConfig) : prog (option locator) :=
  let table := Locator s (table (selectors cfg)) in
  if_count table (First table)
  (let pending_eval := Locator s rate_affordance in
   if_count pending_eval (Within (First pending_eval) ancestor_table)
  (let fallback_eval := Locator s table_with_keyword in
   if_count fallback_eval (First fallback_eval)
  (let pending := Locator s rate_affordance in
   if_count pending (Within (First pending) ancestor_table)
  (let pending_eval := Locator s rate_affordance in
   if_count pending_eval (Within (First pending_eval) ancestor_table)
  (let fallback_eval := Locator s table_with_keyword in
   if_count fallback_eval (First fallback_eval)
  (let fallback := Locator s table_with_keyword in
   if_count fallback (First fallback)
  (Ret None))))))).

Definition _find_table_fast (s : scope) (cfg : AppConfig)
  : prog (option locator) :=
  let table := Locator s (table (selectors cfg)) in
  if_count table (First table)
  (let pending := Locator s rate_affordance in
   if_count pending (Within (First pending) ancestor_table)
  (let fallback := Locator s table_with_keyword in
   if_count fallback (First fallback)
  (Ret None))).

Definition option_string_eqb (a b : option string) : bool :=
  match a, b with
  | Some x, Some y => String.eqb x y
  | None, None => true
  | _, _ => false
  end.

Definition _wait_for_table (fuel : nat) (cfg : AppConfig) (timeout_ms : Z)
  : prog (scope * locator) :=
  t0 <- monotonic ;;
  let deadline := (t0 + inject_Z timeout_ms / 1000)%Q in
  or_else
    (p <- while_ fuel
            (now <- monotonic ;; Ret (Qlt_bool now deadline))
            (None : option string)
            (fun last_url =>
               url <- page_url ;;
               last_url' <-
                 (if option_string_eqb (Some url) last_url then Ret last_url
                  else logger_info "url=%s" [LStr url] ;; Ret (Some url)) ;;
               s <- _resolve_scope_fast cfg ;;
               table <- _find_table_fast s cfg ;;
               c <- match table with
                    | None => Ret Next
                    | Some t =>
                        n <- count t ;;
                        if nonzero n then
                          try_except
                            (act (ExpectToBeVisible t (Some 1000%Z)) ;;
                             Ret (Return (s, t)))
                            is_Exception
                            (Ret Next)
                        else Ret Next
                    end ;;
               match c with
               | Next => sleep (1 # 10) ;; Ret (last_url', Next)
               | _ => Ret (last_url', c)
               end) ;;
     Ret (snd p))
    (s <- _resolve_scope_fast cfg ;;
     table <- _find_table_fast s cfg ;;
     let t := match table with
              | Some t => t
              | None => First (Locator s (Config.table (selectors cfg)))
              end in
     act (ExpectToBeVisible t (Some 1000%Z)) ;;
     Ret (s, t)).

Definition js_click : string := "el => el.click()".

Definition js_dispatch_click : string :=
  "el => el.dispatchEvent(new MouseEvent('click', {bubbles: true, cancelable: true, view: window}))".

(** [try: call / except Exception: pass] *)
Definition best_effort (m : prog unit) : prog unit :=
  try_except m is_Exception (Ret tt).

(** The body shared, word for word, by [_safe_click] and
    [_safe_click_handle]; they differ in the log text only. *)
Definition click_ladder (l : locator) (force_msg js_msg : string) : prog unit :=
  clicked <- try_except
               (act (Click l (Some 2000%Z) false) ;; Ret true)
               is_PlaywrightTimeoutError
               (Ret false) ;;
  if clicked : bool then Ret tt
  else
    try_except
      (logger_info force_msg [] ;;
       best_effort (act (ScrollIntoViewIfNeeded l 2000)) ;;
       best_effort (act (Hover l 1000)) ;;
       act (Click l (Some 2000%Z) true))
      is_PlaywrightTimeoutError
      (logger_info js_msg [] ;;
       try_except
         (act (Evaluate l js_click))
         is_Exception
         (act (Evaluate l js_dispatch_click))).

Definition _safe_click (l : locator) : prog unit :=
  click_ladder l "click retry: force" "click retry: js".

Definition _safe_click_handle (h : handle) : prog unit :=
  click_ladder (Element h) "click retry(handle): force" "click retry(handle): js".

Definition _tab_looks_active (class_attr : string) : bool :=
  let c := Py.lower class_attr in
  existsb (fun x => Py.str_in x c)
          ["active"; "btn-primary"; "btn-success"; "btn-info"; "selected"].

(** [while time.monotonic() - start < timeout_s] *)
Definition within (start timeout_s : Q) : prog bool :=
  now <- monotonic ;; Ret (Qlt_bool (now - start) timeout_s).

(** A [try] block that returns from the function when [test] holds and
    passes on any exception. *)
Definition return_if (test : prog bool) : prog (ctl unit) :=
  try_except
    (b <- test ;; Ret (if b : bool then Return tt else Next))
    is_Exception
    (Ret Next).

Definition _wait_teacher_tab_switched (fuel : nat) (modal_locator : locator)
           (cfg : AppConfig) (before_progress : option string) (timeout_s : Q)
  : prog unit :=
  start <- monotonic ;;
  while_do fuel (within start timeout_s)
    (and_then
       (return_if
          (let done := Within modal_locator (done_text (selectors cfg)) in
           n <- count done ;;
           if nonzero n then
             t <- inner_text (First done) ;;
             let now := Py.strip t in
             Ret (match before_progress with
                  | None => true
                  | Some b => negb (String.eqb now b)
                  end)
           else Ret false))
       (sleep (1 # 10) ;; Ret Next)) ;;
  Ret tt.

Definition aria_selected (l : locator) : prog bool :=
  a <- get_attribute l "aria-selected" ;;
  Ret (String.eqb (Py.lower (or_empty a)) "true").

Definition class_looks_active (l : locator) : prog bool :=
  c <- get_attribute l "class" ;;
  Ret (_tab_looks_active (or_empty c)).

Definition _wait_tab_active_locator (fuel : nat) (tab : locator) (timeout_s : Q)
  : prog unit :=
  start <- monotonic ;;
  while_do fuel (within start timeout_s)
    (and_then (return_if (aria_selected tab))
    (and_then (return_if (class_looks_active tab))
    (and_then
       (return_if
          (let parent := Within tab "xpath=ancestor::*[self::li or self::div][1]" in
           n <- count parent ;;
           if nonzero n then class_looks_active parent else Ret false))
       (sleep (1 # 10) ;; Ret Next)))) ;;
  Ret tt.

Definition _wait_tab_active_handle (fuel : nat) (h : handle) (timeout_s : Q)
  : prog unit :=
  start <- monotonic ;;
  while_do fuel (within start timeout_s)
    (and_then (return_if (aria_selected (Element h)))
    (and_then (return_if (class_looks_active (Element h)))
       (sleep (1 # 10) ;; Ret Next))) ;;
  Ret tt.

(** A parameter that receives a [Locator] at some call sites and the
    [Page] or a [Frame] at others. *)
Definition node : Type := (scope + locator)%type.

(** [n.locator(sel)], which pages, frames and locators all have. *)
Definition locator_in (n : node) (sel : string) : locator :=
  match n with
  | inl s => Locator s sel
  | inr l => Within l sel
  end.

(** [n.bounding_box()]: pages and frames have no such method. *)
Definition node_bounding_box (n : node) : prog (option box) :=
  match n with
  | inl _ => Raise (AttributeError "bounding_box")
  | inr l => bounding_box l
  end.

(** [n.first]: pages and frames have no such attribute. *)
Definition node_first (n : node) : prog locator :=
  match n with
  | inl _ => Raise (AttributeError "first")
  | inr l => Ret (First l)
  end.

Definition name_re : string := "^[\u4e00-\u9fa5·]{2,8}$".

Definition skip_text : list string :=
  ["提交"; "取消"; "关闭"; "保存";
   "很满意"; "满意"; "一般"; "不满意"; "很不满意"].

(** [txt in xs] for a set or list of strings. *)
Definition mem (txt : string) (xs : list string) : bool :=
  existsb (String.eqb txt) xs.

(** An element of [selected]: [(x, txt, h)]. *)
Definition entry : Type := (Q * string * handle)%type.

Definition entry_x (t : entry) : Q := fst (fst t).
Definition entry_txt (t : entry) : string := snd (fst t).
Definition entry_handle (t : entry) : handle := snd t.

(** [selected.sort(key=lambda t: t[0])]: the sort is stable, so an entry
    goes in front of the first entry whose key is not smaller. *)
Fixpoint insert_by_x (t : entry) (l : list entry) : list entry :=
  match l with
  | [] => [t]
  | u :: rest =>
      if Qlt_bool (entry_x u) (entry_x t) then u :: insert_by_x t rest
      else t :: u :: rest
  end.

Fixpoint sort_by_x (l : list entry) : list entry :=
  match l with
  | [] => []
  | t :: rest => insert_by_x t (sort_by_x rest)
  end.

(** [(h.inner_text() or "").strip().replace("\n", " ")] *)
Definition clean_text (t : string) : string :=
  Py.replace_char (ascii_of_nat 10) " "%char (Py.strip t).

(** [box and float(box.get("y", 1e9)) > top_y + 220] *)
Definition too_low (b : option box) (top_y : Q) : bool :=
  match b with
  | Some b => Qlt_bool (top_y + 220)%Q (box_y b)
  | None => false
  end.

Definition _collect_teacher_tabs (modal_locator : node)
  : prog (list (string * handle)) :=
  top_y <- try_except
             (modal_box <- node_bounding_box modal_locator ;;
              Ret (match modal_box with Some b => box_y b | None => 0%Q end))
             is_Exception
             (Ret 0%Q) ;;
  let explicit :=
    locator_in modal_locator ".title .jsxx[data-gh], span.jsxx[data-gh]" in
  n <- count explicit ;;
  let candidates :=
    if nonzero n then explicit
    else FilterHasText (locator_in modal_locator "button, a, span") name_re in
  handles <- element_handles candidates ;;
  p <- for_ (R := unit) handles (([] : list entry), ([] : list string))
         (fun h st =>
            let selected := fst st in
            let seen := snd st in
            t <- try_except
                   (t <- inner_text (Element h) ;; Ret (Some (clean_text t)))
                   is_Exception
                   (Ret None) ;;
            match t with
            | None => Ret (st, Next)
            | Some txt =>
                if orb (Py.is_empty txt) (orb (mem txt skip_text) (mem txt seen))
                then Ret (st, Next)
                else
                  b <- try_except (bounding_box (Element h)) is_Exception
                                  (Ret None) ;;
                  if too_low b top_y then Ret (st, Next)
                  else
                    let x := match b with Some b => box_x b | None => 0%Q end in
                    Ret (((selected ++ [(x, txt, h)])%list, txt :: seen), Next)
            end) ;;
  let selected := fst (fst p) in
  selected <-
    match selected with
    | [] => Ret selected
    | _ :: _ =>
        let sorted := sort_by_x selected in
        logger_info "teacher tabs (heuristic)=%s names=%s"
                    [LNum (Z.of_nat (length sorted)); LList (map entry_txt sorted)] ;;
        Ret sorted
    end ;;
  Ret (map (fun t => (entry_txt t, entry_handle t)) selected).

Definition explicit_tabs_selector : string := ".title .jsxx[data-gh]".

Definition _wait_for_explicit_teacher_tabs (fuel : nat) (s : scope)
           (timeout_s : Q) : prog locator :=
  start <- monotonic ;;
  or_else
    (p <- while_ fuel (within start timeout_s) (-1)%Z
            (fun last_count =>
               let tabs := Locator s explicit_tabs_selector in
               c <- try_except (count tabs) is_Exception (Ret 0%nat) ;;
               let last_count' :=
                 if (Z.of_nat c =? last_count)%Z then last_count else Z.of_nat c in
               if nonzero c then Ret (last_count', Return tabs)
               else sleep (1 # 10) ;; Ret (last_count', Next)) ;;
     Ret (snd p))
    (Ret (Locator s explicit_tabs_selector)).

Definition _wait_for_modal (fuel : nat) (cfg : AppConfig) (timeout_ms : Z)
  : prog (scope * locator) :=
  let candidates :=
    [modal (selectors cfg); ".modal.pjModal"; ".pjModal"; ".modal.in"; ".modal"] in
  t0 <- monotonic ;;
  let deadline := (t0 + inject_Z timeout_ms / 1000)%Q in
  or_else
    (while_do fuel
       (now <- monotonic ;; Ret (Qlt_bool now deadline))
       (found <- _iter_scopes
                   (fun (it : string * scope) =>
                      r <- for_each candidates
                             (fun sel =>
                                try_except
                                  (let loc := Locator (snd it) sel in
                                   n <- count loc ;;
                                   if Nat.eqb n 0 then Ret Next
                                   else
                                     v <- is_visible (First loc) ;;
                                     if v : bool then
                                       logger_info "modal scope=%s selector=%s"
                                                   [LStr (fst it); LStr sel] ;;
                                       Ret (Return (snd it, First loc))
                                     else Ret Next)
                                  is_Exception
                                  (Ret Next)) ;;
                      Ret (to_ctl r)) ;;
        match found with
        | Some x => Ret (Return x)
        | None => sleep (1 # 10) ;; Ret Next
        end))
    (Raise (RuntimeError
              ("未找到评教弹窗（selector=" ++ modal (selectors cfg) ++ "）"))).

Definition _rand_delay (cfg : AppConfig) : prog unit :=
  ms <- randint (min (delays_ms cfg)) (max (delays_ms cfg)) ;;
  sleep (inject_Z ms / 1000)%Q.

(** [f'text="{keywords[0]}"'] *)
Definition success_text : string := "text=" ++ Py.dq ++ "提交成功" ++ Py.dq.

Definition dialog_container : string :=
  "xpath=ancestor-or-self::*[(self::div or self::section or self::article) and "
  ++ "(contains(@class,'modal') or contains(@class,'layui') or contains(@class,'el-message-box') "
  ++ "or contains(@class,'swal2') or @role='dialog')][1]".

(** [f'button:visible:has-text("{txt}"), a:visible:has-text("{txt}")'] *)
Definition confirm_button (txt : string) : string :=
  "button:visible:has-text(" ++ Py.dq ++ txt ++ Py.dq ++ "), a:visible:has-text("
  ++ Py.dq ++ txt ++ Py.dq ++ ")".

Definition confirm_texts : list string := ["确认"; "确定"].

Definition close_selectors : list string :=
  ["button.close"; ".layui-layer-close"; ".layui-layer-ico";
   ".el-message-box__headerbtn"; ".swal2-confirm"].

(** One of the two inner loops of [_dismiss_success_dialog]: the first
    button found is clicked and the function returns [True]. *)
Definition click_first_button (container : node) (scope_name fmt : string)
           (names : list string) (selector_of : string -> string)
  : prog (ctl bool) :=
  r <- for_each names
         (fun x =>
            c <- node_first container ;;
            let btn := First (Within c (selector_of x)) in
            n <- count btn ;;
            if nonzero n then
              logger_info fmt [LStr scope_name; LStr x] ;;
              _safe_click btn ;;
              Ret (Return true)
            else Ret Next) ;;
  Ret (to_ctl r).

Definition _dismiss_success_dialog : prog bool :=
  r <- _iter_scopes
         (fun (it : string * scope) =>
            try_except
              (let hit := Locator (snd it) success_text in
               n <- count hit ;;
               if Nat.eqb n 0 then Ret Next
               else
                 let found := Within (First hit) dialog_container in
                 m <- count found ;;
                 let container : node :=
                   if Nat.eqb m 0 then inl (snd it) else inr found in
                 and_then
                   (click_first_button container (fst it)
                      "dismiss success dialog scope=%s button=%s"
                      confirm_texts confirm_button)
                   (click_first_button container (fst it)
                      "dismiss success dialog scope=%s close=%s"
                      close_selectors (fun sel => sel ++ ":visible")))
              is_Exception
              (Ret Next)) ;;
  Ret (match r with Some b => b | None => false end).

(** The status line of [_wait_modal_closed]. *)
Definition still_open (aria_hidden : option string) : string :=
  "[wait] modal still open (aria-hidden="
  ++ match aria_hidden with Some a => a | None => "None" end
  ++ ")... 请在页面里点【提交】并等待弹窗关闭".

(** The body of the loop of [_wait_modal_closed]; [start] is the time read
    before the loop and [last_print] the loop variable. *)
Definition poll_modal (modal_locator : locator) (max_wait_s : Z) (start : Q)
           (last_print : Q) : prog (Q * ctl unit) :=
  visible <- try_except
               (v <- is_visible modal_locator ;; Ret (Some v))
               is_Exception
               (Ret None) ;;
  match visible with
  | None => Ret (last_print, Return tt)
  | Some false => Ret (last_print, Return tt)
  | Some true =>
      _dismiss_success_dialog ;;
      now <- monotonic ;;
      last_print' <-
        (if Qle_bool 10 (now - last_print) then
           aria_hidden <- try_except
                            (get_attribute modal_locator "aria-hidden")
                            is_Exception
                            (Ret None) ;;
           print (still_open aria_hidden) ;;
           Ret now
         else Ret last_print) ;;
      expired <-
        (if (max_wait_s =? 0)%Z then Ret false
         else
           t <- monotonic ;;
           Ret (Qlt_bool (inject_Z max_wait_s) (t - start))) ;;
      if expired : bool then Raise (TimeoutError "等待手动提交超时")
      else sleep (1 # 10) ;; Ret (last_print', Next)
  end.


(** [f'label:has-text("{cfg.rating_text}")'] *)
Definition preferred_label (cfg : AppConfig) : string :=
  "label:has-text(" ++ Py.dq ++ rating_text cfg ++ Py.dq ++ ")".

Definition radio_inputs : string := "input[type=radio]".

(** The local function [_click_questions] of [_prefill_active_block];
    the loop variables are [(filled, skipped)]. *)
Definition _click_questions (cfg : AppConfig) (q_locator : locator) : prog Z :=
  q_total <- count q_locator ;;
  p <- for_ (R := unit) (range q_total) (0%Z, 0%Z)
         (fun i st =>
            let filled := fst st in
            let skipped := snd st in
            let q := Nth q_locator i in
            let radios := Within q radio_inputs in
            r <- count radios ;;
            if Nat.eqb r 0 then Ret ((filled, skipped + 1)%Z, Next)
            else
              let preferred := Within q (preferred_label cfg) in
              np <- count preferred ;;
              (if nonzero np then _safe_click (First preferred)
               else
                 let labels := Within q "label" in
                 nl <- count labels ;;
                 if nonzero nl then
                   nl' <- count labels ;;
                   _safe_click (Nth labels (Z.of_nat nl' - 1))
                 else
                   r' <- count radios ;;
                   act (SetChecked (Nth radios (Z.of_nat r' - 1)) true)) ;;
              _rand_delay cfg ;;
              Ret ((filled + 1, skipped)%Z, Next)) ;;
  let filled := fst (fst p) in
  let skipped := snd (fst p) in
  logger_info "questions total=%s filled=%s skipped(no-radio)=%s"
              [LNum (Z.of_nat q_total); LNum filled; LNum skipped] ;;
  Ret filled.

(** The local function [_parse_progress]. *)
Definition _parse_progress (text : string) : option (Z * Z) :=
  Py.search_progress text.

Definition _prefill_active_block (modal_locator : locator) (cfg : AppConfig)
  : prog unit :=
  let active := Within modal_locator (active_block (selectors cfg)) in
  act (ExpectToBeVisible active None) ;;
  let questions := Within active (question_block (selectors cfg)) in
  _click_questions cfg questions ;;
  let comment := Within active (comment_textarea (selectors cfg)) in
  act (ExpectToBeVisible comment None) ;;
  text <- choice (comment_templates cfg) ;;
  act (FillText comment text) ;;
  let done := Within active (done_text (selectors cfg)) in
  n <- count done ;;
  if nonzero n then
    t <- inner_text (First done) ;;
    let txt := Py.strip t in
    logger_info "progress=%s" [LStr txt] ;;
    match _parse_progress txt with
    | Some (a, b) =>
        if (a <? b)%Z then
          let all_questions := Within active ".tm:has(input[type=radio])" in
          m <- count all_questions ;;
          if nonzero m then
            m' <- count all_questions ;;
            logger_info "progress not complete; retry with .tm total=%s"
                        [LNum (Z.of_nat m')] ;;
            _click_questions cfg all_questions ;;
            t2 <- inner_text (First done) ;;
            logger_info "progress(after retry)=%s" [LStr (Py.strip t2)]
          else Ret tt
        else Ret tt
    | None => Ret tt
    end
  else Ret tt.

(** [f'.title .jsxx[data-gh="{gh}"]'] and its two companions. *)
Definition tab_selector (gh : string) : string :=
  ".title .jsxx[data-gh=" ++ Py.dq ++ gh ++ Py.dq ++ "]".

Definition active_tab_selector (gh : string) : string :=
  ".title .jsxx.active[data-gh=" ++ Py.dq ++ gh ++ Py.dq ++ "]".

Definition active_block_selector (gh : string) : string :=
  ".pjst .jslb.active[data-gh=" ++ Py.dq ++ gh ++ Py.dq ++ "]".

Definition tab_info_js : string :=
  "els => els.map(e => [e.getAttribute('data-gh'), (e.textContent || '').trim()])".

(** The body of [for gh, name in tab_info] in [assist_page]. *)
Definition prefill_explicit_tab (cfg : AppConfig) (modal_scope : scope)
           (modal : locator) (it : option string * string) : prog (ctl unit) :=
  match fst it with
  | None => Ret Next
  | Some gh =>
      if Py.is_empty gh then Ret Next
      else
        (if Py.is_empty (snd it) then Ret tt
         else logger_info "prefill teacher tab=%s" [LStr (snd it)]) ;;
        let tab := First (Locator modal_scope (tab_selector gh)) in
        _safe_click tab ;;
        act (ExpectToBeVisible (Locator modal_scope (active_tab_selector gh))
                               (Some 5000%Z)) ;;
        try_except
          (let active_block := Within modal (active_block_selector gh) in
           n <- count active_block ;;
           if nonzero n then
             act (ExpectToBeVisible (First active_block) (Some 5000%Z))
           else Ret tt)
          is_Exception
          (Ret tt) ;;
        act (WaitForTimeout 50) ;;
        _prefill_active_block modal cfg ;;
        Ret Next
  end.

Definition generic_confirm : string :=
  "button:visible:has-text(" ++ Py.dq ++ "确定" ++ Py.dq
  ++ "), a:visible:has-text(" ++ Py.dq ++ "确定" ++ Py.dq
  ++ "), span:visible:text-is(" ++ Py.dq ++ "确定" ++ Py.dq ++ ")".

(** From [submit_btn = ...] to the [_rand_delay] that ends the handling of
    one course; [assist_page] has this text twice, with two log lines. *)
Definition submit_and_confirm (fuel : nat) (cfg : AppConfig)
           (modal_scope : scope) (modal : locator) (log_line : string)
  : prog unit :=
  let submit_btn := Within modal (submit_button (selectors cfg)) in
  act (ExpectToBeVisible submit_btn None) ;;
  logger_info log_line [] ;;
  _safe_click submit_btn ;;
  t0 <- monotonic ;;
  let _deadline := (t0 + 5)%Q in
  while_ (R := unit) fuel
    (now <- monotonic ;; Ret (Qlt_bool now _deadline))
    false
    (fun _confirmed =>
       best_effort (act (KeyboardPress "Enter")) ;;
       p <- for_ (R := unit) [modal_scope; ThePage] _confirmed
              (fun scope_chk _confirmed =>
                 try_except
                   (let candidates :=
                      Or_ (Locator scope_chk (success_confirm_button (selectors cfg)))
                          (Locator scope_chk generic_confirm) in
                    n <- count candidates ;;
                    if Nat.ltb 0 n then
                      v <- is_visible (First candidates) ;;
                      if v : bool then
                        logger_info "Found confirm button, clicking..." [] ;;
                        _safe_click (First candidates) ;;
                        Ret (true, Break)
                      else Ret (_confirmed, Next)
                    else Ret (_confirmed, Next))
                   is_Exception
                   (Ret (_confirmed, Next))) ;;
       let _confirmed := fst p in
       if _confirmed : bool then Ret (_confirmed, Break)
       else
         v <- is_visible modal ;;
         if v : bool then sleep (1 # 2) ;; Ret (_confirmed, Next)
         else Ret (_confirmed, Break)) ;;
  act (ExpectToBeHidden modal (Some 10000%Z)) ;;
  _rand_delay cfg.

Definition assist_page (fuel : nat) (cfg : AppConfig) : prog unit :=
  st <- _wait_for_table fuel cfg 30000 ;;
  let table := snd st in
  let rows := Within table "tbody tr" in
  n <- count rows ;;
  logger_info "rows=%s" [LNum (Z.of_nat n)] ;;
  while_do fuel (Ret true)
    (let btns := Within table (pending_button (selectors cfg)) in
     k <- count btns ;;
     if Nat.eqb k 0 then Ret (Return tt)
     else
       let btn := First btns in
       let row := Within btn "xpath=ancestor::tr[1]" in
       let tds := Within row "td" in
       code <- _td_text tds 0 ;;
       name <- _td_text tds 1 ;;
       teacher <- _td_text tds 7 ;;
       let course := {| course_code := code; course_name := name;
                        teacher_name := teacher |} in
       logger_info "open pending course=%s teacher=%s"
                   [LStr (course_name course); LStr (teacher_name course)] ;;
       _safe_click btn ;;
       sm <- _wait_for_modal fuel cfg 30000 ;;
       let modal_scope := fst sm in
       let modal := snd sm in
       explicit_tabs <- _wait_for_explicit_teacher_tabs fuel modal_scope 5 ;;
       e <- count explicit_tabs ;;
       if nonzero e then
         tab_info <- evaluate_all explicit_tabs tab_info_js ;;
         logger_info "teacher tabs(explicit)=%s"
                     [LNum (Z.of_nat (length tab_info))] ;;
         for_each tab_info (prefill_explicit_tab cfg modal_scope modal) ;;
         submit_and_confirm fuel cfg modal_scope modal
                            "Auto submitting (explicit tabs)..." ;;
         Ret Next
       else
         teacher_tabs <- _collect_teacher_tabs (inl modal_scope) ;;
         (match teacher_tabs with
          | _ :: _ :: _ =>
              for_each (R := unit) teacher_tabs
                (fun (it : string * handle) =>
                   logger_info "prefill teacher tab=%s" [LStr (fst it)] ;;
                   _safe_click_handle (snd it) ;;
                   _wait_tab_active_handle fuel (snd it) 2 ;;
                   act (WaitForTimeout 50) ;;
                   _rand_delay cfg ;;
                   _prefill_active_block modal cfg ;;
                   Ret Next) ;;
              Ret tt
          | _ => _prefill_active_block modal cfg
          end) ;;
         submit_and_confirm fuel cfg modal_scope modal "Auto submitting..." ;;
         Ret Next) ;;
  Ret tt.

Definition next_by_id : string := "#kcpjDataTable_next".

Definition next_by_text : string :=
  "a:has-text(" ++ Py.dq ++ "后一页" ++ Py.dq ++ "), a:has-text("
  ++ Py.dq ++ "下一页" ++ Py.dq ++ "), button:has-text("
  ++ Py.dq ++ "后一页" ++ Py.dq ++ "), button:has-text("
  ++ Py.dq ++ "下一页" ++ Py.dq ++ ")".

(** The part of the loop of [assist_all_pages] that follows
    [assist_page]: [Return] where the Python text says [return], [Next]
    after the click that moves to the next page. *)
Definition turn_page (s : scope) : prog (ctl unit) :=
  let by_id := Locator s next_by_id in
  n <- count by_id ;;
  let next_btn := if Nat.eqb n 0 then Locator s next_by_text else by_id in
  m <- count next_btn ;;
  if Nat.eqb m 0 then Ret (Return tt)
  else
    let el := First next_btn in
    c <- get_attribute el "class" ;;
    let classes := or_empty c in
    a <- get_attribute el "aria-disabled" ;;
    let aria_disabled := or_empty a in
    parent_classes <- try_except
                        (pc <- get_attribute (Within el "xpath=..") "class" ;;
                         Ret (or_empty pc))
                        is_Exception
                        (Ret "") ;;
    if orb (Py.str_in "disabled" classes)
           (orb (Py.str_in "disabled" parent_classes)
                (String.eqb (Py.lower aria_disabled) "true"))
    then Ret (Return tt)
    else
      act (Click el None false) ;;
      act (WaitForTimeout 500) ;;
      Ret Next.

Definition assist_all_pages (fuel : nat) (cfg : AppConfig) : prog unit :=
  act (Goto (list_url cfg) "domcontentloaded") ;;
  while_do fuel (Ret true)
    (s <- _resolve_scope_fast cfg ;;
     assist_page fuel cfg ;;
     turn_page s) ;;
  Ret tt.

End Assistant.

(* ================================================================== *)
(** * run_assist.py and run_login.py *)
(* ================================================================== *)

(** The two entry programs.  The command line is the pair of [--config] and
    [--storage]; the configuration file is read by [load_config] before
    anything else happens, and its parsed content is the argument [data]. *)
Module Entry.

Import Config.

Definition _setup_logger : prog unit :=
  mkdir "logs" ;;
  ts <- strftime "%Y%m%d_%H%M%S" ;;
  let log_path := "logs/run_" ++ ts ++ ".log" in
  open_log log_path ;;
  logger_info "log=%s" [LStr log_path].

Definition run_assist_main (fuel : nat) (data : Document) (storage : string)
  : prog Z :=
  cfg <- of_result (load_config data) ;;
  _setup_logger ;;
  act StartPlaywright ;;
  try_finally
    (act (Launch (headless (browser cfg)) (slow_mo_ms (browser cfg))) ;;
     act (NewContext (Some storage)) ;;
     act NewPage ;;
     try_finally
       (try_except_as
          (Assistant.assist_all_pages fuel cfg)
          is_Exception
          (fun e =>
             mkdir "logs/screenshots" ;;
             ts <- strftime "%Y%m%d_%H%M%S" ;;
             let png := "logs/screenshots/error_" ++ ts ++ ".png" in
             act (Screenshot png true) ;;
             logger_exception "error; screenshot=%s" [LStr png] ;;
             Raise e))
       (act CloseContext ;; act CloseBrowser))
    (act StopPlaywright) ;;
  Ret 0%Z.

Definition run_login_main (data : Document) (storage : string) : prog Z :=
  cfg <- of_result (load_config data) ;;
  act StartPlaywright ;;
  try_finally
    (act (Launch (headless (browser cfg)) (slow_mo_ms (browser cfg))) ;;
     act (NewContext None) ;;
     act NewPage ;;
     act (Goto (login_url cfg) "domcontentloaded") ;;
     print "请在打开的页面中手动登录。登录完成后回到这里按回车保存登录态…" ;;
     input ;;
     act (StorageState storage) ;;
     print ("已保存登录态到 " ++ storage) ;;
     act CloseBrowser)
    (act StopPlaywright) ;;
  Ret 0%Z.

End Entry.

(* ================================================================== *)
(** * Running a program *)
(* ================================================================== *)

(** One operation of a run with the answer it got. *)
Inductive event : Type :=
| Ev (o : op) (a : answer o).

Definition ev_op (e : event) : op :=
  match e with Ev o _ => o end.

(** How a run ends: the function returned, an exception left it, or it was
    still looping when its iterations ran out. *)
Inductive outcome (A : Type) : Type :=
| Returned (a : A)
| Raised (e : exn)
| Running.

Arguments Returned {A} a.
Arguments Raised {A} e.
Arguments Running {A}.

(** The result of a run: its trace, its outcome and the environment it
    leaves. *)
Record ran (W A : Type) : Type := Ran {
  trace : list event;
  outcome_of : outcome A;
  final : W
}.

Arguments Ran {W A} trace outcome_of final.
Arguments trace {W A} r.
Arguments outcome_of {W A} r.
Arguments final {W A} r.

Definition ops {W A} (r : ran W A) : list op := map ev_op (trace r).

Section Run.

(** An environment is a state [W] that answers every operation and moves
    on. *)
Variable W : Type.
Variable ask : forall o : op, W -> answer o * W.

Definition after {A} (e : event) (r : ran W A) : ran W A :=
  Ran (e :: trace r) (outcome_of r) (final r).

Fixpoint run {A} (m : prog A) (w : W) : ran W A :=
  match m with
  | Ret a => Ran [] (Returned a) w
  | Raise e => Ran [] (Raised e) w
  | Spin => Ran [] Running w
  | Do o k => after (Ev o (fst (ask o w))) (run (k (fst (ask o w))) (snd (ask o w)))
  end.

(** Sequencing two runs. *)
Definition then_run {A B} (r : ran W A) (f : A -> W -> ran W B) : ran W B :=
  match outcome_of r with
  | Returned a =>
      let r2 := f a (final r) in
      Ran (trace r ++ trace r2) (outcome_of r2) (final r2)
  | Raised e => Ran (trace r) (Raised e) (final r)
  | Running => Ran (trace r) Running (final r)
  end.

(** A run whose exceptions of one kind are handled. *)
Definition catch_run {A} (r : ran W A) (handles : exn -> bool)
           (h : exn -> W -> ran W A) : ran W A :=
  match outcome_of r with
  | Raised e =>
      if handles e then
        let r2 := h e (final r) in
        Ran (trace r ++ trace r2) (outcome_of r2) (final r2)
      else r
  | _ => r
  end.

End Run.

(** ** Two kinds of environment *)

(** A snapshot of the page and of everything else: each operation has one
    answer. *)
Definition snapshot : Type := forall o : op, answer o.

(** The environment that never changes. *)
Definition still (d : snapshot) (o : op) (w : unit) : answer o * unit :=
  (d o, tt).

(** The environment that changes while the program sleeps: [obs k] is the
    snapshot after [k] calls of [time.sleep]. *)
Definition ticking (obs : nat -> snapshot) (o : op) (k : nat) : answer o * nat :=
  (obs k o, match o with Sleep _ => S k | _ => k end).

(** A page with nothing on it, on which every call succeeds. *)
Definition blank : snapshot :=
  fun o =>
    match o return answer o with
    | PageFrames => [0%nat]
    | PageMainFrame => 0%nat
    | FrameUrl _ => "about:blank"
    | PageUrl => "about:blank"
    | Count _ => Ok 0%nat
    | InnerText _ => Ok ""
    | GetAttribute _ _ => Ok None
    | IsVisible _ => Ok false
    | BoundingBox _ => Ok None
    | ElementHandles _ => Ok []
    | EvaluateAll _ _ => Ok []
    | Act _ => Ok tt
    | Monotonic => 0%Q
    | Sleep _ => tt
    | RandomBits => 0%N
    | LoggerInfo _ _ => tt
    | LoggerException _ _ => tt
    | PrintLine _ => tt
    | ReadLine => ""
    | Strftime _ => "20260101_000000"
    | Mkdir _ => tt
    | OpenLog _ => tt
    end.

(** A snapshot given by the answers that differ from those of [base]. *)
Definition except_for (base : snapshot) (f : forall o : op, option (answer o))
  : snapshot :=
  fun o => match f o with Some a => a | None => base o end.

(** ** Equality tests used to describe pages *)

Definition scope_eqb (a b : scope) : bool :=
  match a, b with
  | ThePage, ThePage => true
  | Frame f, Frame g => Nat.eqb f g
  | _, _ => false
  end.

Fixpoint locator_eqb (a b : locator) : bool :=
  match a, b with
  | Locator s x, Locator t y => andb (scope_eqb s t) (String.eqb x y)
  | Within l x, Within m y => andb (locator_eqb l m) (String.eqb x y)
  | First l, First m => locator_eqb l m
  | Nth l i, Nth m j => andb (locator_eqb l m) (Z.eqb i j)
  | Or_ l1 l2, Or_ m1 m2 => andb (locator_eqb l1 m1) (locator_eqb l2 m2)
  | FilterHasText l x, FilterHasText m y => andb (locator_eqb l m) (String.eqb x y)
  | Element h, Element k => Nat.eqb h k
  | _, _ => false
  end.

(** ** What holds of every run *)

(** [sat Pop Pexn Pspin Pret m]: whatever the environment answers, every
    operation of [m] satisfies [Pop], every exception that leaves [m]
    satisfies [Pexn], every returned value satisfies [Pret], and [m] runs
    out of iterations only if [Pspin]. *)
Fixpoint sat {A} (Pop : op -> Prop) (Pexn : exn -> Prop) (Pspin : Prop)
         (Pret : A -> Prop) (m : prog A) : Prop :=
  match m with
  | Ret a => Pret a
  | Raise e => Pexn e
  | Spin => Pspin
  | Do o k => Pop o /\ forall a, sat Pop Pexn Pspin Pret (k a)
  end.


(* ================================================================== *)
(** * Runs on a page that does not change *)
(* ================================================================== *)

Definition result_in {A} (d : snapshot) (m : prog A) : outcome A :=
  outcome_of (run (still d) m tt).

Definition trace_in {A} (d : snapshot) (m : prog A) : list event :=
  trace (run (still d) m tt).

Definition ops_in {A} (d : snapshot) (m : prog A) : list op :=
  map ev_op (trace_in d m).

(** The operations and the outcome of a run on a page that does not
    change, computed in one pass; [acc] holds the operations performed so
    far, last one first. *)
Fixpoint walk {A} (d : snapshot) (m : prog A) (acc : list op)
  : list op * outcome A :=
  match m with
  | Ret a => (rev acc, Returned a)
  | Raise e => (rev acc, Raised e)
  | Spin => (rev acc, Running)
  | Do o k => walk d (k (d o)) (o :: acc)
  end.


(* ================================================================== *)
(** * What the functions are expected to compute *)
(* ================================================================== *)

Module Expected.

Import Config Assistant.

(** ** Scope resolution *)

(** The candidate scopes of a page: the top-level document, then the
    frames in the order of [page.frames], the main frame left out. *)
Definition candidate_scopes (d : snapshot) : list scope :=
  ThePage ::
  map Frame (filter (fun f => negb (Nat.eqb f (d PageMainFrame))) (d PageFrames)).

(** The selector has a nonzero match count in the scope; a query that
    raises counts as no match. *)
Definition has_match (d : snapshot) (sel : string) (s : scope) : bool :=
  match d (Count (Locator s sel)) with
  | Ok n => nonzero n
  | Err _ => false
  end.

Definition first_match (d : snapshot) (sel : string) : option scope :=
  find (has_match d sel) (candidate_scopes d).

(** First the configured selector, then the fallback selector, then the
    page itself. *)
Definition resolved_scope (d : snapshot) (cfg : AppConfig) : scope :=
  match first_match d (table (selectors cfg)) with
  | Some s => s
  | None =>
      match first_match d fallback_table with
      | Some s => s
      | None => ThePage
      end
  end.

(** The entries of [scopes] that [build_scopes] adds for the frames. *)
Definition named (d : snapshot) (it : nat * frame) : string * scope :=
  (frame_name (fst it) (d (FrameUrl (snd it))), Frame (snd it)).

Definition not_main (d : snapshot) (it : nat * frame) : bool :=
  negb (Nat.eqb (snd it) (d PageMainFrame)).

(** ** Filling the questions *)



























(** ** Heuristic teacher tabs *)




(** The text of a candidate, cleaned; [None] when it cannot be read. *)
Definition text_of (d : snapshot) (h : handle) : option string :=
  match d (InnerText (Element h)) with
  | Ok t => Some (clean_text t)
  | Err _ => None
  end.

Definition box_of (d : snapshot) (h : handle) : option box :=
  match d (BoundingBox (Element h)) with
  | Ok b => b
  | Err _ => None
  end.

Definition x_of (d : snapshot) (h : handle) : Q :=
  match box_of d h with
  | Some b => box_x b
  | None => 0%Q
  end.

(** A candidate that remains after the two exclusions: its text is not
    empty and not in the skip set, and its box, if it has one, is not more
    than 220 px below the top edge. *)
Definition remains (d : snapshot) (top_y : Q) (h : handle) : bool :=
  match text_of d h with
  | None => false
  | Some txt =>
      andb (negb (Py.is_empty txt))
           (andb (negb (mem txt skip_text))
                 (negb (too_low (box_of d h) top_y)))
  end.

Definition entry_of (d : snapshot) (h : handle) (txt : string) : entry :=
  (x_of d h, txt, h).

(** Of the remaining candidates, the first one of each text; [seen] holds
    the texts already taken. *)
Fixpoint first_of_each (d : snapshot) (top_y : Q) (seen : list string)
         (hs : list handle) : list entry :=
  match hs with
  | [] => []
  | h :: rest =>
      match text_of d h with
      | Some txt =>
          if andb (remains d top_y h) (negb (mem txt seen))
          then entry_of d h txt :: first_of_each d top_y (txt :: seen) rest
          else first_of_each d top_y seen rest
      | None => first_of_each d top_y seen rest
      end
  end.



(** The tabs: the remaining candidates, one per text, from left to
    right. *)
Definition teacher_tabs (d : snapshot) (top_y : Q) (hs : list handle)
  : list (string * handle) :=
  map (fun t => (entry_txt t, entry_handle t))
      (sort_by_x (first_of_each d top_y [] hs)).


(** ** The click ladder *)






(** ** Pagination *)

(** An attribute as the program reads it: [None] and a failed read of
    the parent both give the empty string. *)
Definition attribute (d : snapshot) (l : locator) (name : string) : string :=
  match d (GetAttribute l name) with
  | Ok v => or_empty v
  | Err _ => ""
  end.

(** The next-page control: by id, and by text when there is none by id. *)
Definition next_button (d : snapshot) (s : scope) : locator :=
  match d (Count (Locator s next_by_id)) with
  | Ok O => Locator s next_by_text
  | _ => Locator s next_by_id
  end.

Definition next_absent (d : snapshot) (s : scope) : bool :=
  match d (Count (next_button d s)) with
  | Ok O => true
  | _ => false
  end.

Definition next_element (d : snapshot) (s : scope) : locator :=
  First (next_button d s).

(** The last page as the claim has it: the control is absent, or
    "disabled" occurs in its class or in the class of its parent, or its
    [aria-disabled] attribute equals ["true"]. *)
Definition last_page_as_claimed (d : snapshot) (s : scope) : bool :=
  let el := next_element d s in
  orb (next_absent d s)
 (orb (Py.str_in "disabled" (attribute d el "class"))
 (orb (Py.str_in "disabled" (attribute d (Within el "xpath=..") "class"))
      (String.eqb (attribute d el "aria-disabled") "true"))).

(** The last page as the program has it: the same, with the value of
    [aria-disabled] compared whatever its letter case. *)
Definition last_page (d : snapshot) (s : scope) : bool :=
  let el := next_element d s in
  orb (next_absent d s)
 (orb (Py.str_in "disabled" (attribute d el "class"))
 (orb (Py.str_in "disabled" (attribute d (Within el "xpath=..") "class"))
      (String.eqb (Py.lower (attribute d el "aria-disabled")) "true"))).

(** The click that moves to the next page and the pause after it. *)
Definition next_click (d : snapshot) (s : scope) : op :=
  Act (Click (next_element d s) None false).

Definition next_pause : op := Act (WaitForTimeout 500).

(** The queries that precede the decision. *)
Definition next_queries (d : snapshot) (s : scope) : list op :=
  [Count (Locator s next_by_id); Count (next_button d s)] ++
  (if next_absent d s then []
   else [GetAttribute (next_element d s) "class";
         GetAttribute (next_element d s) "aria-disabled";
         GetAttribute (Within (next_element d s) "xpath=..") "class"]).

(** The operations and the outcome of the pagination step: on the last
    page nothing is clicked and the function returns; otherwise the
    control is clicked and, the click done, the program pauses 500 ms and
    goes round the loop again. *)
Definition page_turn (d : snapshot) (s : scope)
  : list op * outcome (ctl unit) :=
  if last_page d s then (next_queries d s, Returned (Return tt))
  else
    match d (next_click d s) with
    | Err e => ((next_queries d s ++ [next_click d s])%list, Raised (Browser e))
    | Ok _ =>
        ((next_queries d s ++ [next_click d s; next_pause])%list,
         match d next_pause with
         | Err e => Raised (Browser e)
         | Ok _ => Returned Next
         end)
    end.

(** ** Explicit teacher tabs *)











(** ** The wait for the modal to close *)

(** The query that opens every call of [_dismiss_success_dialog]. *)
Definition is_dismiss_probe (o : op) : bool :=
  match o with
  | Count (Locator ThePage sel) => String.eqb sel success_text
  | _ => false
  end.

(** How many times a run tried to dismiss the success dialog. *)
Definition dismiss_attempts (performed : list op) : nat :=
  length (filter is_dismiss_probe performed).






(** The wait has expired at the [j]-th poll, seen from [start]. *)
Definition expired_from (obs : nat -> snapshot) (max_wait_s : Z) (start : Q)
           (j : nat) : bool :=
  andb (negb (max_wait_s =? 0)%Z)
       (Qlt_bool (inject_Z max_wait_s) (obs j Monotonic - start)%Q).

(** ** Independence of the manual-submission wait *)

(** Two configurations that agree on every field but
    [manual_submit_max_wait_s]. *)
Definition differ_only_in_manual_wait (c1 c2 : AppConfig) : Prop :=
  login_url c1 = login_url c2 /\
  list_url c1 = list_url c2 /\
  browser c1 = browser c2 /\
  rating_text c1 = rating_text c2 /\
  comment_templates c1 = comment_templates c2 /\
  delays_ms c1 = delays_ms c2 /\
  selectors c1 = selectors c2.

(** What an operation of the flow has to satisfy: a wait for the modal to
    be hidden has the timeout 10000 ms, and the operation is none of
    those that only [_wait_modal_closed] performs, the status line and
    the reading of [aria-hidden]. *)
Definition outside_manual_wait (o : op) : Prop :=
  match o with
  | Act (ExpectToBeHidden _ t) => t = Some 10000%Z
  | PrintLine _ => False
  | GetAttribute _ name => String.eqb name "aria-hidden" = false
  | _ => True
  end.

(** The exception that only [_wait_modal_closed] raises. *)
Definition not_manual_timeout (e : exn) : Prop :=
  match e with
  | TimeoutError _ => False
  | _ => True
  end.

(** ** A configuration written out in full *)

(** The document that gives every key [load_config] reads, with the
    values of [cfg]. *)
Definition document_of (cfg : AppConfig) : Document := {|
  doc_login_url := Some (login_url cfg);
  doc_list_url := Some (list_url cfg);
  doc_headless := Some (headless (browser cfg));
  doc_slow_mo_ms := Some (slow_mo_ms (browser cfg));
  doc_rating_text := Some (rating_text cfg);
  doc_comment_templates := Some (comment_templates cfg);
  doc_delays_min := Some (min (delays_ms cfg));
  doc_delays_max := Some (max (delays_ms cfg));
  doc_manual_submit_max_wait_s := Some (manual_submit_max_wait_s cfg);
  doc_selectors :=
    [("table", Config.table (selectors cfg));
     ("pending_button", Config.pending_button (selectors cfg));
     ("modal", Config.modal (selectors cfg));
     ("teacher_tabs", Config.teacher_tabs (selectors cfg));
     ("active_block", Config.active_block (selectors cfg));
     ("question_block", Config.question_block (selectors cfg));
     ("comment_textarea", Config.comment_textarea (selectors cfg));
     ("done_text", Config.done_text (selectors cfg));
     ("submit_button", Config.submit_button (selectors cfg));
     ("success_confirm_button", Config.success_confirm_button (selectors cfg))]
|}.

(** ** Operations by kind *)

Definition is_log (o : op) : bool :=
  match o with
  | LoggerInfo _ _ => true
  | _ => false
  end.

(** The operations of a run, its log lines left out. *)
Definition without_logs (ops : list op) : list op :=
  filter (fun o => negb (is_log o)) ops.

(** ** Plain text *)

(** An ASCII character that is not a digit. *)
Definition plain (a : ascii) : bool :=
  andb (nat_of_ascii a <? 128)%nat
       (match Py.digit_val a with Some _ => false | None => true end).

Fixpoint all_plain (s : string) : bool :=
  match s with
  | EmptyString => true
  | String a rest => andb (plain a) (all_plain rest)
  end.

(** Spaces only. *)
Fixpoint blanks (s : string) : bool :=
  match s with
  | EmptyString => true
  | String a rest => andb (Ascii.eqb a " "%char) (blanks rest)
  end.

(** The text is empty or begins with an ASCII character that is not a
    digit. *)
Definition no_digit_ahead (s : string) : bool :=
  match s with
  | EmptyString => true
  | String a _ => plain a
  end.

(** ** What a run does to the page *)

(** An operation that only looks: a query of the page, the clock, a
    pause, a log line. *)
Definition looks_only (o : op) : Prop :=
  match o with
  | PageFrames | PageMainFrame | FrameUrl _ | PageUrl
  | Count _ | InnerText _ | GetAttribute _ _ | IsVisible _ | BoundingBox _
  | ElementHandles _ | Monotonic | Sleep _ | LoggerInfo _ _ => True
  | _ => False
  end.

(** A run that only looked and did not end with an exception. *)
Definition only_looked {W A} (r : ran W A) : Prop :=
  Forall (fun e => looks_only (ev_op e)) (trace r) /\
  forall e, outcome_of r <> Raised e.

(** The scope in which a locator is resolved; an element handle has
    none. *)
Fixpoint scope_of (l : locator) : option scope :=
  match l with
  | Locator s _ => Some s
  | Within l' _ => scope_of l'
  | First l' => scope_of l'
  | Nth l' _ => scope_of l'
  | Or_ l' _ => scope_of l'
  | FilterHasText l' _ => scope_of l'
  | Element _ => None
  end.

(** The operations of [_wait_for_table]: looks, and checks of one second
    that a table is visible. *)
Definition looks_for_table (o : op) : Prop :=
  match o with
  | Act (ExpectToBeVisible _ t) => t = Some 1000%Z
  | _ => looks_only o
  end.

Definition from_browser (e : exn) : Prop :=
  match e with
  | Browser _ => True
  | _ => False
  end.

(** The selectors [_wait_for_modal] tries, in this order. *)
Definition modal_candidates (cfg : AppConfig) : list string :=
  [modal (selectors cfg); ".modal.pjModal"; ".pjModal"; ".modal.in"; ".modal"].

Definition modal_missing (cfg : AppConfig) : exn :=
  RuntimeError ("未找到评教弹窗（selector=" ++ modal (selectors cfg) ++ "）").

(** What the flow fills in and opens comes from the configuration: a
    text typed is one of the comments, an address opened is the list. *)
Definition as_configured (cfg : AppConfig) (o : op) : Prop :=
  match o with
  | Act (FillText _ v) => In v (comment_templates cfg)
  | Act (Goto url _) => url = list_url cfg
  | _ => True
  end.

(** ** The login helper *)

(** An operation that does not act on the content of the page. *)
Definition hands_off (o : op) : Prop :=
  match o with
  | Act (Click _ _ _) | Act (ScrollIntoViewIfNeeded _ _) | Act (Hover _ _)
  | Act (Evaluate _ _) | Act (SetChecked _ _) | Act (FillText _ _)
  | Act (KeyboardPress _) | EvaluateAll _ _ => False
  | _ => True
  end.

(** ** The entry program *)

Definition screenshot_path (d : snapshot) : string :=
  "logs/screenshots/error_" ++ d (Strftime "%Y%m%d_%H%M%S") ++ ".png".

Definition log_path (d : snapshot) : string :=
  "logs/run_" ++ d (Strftime "%Y%m%d_%H%M%S") ++ ".log".

(** The operations of [run_assist.main] before the flow, after a flow
    that returned, and after a flow that raised. *)
Definition opening (d : snapshot) (cfg : AppConfig) (storage : string) : list op :=
  [Mkdir "logs"; Strftime "%Y%m%d_%H%M%S"; OpenLog (log_path d);
   LoggerInfo "log=%s" [LStr (log_path d)];
   Act StartPlaywright;
   Act (Launch (headless (browser cfg)) (slow_mo_ms (browser cfg)));
   Act (NewContext (Some storage)); Act NewPage].

Definition closing : list op :=
  [Act CloseContext; Act CloseBrowser; Act StopPlaywright].

Definition reporting (d : snapshot) : list op :=
  [Mkdir "logs/screenshots"; Strftime "%Y%m%d_%H%M%S";
   Act (Screenshot (screenshot_path d) true);
   LoggerException "error; screenshot=%s" [LStr (screenshot_path d)]].

(** Scanning the operations of a run, the return key is read before a
    login state is saved, if one is saved at all. *)
Fixpoint saves_after_return (performed : list op) : bool :=
  match performed with
  | [] => true
  | ReadLine :: _ => true
  | Act (StorageState _) :: _ => false
  | _ :: rest => saves_after_return rest
  end.

(** The actions among [performed] succeed on the page [d]. *)
Definition succeed (d : snapshot) (performed : list op) : Prop :=
  forall a, In (Act a) performed -> d (Act a) = Ok tt.

(** ** The waits and the clock *)










(** The explicit tabs are there; a query that fails says no. *)
Definition tabs_there (d : snapshot) (s : scope) : bool :=
  match d (Count (Locator s explicit_tabs_selector)) with
  | Ok n => nonzero n
  | Err _ => false
  end.



(** ** Submitting *)

Definition submit_of (cfg : AppConfig) (modal : locator) : locator :=
  Within modal (submit_button (selectors cfg)).

(** The first of the confirm buttons of a scope. *)
Definition confirm_of (cfg : AppConfig) (s : scope) : locator :=
  First (Or_ (Locator s (success_confirm_button (selectors cfg)))
             (Locator s generic_confirm)).

(** The element an operation acts on, if it acts on one by a click, a
    scroll, a hover or a script. *)
Definition click_target (o : op) : option locator :=
  match o with
  | Act (Click l _ _) | Act (ScrollIntoViewIfNeeded l _) | Act (Hover l _)
  | Act (Evaluate l _) => Some l
  | _ => None
  end.

(** What [submit_and_confirm] may do to the page: click the submit
    button or the first confirm button of the scope of the modal or of
    the page, press Enter, and wait for elements to show or hide. *)
Definition submits_only (cfg : AppConfig) (modal_scope : scope) (modal : locator)
           (o : op) : Prop :=
  match o with
  | Act (KeyboardPress key) => key = "Enter"
  | Act (ExpectToBeVisible _ _) | Act (ExpectToBeHidden _ _) => True
  | Act _ =>
      match click_target o with
      | Some l => l = submit_of cfg modal \/ l = confirm_of cfg modal_scope \/
                  l = confirm_of cfg ThePage
      | None => False
      end
  | EvaluateAll _ _ => False
  | _ => True
  end.

(** The operations of a safe click act on its element only. *)
Definition clicks_only (l : locator) (o : op) : Prop :=
  match o with
  | Act _ => click_target o = Some l
  | LoggerInfo _ _ => True
  | _ => False
  end.

(** ** The success dialog *)

(** The success text is in no scope of the page. *)
Definition no_success_text (d : snapshot) : Prop :=
  forall s, In s (candidate_scopes d) -> has_match d success_text s = false.

(** ** How the flow can fail *)

(** An error of the browser, or the modal that did not appear. *)
Definition flow_failure (cfg : AppConfig) (e : exn) : Prop :=
  from_browser e \/ e = modal_missing cfg.

End Expected.

(* ================================================================== *)
(** * Sample configuration and pages *)
(* ================================================================== *)

Module Sample.

Import Config Assistant.

(** The document with the two required keys and one comment; everything
    else takes its default. *)
Definition document : Document := {|
  doc_login_url := Some "https://portal.example/login";
  doc_list_url := Some "https://portal.example/list";
  doc_headless := None;
  doc_slow_mo_ms := None;
  doc_rating_text := None;
  doc_comment_templates := Some ["老师讲课认真。"];
  doc_delays_min := Some 100%Z;
  doc_delays_max := Some 350%Z;
  doc_manual_submit_max_wait_s := None;
  doc_selectors := []
|}.

(** The configuration [load_config] builds from it. *)
Definition cfg : AppConfig := {|
  login_url := "https://portal.example/login";
  list_url := "https://portal.example/list";
  browser := {| headless := false; slow_mo_ms := 0 |};
  rating_text := "很满意";
  comment_templates := ["老师讲课认真。"];
  delays_ms := {| min := 100; max := 350 |};
  manual_submit_max_wait_s := 0;
  selectors := {|
    table := "#kcpjDataTable";
    pending_button := "td:last-child button:text-is(" ++ Py.dq ++ "评价" ++ Py.dq ++ ")";
    modal := ".modal:visible";
    teacher_tabs := ".title .jsxx";
    active_block := ".pjst .jslb.active";
    question_block := ".tm[data-fs=" ++ Py.dq ++ "5" ++ Py.dq ++ "]";
    comment_textarea := "textarea.form-control.da";
    done_text := ".tmtj span";
    submit_button := ".modal-footer button.sure";
    success_confirm_button :=
      ".layui-layer-btn0, .bootbox-accept, button:has-text('确定'), a:has-text('确定')"
  |}
|}.








(** A page that shows the table with no pending course, and whose
    next-page control, found by id, is enabled. *)
Definition page_with_next : snapshot :=
  except_for blank
    (fun o =>
       match o return option (answer o) with
       | Count l =>
           if locator_eqb l (Locator ThePage next_by_id) then Some (Ok 1%nat)
           else if orb (locator_eqb l (Locator ThePage "#kcpjDataTable"))
                       (locator_eqb l (First (Locator ThePage "#kcpjDataTable")))
                then Some (Ok 1%nat)
                else None
       | GetAttribute l name =>
           if andb (locator_eqb l (First (Locator ThePage next_by_id)))
                   (String.eqb name "class")
           then Some (Ok (Some "paginate_button next"))
           else None
       | _ => None
       end).

(** The same page with [aria-disabled="TRUE"] on the control. *)
Definition page_with_next_aria_upper : snapshot :=
  except_for page_with_next
    (fun o =>
       match o return option (answer o) with
       | GetAttribute l name =>
           if andb (locator_eqb l (First (Locator ThePage next_by_id)))
                   (String.eqb name "aria-disabled")
           then Some (Ok (Some "TRUE"))
           else None
       | _ => None
       end).






(** The sample configuration with a manual-submission wait of a minute. *)
Definition cfg_waiting_a_minute : AppConfig := {|
  login_url := login_url cfg;
  list_url := list_url cfg;
  browser := browser cfg;
  rating_text := rating_text cfg;
  comment_templates := comment_templates cfg;
  delays_ms := delays_ms cfg;
  manual_submit_max_wait_s := 60;
  selectors := selectors cfg
|}.

(** A browser that cannot open any address. *)
Definition offline : snapshot :=
  except_for blank
    (fun o =>
       match o return option (answer o) with
       | Act (Goto _ _) => Some (Err (PlaywrightError "net::ERR_INTERNET_DISCONNECTED"))
       | _ => None
       end).


End Sample.
(* ================================================================== *)
(** * Properties of runs *)
(* ================================================================== *)

Unset Implicit Arguments.

Section RunFacts.

Variable W : Type.
Variable ask : forall o : op, W -> answer o * W.

Lemma run_bind {A B} (m : prog A) (f : A -> prog B) (w : W) :
  run ask (bind m f) w = then_run (run ask m w) (fun a w' => run ask (f a) w').
Proof.
  revert w. induction m as [a | e | | o k IH]; intros w; simpl.
  - unfold then_run; simpl. destruct (run ask (f a) w); reflexivity.
  - reflexivity.
  - reflexivity.
  - rewrite IH. unfold then_run, after; simpl.
    destruct (run ask (k (fst (ask o w))) (snd (ask o w))) as [tr out wf];
      simpl.
    destruct out; reflexivity.
Qed.

Lemma run_try_except {A} (m : prog A) (handles : exn -> bool)
      (handler : prog A) (w : W) :
  run ask (try_except m handles handler) w =
  catch_run (run ask m w) handles (fun _ w' => run ask handler w').
Proof.
  revert w. induction m as [a | e | | o k IH]; intros w; simpl.
  - reflexivity.
  - unfold catch_run; simpl. destruct (handles e); [ | reflexivity ].
    destruct (run ask handler w); reflexivity.
  - reflexivity.
  - rewrite IH. unfold catch_run, after; simpl.
    destruct (run ask (k (fst (ask o w))) (snd (ask o w))) as [tr out wf];
      simpl.
    destruct out as [a | e | ]; try reflexivity.
    destruct (handles e); reflexivity.
Qed.




(** What [sat] promises holds of every run. *)
Lemma sat_run {A} Pop Pexn (Pspin : Prop) (Pret : A -> Prop) (m : prog A) :
  sat Pop Pexn Pspin Pret m ->
  forall w,
    Forall (fun e => Pop (ev_op e)) (trace (run ask m w)) /\
    match outcome_of (run ask m w) with
    | Returned a => Pret a
    | Raised e => Pexn e
    | Running => Pspin
    end.
Proof.
  induction m as [a | e | | o k IH]; simpl; intros H w.
  - split; [ constructor | exact H ].
  - split; [ constructor | exact H ].
  - split; [ constructor | exact H ].
  - destruct H as [Ho Hk].
    destruct (IH _ (Hk (fst (ask o w))) (snd (ask o w))) as [Ht Hr].
    split; [ constructor; [ exact Ho | exact Ht ] | exact Hr ].
Qed.

End RunFacts.

(** ** Rules for [sat] *)

Section SatRules.

Variable Pop : op -> Prop.
Variable Pexn : exn -> Prop.
Variable Pspin : Prop.

Lemma sat_weaken {A} (P Q : A -> Prop) (m : prog A) :
  (forall a, P a -> Q a) -> sat Pop Pexn Pspin P m -> sat Pop Pexn Pspin Q m.
Proof.
  intros HPQ. induction m as [a | e | | o k IH]; simpl; auto.
  intros [Ho Hk]. split; auto.
Qed.

Lemma sat_bind {A B} (Q : A -> Prop) (R : B -> Prop) (m : prog A)
      (f : A -> prog B) :
  sat Pop Pexn Pspin Q m ->
  (forall a, Q a -> sat Pop Pexn Pspin R (f a)) ->
  sat Pop Pexn Pspin R (bind m f).
Proof.
  intros Hm Hf. induction m as [a | e | | o k IH]; simpl in *; auto.
  destruct Hm as [Ho Hk]. split; auto.
Qed.

Lemma sat_bind_any {A B} (R : B -> Prop) (m : prog A) (f : A -> prog B) :
  sat Pop Pexn Pspin (fun _ => True) m ->
  (forall a, sat Pop Pexn Pspin R (f a)) ->
  sat Pop Pexn Pspin R (bind m f).
Proof. intros Hm Hf. apply sat_bind with (Q := fun _ => True); auto. Qed.

Lemma sat_try_except {A} (R : A -> Prop) (m : prog A) handles handler :
  sat Pop (fun e => handles e = false -> Pexn e) Pspin R m ->
  sat Pop Pexn Pspin R handler ->
  sat Pop Pexn Pspin R (try_except m handles handler).
Proof.
  intros Hm Hh. induction m as [a | e | | o k IH]; simpl in *.
  - exact Hm.
  - destruct (handles e); [ exact Hh | apply Hm; reflexivity ].
  - exact Hm.
  - destruct Hm as [Ho Hk]. split; auto.
Qed.

Lemma sat_for_ {T S R} (I : S -> Prop) (Q : R -> Prop) (xs : list T) (s : S)
      (body : T -> S -> prog (S * ctl R)) :
  I s ->
  (forall x s, I s ->
     sat Pop Pexn Pspin
         (fun p => I (fst p) /\ forall r, snd p = Return r -> Q r) (body x s)) ->
  sat Pop Pexn Pspin
      (fun p => I (fst p) /\ forall r, snd p = Some r -> Q r) (for_ xs s body).
Proof.
  intros Hs Hbody. revert s Hs.
  induction xs as [ | x rest IH]; intros s Hs; simpl.
  - split; [ exact Hs | discriminate ].
  - eapply sat_bind; [ apply Hbody; exact Hs | ].
    intros [s' c] [HI HQ]; simpl in *. destruct c; simpl.
    + apply IH; exact HI.
    + split; [ exact HI | discriminate ].
    + split; [ exact HI | ]. intros r' E. inversion E; subst. apply HQ; reflexivity.
Qed.

Lemma sat_while_ {S R} (I : S -> Prop) (Q : R -> Prop) (fuel : nat)
      (cond : prog bool) (s : S) (body : S -> prog (S * ctl R)) :
  Pspin ->
  I s ->
  sat Pop Pexn Pspin (fun _ => True) cond ->
  (forall s, I s ->
     sat Pop Pexn Pspin
         (fun p => I (fst p) /\ forall r, snd p = Return r -> Q r) (body s)) ->
  sat Pop Pexn Pspin
      (fun p => I (fst p) /\ forall r, snd p = Some r -> Q r)
      (while_ fuel cond s body).
Proof.
  intros Hspin Hs Hcond Hbody. revert s Hs.
  induction fuel as [ | fuel IH]; intros s Hs; simpl.
  - exact Hspin.
  - eapply sat_bind; [ exact Hcond | ].
    intros [ | ] _.
    + eapply sat_bind; [ apply Hbody; exact Hs | ].
      intros [s' c] [HI HQ]; simpl in *. destruct c; simpl.
      * apply IH; exact HI.
      * split; [ exact HI | discriminate ].
      * split; [ exact HI | ]. intros r' E. inversion E; subst. apply HQ; reflexivity.
    + simpl. split; [ exact Hs | discriminate ].
Qed.

(** The same rules when nothing is asked of the values. *)
Lemma sat_for_any {T S R} (xs : list T) (s : S)
      (body : T -> S -> prog (S * ctl R)) :
  (forall x s, sat Pop Pexn Pspin (fun _ => True) (body x s)) ->
  sat Pop Pexn Pspin (fun _ => True) (for_ xs s body).
Proof.
  intros Hbody.
  eapply sat_weaken; [ | apply (@sat_for_ T S R (fun _ => True) (fun _ => True)) ];
    auto.
  intros x s' _. eapply sat_weaken; [ | apply Hbody ]. auto.
Qed.

Lemma sat_while_any {S R} (fuel : nat) (cond : prog bool) (s : S)
      (body : S -> prog (S * ctl R)) :
  Pspin ->
  sat Pop Pexn Pspin (fun _ => True) cond ->
  (forall s, sat Pop Pexn Pspin (fun _ => True) (body s)) ->
  sat Pop Pexn Pspin (fun _ => True) (while_ fuel cond s body).
Proof.
  intros Hspin Hcond Hbody.
  eapply sat_weaken;
    [ | apply (@sat_while_ S R (fun _ => True) (fun _ => True)) ]; auto.
  intros s' _. eapply sat_weaken; [ | apply Hbody ]. auto.
Qed.

Lemma sat_for_each {T R} (xs : list T) (body : T -> prog (ctl R)) :
  (forall x, sat Pop Pexn Pspin (fun _ => True) (body x)) ->
  sat Pop Pexn Pspin (fun _ => True) (for_each xs body).
Proof.
  intros Hbody. unfold for_each.
  apply sat_bind_any; [ | intros; exact I ].
  apply sat_for_any. intros x s. apply sat_bind_any; [ apply Hbody | intros; exact I ].
Qed.

Lemma sat_while_do {R} (fuel : nat) (cond : prog bool) (body : prog (ctl R)) :
  Pspin ->
  sat Pop Pexn Pspin (fun _ => True) cond ->
  sat Pop Pexn Pspin (fun _ => True) body ->
  sat Pop Pexn Pspin (fun _ => True) (while_do fuel cond body).
Proof.
  intros Hspin Hcond Hbody. unfold while_do.
  apply sat_bind_any; [ | intros; exact I ].
  apply sat_while_any; auto.
  intros s. apply sat_bind_any; [ exact Hbody | intros; exact I ].
Qed.

Lemma sat_or_else {R} (Q : R -> Prop) (m : prog (option R)) (rest : prog R) :
  sat Pop Pexn Pspin (fun r => forall x, r = Some x -> Q x) m ->
  sat Pop Pexn Pspin Q rest ->
  sat Pop Pexn Pspin Q (or_else m rest).
Proof.
  intros Hm Hr. unfold or_else. eapply sat_bind; [ exact Hm | ].
  intros [x | ] H; simpl; auto.
Qed.

Lemma sat_and_then {R} (m rest : prog (ctl R)) :
  sat Pop Pexn Pspin (fun _ => True) m ->
  sat Pop Pexn Pspin (fun _ => True) rest ->
  sat Pop Pexn Pspin (fun _ => True) (and_then m rest).
Proof.
  intros Hm Hr. unfold and_then. apply sat_bind_any; [ exact Hm | ].
  intros [ | | r]; simpl; auto.
Qed.

End SatRules.

(** ** Runs on a page that does not change *)

Section Static.
Variable d : snapshot.

Lemma final_still {A} (m : prog A) : final (run (still d) m tt) = tt.
Proof. destruct (final (run (still d) m tt)); reflexivity. Qed.

Lemma result_in_bind {A B} (m : prog A) (f : A -> prog B) :
  result_in d (bind m f) =
  match result_in d m with
  | Returned a => result_in d (f a)
  | Raised e => Raised e
  | Running => Running
  end.
Proof.
  unfold result_in. rewrite run_bind. unfold then_run.
  destruct (run (still d) m tt) as [tr out []]; simpl.
  destruct out; reflexivity.
Qed.

Lemma trace_in_bind {A B} (m : prog A) (f : A -> prog B) :
  trace_in d (bind m f) =
  (trace_in d m ++
   match result_in d m with
   | Returned a => trace_in d (f a)
   | _ => []
   end)%list.
Proof.
  unfold trace_in, result_in. rewrite run_bind. unfold then_run.
  destruct (run (still d) m tt) as [tr out []]; simpl.
  destruct out; simpl; auto using app_nil_r.
Qed.

Lemma result_in_try_except {A} (m : prog A) handles handler :
  result_in d (try_except m handles handler) =
  match result_in d m with
  | Raised e => if handles e then result_in d handler else Raised e
  | r => r
  end.
Proof.
  unfold result_in. rewrite run_try_except. unfold catch_run.
  destruct (run (still d) m tt) as [tr out []]; simpl.
  destruct out as [a | e | ]; try reflexivity.
  destruct (handles e); reflexivity.
Qed.

Lemma trace_in_try_except {A} (m : prog A) handles handler :
  trace_in d (try_except m handles handler) =
  (trace_in d m ++
   match result_in d m with
   | Raised e => if handles e then trace_in d handler else []
   | _ => []
   end)%list.
Proof.
  unfold trace_in, result_in. rewrite run_try_except. unfold catch_run.
  destruct (run (still d) m tt) as [tr out []]; simpl.
  destruct out as [a | e | ]; simpl; auto using app_nil_r.
  destruct (handles e); simpl; auto using app_nil_r.
Qed.

Lemma result_in_do {A} (o : op) (k : answer o -> prog A) :
  result_in d (Do o k) = result_in d (k (d o)).
Proof. reflexivity. Qed.

Lemma trace_in_do {A} (o : op) (k : answer o -> prog A) :
  trace_in d (Do o k) = Ev o (d o) :: trace_in d (k (d o)).
Proof. reflexivity. Qed.

Lemma result_in_for_cons {T S R} (x : T) (xs : list T) (s : S)
      (body : T -> S -> prog (S * ctl R)) :
  result_in d (for_ (x :: xs) s body) =
  match result_in d (body x s) with
  | Returned p =>
      match snd p with
      | Next => result_in d (for_ xs (fst p) body)
      | Break => Returned (fst p, None)
      | Return r => Returned (fst p, Some r)
      end
  | Raised e => Raised e
  | Running => Running
  end.
Proof.
  simpl for_. rewrite result_in_bind.
  destruct (result_in d (body x s)) as [[s' c] | e | ]; try reflexivity.
  destruct c; reflexivity.
Qed.

(** A loop whose body always falls through folds its step over the
    list. *)
Lemma result_in_for_fold {T S R} (step : S -> T -> S) (xs : list T) (s : S)
      (body : T -> S -> prog (S * ctl R)) :
  (forall x s, result_in d (body x s) = Returned (step s x, Next)) ->
  result_in d (for_ xs s body) = Returned (fold_left step xs s, None).
Proof.
  intros Hbody. revert s. induction xs as [ | x rest IH]; intros s.
  - reflexivity.
  - rewrite result_in_for_cons, Hbody. simpl. apply IH.
Qed.

(** A loop that returns at the first element passing a test. *)
Lemma result_in_for_each_find {T R} (p : T -> bool) (g : T -> R)
      (xs : list T) (body : T -> prog (ctl R)) :
  (forall x, result_in d (body x) = Returned (if p x then Return (g x) else Next)) ->
  result_in d (for_each xs body) = Returned (option_map g (find p xs)).
Proof.
  intros Hbody. unfold for_each. rewrite result_in_bind.
  induction xs as [ | x rest IH].
  - reflexivity.
  - rewrite result_in_for_cons, result_in_bind, Hbody. simpl.
    destruct (p x); simpl; [ reflexivity | exact IH ].
Qed.

Lemma walk_run {A} (m : prog A) (acc : list op) :
  walk d m acc = ((rev acc ++ ops_in d m)%list, result_in d m).
Proof.
  revert acc. induction m as [a | e | | o k IH]; intros acc; simpl.
  - rewrite app_nil_r. reflexivity.
  - rewrite app_nil_r. reflexivity.
  - rewrite app_nil_r. reflexivity.
  - rewrite IH. simpl. rewrite <- app_assoc. reflexivity.
Qed.

Lemma ops_in_bind {A B} (m : prog A) (f : A -> prog B) :
  ops_in d (bind m f) =
  (ops_in d m ++
   match result_in d m with
   | Returned a => ops_in d (f a)
   | _ => []
   end)%list.
Proof.
  unfold ops_in. rewrite trace_in_bind, map_app.
  destruct (result_in d m); reflexivity.
Qed.


Lemma walk_static {A} (m : prog A) :
  (ops_in d m, result_in d m) = walk d m [].
Proof. rewrite walk_run. reflexivity. Qed.

End Static.

(** ** Automation for [sat] *)

Lemma sat_or_else_any Pop Pexn Pspin {R} (m : prog (option R)) (rest : prog R) :
  sat Pop Pexn Pspin (fun _ => True) m ->
  sat Pop Pexn Pspin (fun _ => True) rest ->
  sat Pop Pexn Pspin (fun _ => True) (or_else m rest).
Proof.
  intros Hm Hr. apply sat_or_else; [ | exact Hr ].
  eapply sat_weaken; [ | exact Hm ]. auto.
Qed.

Ltac head_of t :=
  lazymatch t with
  | ?f _ => head_of f
  | _ => t
  end.

Ltac sat_leaf :=
  simpl; intros; first [ exact I | reflexivity | discriminate | assumption | tauto ].

(** One step along the structure of the program. *)
Ltac sat_step :=
  lazymatch goal with
  | |- sat _ _ _ _ (bind _ _) => apply sat_bind_any; [ | intros ]
  | |- sat _ _ _ _ (try_except _ _ _) => apply sat_try_except
  | |- sat _ _ _ _ (for_each _ _) => apply sat_for_each; intros
  | |- sat _ _ _ _ (for_ _ _ _) => apply sat_for_any; intros
  | |- sat _ _ _ _ (while_do _ _ _) => apply sat_while_do; [ try exact I | | ]
  | |- sat _ _ _ _ (while_ _ _ _ _) => apply sat_while_any; [ try exact I | | intros ]
  | |- sat _ _ _ _ (and_then _ _) => apply sat_and_then
  | |- sat _ _ _ _ (or_else _ _) => apply sat_or_else_any
  | |- sat _ _ _ _ (match ?x with _ => _ end) => destruct x
  | |- sat _ _ _ _ (Do _ _) => split; [ sat_leaf | intros ]
  | |- sat _ _ _ _ (Ret _) => exact I
  | |- sat _ _ _ _ (Raise _) => sat_leaf
  | |- sat _ _ _ _ Spin => sat_leaf
  | |- sat _ _ _ _ ?m => let h := head_of m in unfold h; cbv beta zeta
  end.

Ltac sat_auto := repeat sat_step.

(** ** Computing a run on a page that does not change *)

(** Uses the answers known from the hypotheses. *)
Ltac known_answers d :=
  repeat match goal with
         | H : d ?o = _ |- context [d ?o] => rewrite H
         end.

(** Computes the run as far as the known answers allow. *)
Ltac walk_on d := repeat (progress (cbn; known_answers d)).

(* ================================================================== *)
(** * Scope resolution *)
(* ================================================================== *)

Section ScopeResolution.

Import Config Assistant Expected.

Variable d : snapshot.

Lemma fold_left_scopes (its : list (nat * frame)) (acc : list (string * scope)) :
  fold_left (fun scopes it => if (not_main d) it then (scopes ++ [(named d) it])%list else scopes)
            its acc =
  (acc ++ map (named d) (filter (not_main d) its))%list.
Proof.
  revert acc. induction its as [ | it rest IH]; intros acc; simpl.
  - symmetry. apply app_nil_r.
  - rewrite IH. destruct ((not_main d) it); simpl; [ | reflexivity ].
    rewrite <- app_assoc. reflexivity.
Qed.

Lemma result_in_build_scopes :
  result_in d build_scopes =
  Returned (("page", ThePage) :: map (named d) (filter (not_main d) (enumerate (d PageFrames)))).
Proof.
  unfold build_scopes. rewrite result_in_bind.
  change (result_in d page_frames) with (Returned (A := list frame) (d PageFrames)).
  cbv iota beta. rewrite result_in_bind.
  rewrite result_in_for_fold
    with (step := fun scopes it => if (not_main d) it then (scopes ++ [(named d) it])%list else scopes).
  - rewrite fold_left_scopes. reflexivity.
  - intros it scopes. unfold not_main. rewrite result_in_bind.
    change (result_in d page_main_frame) with (Returned (A := frame) (d PageMainFrame)).
    cbv iota beta.
    destruct (Nat.eqb (snd it) (d PageMainFrame)); simpl; reflexivity.
Qed.

Lemma filter_enumerate_snd {T} (p : T -> bool) (xs : list T) (n : nat) :
  map snd (filter (fun it : nat * T => p (snd it)) (combine (seq n (length xs)) xs)) =
  filter p xs.
Proof.
  revert n. induction xs as [ | x rest IH]; intros n; simpl.
  - reflexivity.
  - destruct (p x); simpl; rewrite IH; reflexivity.
Qed.

Lemma scopes_of_build :
  map snd (("page", ThePage) :: map (named d) (filter (not_main d) (enumerate (d PageFrames)))) =
  candidate_scopes d.
Proof.
  unfold candidate_scopes, enumerate. simpl. f_equal.
  rewrite map_map. unfold named; simpl.
  rewrite <- map_map with (f := snd) (g := Frame).
  unfold not_main.
  rewrite (filter_enumerate_snd (fun f => negb (Nat.eqb f (d PageMainFrame)))).
  reflexivity.
Qed.

Lemma find_map_snd {X Y} (p : Y -> bool) (xs : list (X * Y)) :
  option_map snd (find (fun it => p (snd it)) xs) = find p (map snd xs).
Proof.
  induction xs as [ | x rest IH]; simpl; [ reflexivity | ].
  destruct (p (snd x)); simpl; auto.
Qed.

Lemma result_in_scan_scopes (scopes : list (string * scope)) (sel fmt : string) :
  result_in d (scan_scopes scopes sel fmt) =
  Returned (find (has_match d sel) (map snd scopes)).
Proof.
  unfold scan_scopes.
  rewrite result_in_for_each_find
    with (p := fun it => has_match d sel (snd it)) (g := snd).
  - rewrite find_map_snd. reflexivity.
  - intros it. rewrite result_in_try_except, result_in_bind.
    unfold has_match, count. rewrite result_in_do.
    destruct (d (Count (Locator (snd it) sel))) as [n | e]; simpl.
    + destruct (nonzero n); reflexivity.
    + reflexivity.
Qed.

Lemma result_in_or_else {R} (m : prog (option R)) (rest : prog R) :
  result_in d (or_else m rest) =
  match result_in d m with
  | Returned (Some x) => Returned x
  | Returned None => result_in d rest
  | Raised e => Raised e
  | Running => Running
  end.
Proof.
  unfold or_else. rewrite result_in_bind.
  destruct (result_in d m) as [[x | ] | e | ]; reflexivity.
Qed.

Lemma resolve_scope_static cfg :
  result_in d (_resolve_scope cfg) = Returned (resolved_scope d cfg).
Proof.
  unfold _resolve_scope. rewrite result_in_bind, result_in_build_scopes.
  cbv iota beta.
  rewrite !result_in_or_else, !result_in_scan_scopes, scopes_of_build.
  unfold resolved_scope, first_match.
  destruct (find (has_match d (table (selectors cfg))) (candidate_scopes d));
    [ reflexivity | ].
  destruct (find (has_match d fallback_table) (candidate_scopes d)); reflexivity.
Qed.
End ScopeResolution.



(* ================================================================== *)
(** * Table location *)
(* ================================================================== *)

Section TableLocation.

Import Config Assistant.

Variable d : snapshot.

Lemma result_in_if_count (l found : locator) (rest : prog (option locator)) (n : nat) :
  d (Count l) = Ok n ->
  result_in d (if_count l found rest) =
  if nonzero n then Returned (Some found) else result_in d rest.
Proof.
  intros H. unfold if_count, count.
  rewrite result_in_bind, result_in_do, H. simpl.
  destruct (nonzero n); reflexivity.
Qed.

End TableLocation.



(* ================================================================== *)
(** * Filling the questions of a block *)
(* ================================================================== *)

Arguments Assistant._click_questions : simpl never.


Section Loops.

Variable d : snapshot.

Lemma ops_in_do {A} (o : op) (k : answer o -> prog A) :
  ops_in d (Do o k) = o :: ops_in d (k (d o)).
Proof. reflexivity. Qed.


End Loops.

Section Questions.

Import Config Assistant Expected.

Variable d : snapshot.
Variable cfg : AppConfig.

Hypothesis counts : forall l, exists n, d (Count l) = Ok n.
Hypothesis texts : forall l, exists t, d (InnerText l) = Ok t.
Hypothesis actions : forall a, d (Act a) = Ok tt.
Hypothesis delays : (min (delays_ms cfg) <= max (delays_ms cfg))%Z.
Hypothesis comments : comment_templates cfg <> [].

















End Questions.

Section Selections.

Import Config Assistant Expected.

Variable d : snapshot.
Variable cfg : AppConfig.








End Selections.



(* ================================================================== *)
(** * Heuristic teacher tabs *)
(* ================================================================== *)

Arguments Assistant.mem : simpl never.
Arguments Assistant.too_low : simpl never.
Arguments Py.is_empty : simpl never.

Section TeacherTabs.

Import Config Assistant Expected.

Variable d : snapshot.
Variable top_y : Q.

(** ** The sort *)







(** ** The first candidate of each text *)







(** ** The loop over the candidates *)



End TeacherTabs.

Section TeacherTabsRun.

Import Config Assistant Expected.

Variable d : snapshot.



End TeacherTabsRun.



(* ================================================================== *)
(** * The click ladder *)
(* ================================================================== *)


(* ================================================================== *)
(** * Pagination *)
(* ================================================================== *)

Arguments Assistant.next_by_text : simpl never.
Arguments Assistant.next_by_id : simpl never.

Section Pagination.

Import Config Assistant Expected.

Variable d : snapshot.
Variable s : scope.

Hypothesis count_by_id : exists n, d (Count (Locator s next_by_id)) = Ok n.
Hypothesis count_button : exists m, d (Count (next_button d s)) = Ok m.
Hypothesis attributes :
  forall name, exists v, d (GetAttribute (next_element d s) name) = Ok v.

Lemma turn_page_runs :
  (ops_in d (turn_page s), result_in d (turn_page s)) = page_turn d s.
Proof.
  destruct count_by_id as [n Hn]. destruct count_button as [m Hm].
  destruct (attributes "class") as [c Hc].
  destruct (attributes "aria-disabled") as [a Ha].
  rewrite walk_static.
  unfold page_turn, last_page, next_queries, next_click, next_pause, next_absent,
    attribute, next_element in *.
  unfold next_button in *. rewrite Hn in *.
  unfold turn_page, count, get_attribute, act.
  destruct n as [ | n].
  - walk_on d. destruct m as [ | m].
    + reflexivity.
    + walk_on d.
      destruct (d (GetAttribute (Within (First (Locator s next_by_text)) "xpath=..") "class"))
        as [pc | e]; walk_on d.
      * destruct (orb _ _); [ reflexivity | ].
        walk_on d.
        destruct (d (Act (Click (First (Locator s next_by_text)) None false)));
          walk_on d; [ | reflexivity ].
        destruct (d (Act (WaitForTimeout 500))); reflexivity.
      * destruct (orb _ _); [ reflexivity | ].
        walk_on d.
        destruct (d (Act (Click (First (Locator s next_by_text)) None false)));
          walk_on d; [ | reflexivity ].
        destruct (d (Act (WaitForTimeout 500))); reflexivity.
  - rewrite Hn in Hm. injection Hm as <-. walk_on d.
    destruct (d (GetAttribute (Within (First (Locator s next_by_id)) "xpath=..") "class"))
      as [pc | e]; walk_on d.
    * destruct (orb _ _); [ reflexivity | ].
      walk_on d.
      destruct (d (Act (Click (First (Locator s next_by_id)) None false)));
        walk_on d; [ | reflexivity ].
      destruct (d (Act (WaitForTimeout 500))); reflexivity.
    * destruct (orb _ _); [ reflexivity | ].
      walk_on d.
      destruct (d (Act (Click (First (Locator s next_by_id)) None false)));
        walk_on d; [ | reflexivity ].
      destruct (d (Act (WaitForTimeout 500))); reflexivity.
Qed.

Lemma next_click_not_a_query : ~ In (next_click d s) (next_queries d s).
Proof.
  unfold next_queries, next_click. destruct (next_absent d s); simpl;
    intros H; repeat (destruct H as [H | H]; [ discriminate H | ]); exact H.
Qed.

Lemma turn_page_result :
  result_in d (turn_page s) = snd (page_turn d s).
Proof. rewrite <- turn_page_runs. reflexivity. Qed.

Lemma turn_page_ops :
  ops_in d (turn_page s) = fst (page_turn d s).
Proof. rewrite <- turn_page_runs. reflexivity. Qed.

Lemma turn_page_returns_iff :
  result_in d (turn_page s) = Returned (Return tt) <-> last_page d s = true.
Proof.
  rewrite turn_page_result. unfold page_turn.
  destruct (last_page d s); cbn [snd].
  - split; reflexivity.
  - split; [ | discriminate ].
    destruct (d (next_click d s)); cbn [snd];
      [ destruct (d next_pause) | ]; discriminate.
Qed.

Lemma turn_page_clicks_iff :
  In (next_click d s) (ops_in d (turn_page s)) <-> last_page d s = false.
Proof.
  rewrite turn_page_ops. unfold page_turn.
  destruct (last_page d s); cbn [fst].
  - split; [ | discriminate ].
    intros C. contradiction (next_click_not_a_query C).
  - split; [ reflexivity | intros _ ].
    destruct (d (next_click d s)); cbn [fst];
      apply in_or_app; right; left; reflexivity.
Qed.

End Pagination.

(** ** The loop of [assist_all_pages] on a page that does not change *)

Section PageLoop.

Import Config Assistant Expected.

Variable d : snapshot.

Lemma result_in_while_do_succ {R} (fuel : nat) (body : prog (ctl R)) :
  result_in d (while_do (S fuel) (Ret true) body) =
  match result_in d body with
  | Returned Next => result_in d (while_do fuel (Ret true) body)
  | Returned Break => Returned None
  | Returned (Return r) => Returned (Some r)
  | Raised e => Raised e
  | Running => Running
  end.
Proof.
  unfold while_do. simpl while_.
  rewrite !result_in_bind.
  destruct (result_in d body) as [[ | | r] | e | ]; simpl; reflexivity.
Qed.

Lemma result_in_while_do_next {R} (fuel : nat) (body : prog (ctl R)) :
  result_in d body = Returned Next ->
  result_in d (while_do fuel (Ret true) body) = Running.
Proof.
  intros H. induction fuel as [ | fuel IH].
  - reflexivity.
  - rewrite result_in_while_do_succ, H. exact IH.
Qed.

Lemma resolve_scope_fast_static (cfg : AppConfig) :
  result_in d (_resolve_scope_fast cfg) = Returned (resolved_scope d cfg).
Proof.
  unfold _resolve_scope_fast. rewrite result_in_bind, result_in_build_scopes.
  cbv iota beta.
  rewrite !result_in_or_else, !result_in_scan_scopes, scopes_of_build.
  unfold resolved_scope, first_match.
  destruct (find (has_match d (table (selectors cfg))) (candidate_scopes d));
    [ reflexivity | ].
  destruct (find (has_match d fallback_table) (candidate_scopes d)); reflexivity.
Qed.

Variable cfg : AppConfig.
Variable fuel : nat.

Hypothesis opened : d (Act (Goto (list_url cfg) "domcontentloaded")) = Ok tt.
Hypothesis drained : result_in d (assist_page fuel cfg) = Returned tt.

Lemma result_in_all_pages (k : nat) :
  result_in d
    (while_do k (Ret true)
       (bind (_resolve_scope_fast cfg)
             (fun s => bind (assist_page fuel cfg) (fun _ => turn_page s)))) =
  match k with
  | O => Running
  | S k' =>
      match result_in d (turn_page (resolved_scope d cfg)) with
      | Returned Next => Running
      | Returned Break => Returned None
      | Returned (Return r) => Returned (Some r)
      | Raised e => Raised e
      | Running => Running
      end
  end.
Proof.
  set (body := bind (_resolve_scope_fast cfg)
                    (fun s => bind (assist_page fuel cfg) (fun _ => turn_page s))).
  assert (Hbody : result_in d body = result_in d (turn_page (resolved_scope d cfg))).
  { unfold body. rewrite result_in_bind, resolve_scope_fast_static.
    rewrite result_in_bind, drained. reflexivity. }
  destruct k as [ | k]; [ reflexivity | ].
  rewrite result_in_while_do_succ, Hbody.
  destruct (result_in d (turn_page (resolved_scope d cfg))) as [[ | | r] | e | ] eqn:E;
    try reflexivity.
  apply result_in_while_do_next. exact Hbody.
Qed.

Lemma result_in_assist_all_pages :
  result_in d (assist_all_pages fuel cfg) =
  match fuel with
  | O => Running
  | S _ =>
      match result_in d (turn_page (resolved_scope d cfg)) with
      | Returned (Return _) => Returned tt
      | Returned Break => Returned tt
      | Returned Next => Running
      | Raised e => Raised e
      | Running => Running
      end
  end.
Proof.
  unfold assist_all_pages. rewrite result_in_bind.
  unfold act at 1. rewrite result_in_do, opened. cbn [of_answer result_in run outcome_of].
  change (outcome_of (Ran [] (Returned tt) tt)) with (Returned (A := unit) tt).
  cbv iota beta. rewrite result_in_bind, result_in_all_pages.
  destruct fuel as [ | k]; [ reflexivity | ].
  destruct (result_in d (turn_page (resolved_scope d cfg))) as [[ | | r] | e | ];
    reflexivity.
Qed.

End PageLoop.

(** C6, as the program has it.  On a page where the queries of the
    pagination step answer and [assist_page] has drained the pending items,
    the step looks for the control by id and, when there is none, by text;
    it stops, and [assist_all_pages] returns, exactly when the control is
    absent, or "disabled" occurs in its class or in the class of its
    parent, or its [aria-disabled] attribute is "true" in any letter case;
    exactly in the other case it clicks the control, and after the click
    and the pause of 500 ms the loop goes round again (for ever, on a page
    that does not change). *)
Theorem pagination_stops_on_last_page (d : snapshot) (cfg : Config.AppConfig)
        (fuel : nat) :
  let s := Expected.resolved_scope d cfg in
  (exists n, d (Count (Locator s Assistant.next_by_id)) = Ok n) ->
  (exists m, d (Count (Expected.next_button d s)) = Ok m) ->
  (forall name, exists v, d (GetAttribute (Expected.next_element d s) name) = Ok v) ->
  d (Act (Goto (Config.list_url cfg) "domcontentloaded")) = Ok tt ->
  result_in d (Assistant.assist_page fuel cfg) = Returned tt ->
  (0 < fuel)%nat ->
  (ops_in d (Assistant.turn_page s), result_in d (Assistant.turn_page s)) =
    Expected.page_turn d s /\
  (Expected.last_page d s = true <->
   result_in d (Assistant.assist_all_pages fuel cfg) = Returned tt) /\
  (Expected.last_page d s = false <->
   In (Expected.next_click d s) (ops_in d (Assistant.turn_page s))) /\
  (Expected.last_page d s = false ->
   d (Expected.next_click d s) = Ok tt -> d Expected.next_pause = Ok tt ->
   result_in d (Assistant.assist_all_pages fuel cfg) = Running).
Proof.
  intros s H1 H2 H3 Hg Hp Hf.
  pose proof (turn_page_runs d s H1 H2 H3) as Hrun.
  pose proof (result_in_assist_all_pages d cfg fuel Hg Hp) as Hall.
  fold s in Hall. destruct fuel as [ | k]; [ inversion Hf | ].
  pose proof (turn_page_result d s H1 H2 H3) as Hres.
  rewrite Hres in Hall. unfold Expected.page_turn in Hall.
  split; [ exact Hrun | ]. split; [ | split ].
  - destruct (Expected.last_page d s); simpl in Hall.
    + rewrite Hall. split; reflexivity.
    + split; [ discriminate | ]. rewrite Hall.
      destruct (d (Expected.next_click d s)); simpl;
        [ destruct (d Expected.next_pause) | ]; discriminate.
  - symmetry. apply turn_page_clicks_iff; assumption.
  - intros Hl Hc Hw. rewrite Hl, Hc in Hall. simpl in Hall. rewrite Hw in Hall.
    exact Hall.
Qed.

(** On the sample page the control is enabled: the step clicks it and the
    loop goes on. *)
Lemma pagination_stops_on_last_page_witness :
  result_in Sample.page_with_next (Assistant.assist_all_pages 2 Sample.cfg) = Running.
Proof.
  assert (H3 : forall name, exists v,
               Sample.page_with_next
                 (GetAttribute
                    (Expected.next_element
                       Sample.page_with_next
                       (Expected.resolved_scope Sample.page_with_next Sample.cfg))
                    name) = Ok v).
  { intros name. unfold Sample.page_with_next, except_for. cbn.
    destruct (String.eqb name "class"); eexists; reflexivity. }
  destruct (pagination_stops_on_last_page
              Sample.page_with_next Sample.cfg 2
              (ex_intro _ 1%nat eq_refl) (ex_intro _ 1%nat eq_refl) H3
              eq_refl eq_refl (Nat.lt_0_succ 1))
    as [_ [_ [_ H]]].
  apply H; reflexivity.
Defined.

(** The claim as stated fails where [aria-disabled] is "TRUE": the flow
    stops there although the attribute does not equal "true". *)
Lemma pagination_claim_counterexample :
  ~ (result_in Sample.page_with_next_aria_upper
               (Assistant.assist_all_pages 2 Sample.cfg) = Returned tt <->
     Expected.last_page_as_claimed Sample.page_with_next_aria_upper ThePage = true).
Proof.
  intros [H _].
  assert (C : Expected.last_page_as_claimed Sample.page_with_next_aria_upper ThePage
              = true) by (apply H; vm_compute; reflexivity).
  vm_compute in C. discriminate C.
Qed.

(* ================================================================== *)
(** * Configuration *)
(* ================================================================== *)

Section Configuration.

Import Config.

Variable data : Document.

Let templates := get_or (doc_comment_templates data) [].
Let lo := get_or (doc_delays_min data) 100%Z.
Let hi := get_or (doc_delays_max data) 350%Z.



Lemma load_config_loaded (cfg : AppConfig) :
  load_config data = Ok cfg ->
  comment_templates cfg = templates /\ templates <> [] /\
  min (delays_ms cfg) = lo /\ max (delays_ms cfg) = hi /\ (0 <= lo <= hi)%Z.
Proof.
  unfold load_config, item. subst templates lo hi.
  destruct (doc_login_url data) as [login | ]; [ | discriminate ].
  destruct (doc_list_url data) as [list_ | ]; [ | discriminate ].
  cbn [comment_templates delays_ms min max].
  destruct (get_or (doc_comment_templates data) []) as [ | t ts] eqn:Et;
    [ discriminate | ].
  destruct (orb (get_or (doc_delays_min data) 100 <? 0)%Z
                (get_or (doc_delays_max data) 350 <?
                 get_or (doc_delays_min data) 100)%Z) eqn:E; [ discriminate | ].
  intros H. inversion H; subst; clear H. cbn.
  apply orb_false_iff in E. destruct E as [E1 E2].
  apply Z.ltb_ge in E1, E2.
  repeat split; try assumption; try reflexivity. discriminate.
Qed.

End Configuration.




(* ================================================================== *)
(** * Explicit teacher tabs *)
(* ================================================================== *)

Arguments Assistant._prefill_active_block : simpl never.
Arguments Assistant.tab_selector : simpl never.
Arguments Assistant.active_tab_selector : simpl never.
Arguments Assistant.active_block_selector : simpl never.

Section ExplicitTabs.

Import Config Assistant Expected.

Variable d : snapshot.
Variable cfg : AppConfig.
Variable modal_scope : scope.
Variable modal : locator.



End ExplicitTabs.




(* ================================================================== *)
(** * The wait for the modal to close *)
(* ================================================================== *)

Arguments Assistant._dismiss_success_dialog : simpl never.

Section ModalClosed.

Import Config Assistant Expected.

Variable obs : nat -> snapshot.






Variable modal : locator.
Variable max_wait_s : Z.
Variable start : Q.

Let expired_from := Expected.expired_from obs max_wait_s start.







End ModalClosed.


Section ModalClosedWait.

Import Config Assistant Expected.

Variable obs : nat -> snapshot.
Variable modal : locator.
Variable max_wait_s : Z.


Let looped (fuel : nat) (last_print : Q) (j : nat) :=
  run (ticking obs)
      (while_ (R := unit) fuel (Ret true) last_print
              (poll_modal modal max_wait_s (obs O Monotonic))) j.


Lemma loop_spent (last_print : Q) (j : nat) :
  outcome_of (looped O last_print j) = Running /\
  final (looped O last_print j) = j /\
  dismiss_attempts (ops (looped O last_print j)) = O.
Proof. repeat split; reflexivity. Qed.



End ModalClosedWait.



(* ================================================================== *)
(** * The flow and the manual-submission wait *)
(* ================================================================== *)

Lemma assist_page_ignores_manual_wait (fuel : nat) (c1 c2 : Config.AppConfig) :
  Expected.differ_only_in_manual_wait c1 c2 ->
  Assistant.assist_page fuel c1 = Assistant.assist_page fuel c2.
Proof.
  destruct c1, c2. unfold Expected.differ_only_in_manual_wait. simpl.
  intros [H1 [H2 [H3 [H4 [H5 [H6 H7]]]]]]. subst. reflexivity.
Qed.

Lemma assist_page_outside_manual_wait (fuel : nat) (cfg : Config.AppConfig) :
  sat Expected.outside_manual_wait Expected.not_manual_timeout True
      (fun _ => True) (Assistant.assist_page fuel cfg).
Proof. sat_auto. Qed.

(** C10.  For two configurations that differ in
    [manual_submit_max_wait_s] only, [assist_page] is the same program, so
    its runs are the same in every environment.  In every run each wait for
    the modal to be hidden has the fixed timeout of 10000 ms, and nothing
    that is peculiar to [_wait_modal_closed] happens: no status line is
    printed, [aria-hidden] is not read, and no [TimeoutError] is raised. *)
Theorem flow_independent_of_manual_wait (fuel : nat) (c1 c2 : Config.AppConfig) :
  Expected.differ_only_in_manual_wait c1 c2 ->
  forall (W : Type) (ask : forall o : op, W -> answer o * W) (w : W),
    run ask (Assistant.assist_page fuel c1) w =
    run ask (Assistant.assist_page fuel c2) w /\
    Forall (fun e => Expected.outside_manual_wait (ev_op e))
           (trace (run ask (Assistant.assist_page fuel c1) w)) /\
    (forall msg,
        outcome_of (run ask (Assistant.assist_page fuel c1) w) <>
        Raised (TimeoutError msg)).
Proof.
  intros Hd W ask w.
  rewrite (assist_page_ignores_manual_wait fuel c1 c2 Hd).
  split; [ reflexivity | ].
  destruct (sat_run W ask _ _ _ _ _ (assist_page_outside_manual_wait fuel c2) w)
    as [Ht Ho].
  split; [ exact Ht | ].
  intros msg E. rewrite E in Ho. exact Ho.
Qed.

(** The sample configuration and the one that waits a minute, on the blank
    page. *)
Lemma flow_independent_of_manual_wait_witness :
  run (still blank) (Assistant.assist_page 2 Sample.cfg) tt =
  run (still blank) (Assistant.assist_page 2 Sample.cfg_waiting_a_minute) tt.
Proof.
  apply (flow_independent_of_manual_wait 2 Sample.cfg Sample.cfg_waiting_a_minute).
  repeat split.
Defined.

(* ================================================================== *)
(** * Further properties: the configuration *)
(* ================================================================== *)



(** Reading back: a configuration with a comment and with
    [0 <= min <= max], written out with all its keys, is loaded
    unchanged. *)
Theorem load_config_reads_back (cfg : Config.AppConfig) :
  Config.comment_templates cfg <> [] ->
  (0 <= Config.min (Config.delays_ms cfg) <= Config.max (Config.delays_ms cfg))%Z ->
  Config.load_config (Expected.document_of cfg) = Ok cfg.
Proof.
  destruct cfg as [login list_ [hl sm] rating templates [lo hi] wait sel].
  destruct sel. cbn. intros Ht Hd.
  destruct templates as [ | t ts]; [ contradiction Ht; reflexivity | ].
  assert (E : orb (lo <? 0)%Z (hi <? lo)%Z = false)
    by (apply orb_false_iff; split; apply Z.ltb_ge; lia).
  unfold Config.load_config. cbn. rewrite E. reflexivity.
Qed.

Lemma load_config_reads_back_witness :
  Config.load_config (Expected.document_of Sample.cfg) = Ok Sample.cfg.
Proof.
  apply load_config_reads_back; cbn; [ discriminate | lia ].
Defined.

(* ================================================================== *)
(** * Further properties: the table and its scope *)
(* ================================================================== *)

(** On a page that does not change, the four further attempts of
    [_find_table] change nothing: it returns, or raises, what
    [_find_table_fast] does, and the queries it adds are queries that
    [_find_table_fast] has made. *)
Theorem find_table_fast_agrees (d : snapshot) (s : scope) (cfg : Config.AppConfig) :
  result_in d (Assistant._find_table_fast s cfg) =
  result_in d (Assistant._find_table s cfg) /\
  exists again,
    ops_in d (Assistant._find_table s cfg) =
    (ops_in d (Assistant._find_table_fast s cfg) ++ again)%list /\
    incl again (ops_in d (Assistant._find_table_fast s cfg)).
Proof.
  unfold Assistant._find_table, Assistant._find_table_fast, Assistant.if_count, count.
  cbv zeta.
  remember (Locator s (Config.table (Config.selectors cfg))) as l1 eqn:E1.
  remember (Locator s Assistant.rate_affordance) as l2 eqn:E2.
  remember (Locator s Assistant.table_with_keyword) as l3 eqn:E3.
  clear E1 E2 E3.
  unfold result_in, ops_in, trace_in. cbn.
  destruct (d (Count l1)) as [[ | n1] | e1] eqn:H1; cbn;
    try (split; [ reflexivity | exists []; split; [ reflexivity | intros o [] ] ]).
  destruct (d (Count l2)) as [[ | n2] | e2] eqn:H2; cbn;
    try (split; [ reflexivity | exists []; split; [ reflexivity | intros o [] ] ]).
  destruct (d (Count l3)) as [[ | n3] | e3] eqn:H3; cbn;
    try (split; [ reflexivity | exists []; split; [ reflexivity | intros o [] ] ]).
  walk_on d.
  split; [ reflexivity | ].
  exists [Count l2; Count l2; Count l3; Count l3]. split; [ reflexivity | ].
  intros o Ho. simpl in *. tauto.
Qed.

(** [_resolve_scope_fast] returns a scope in every environment, and on a
    page that does not change it is the scope [_resolve_scope] returns:
    the two further passes of [_resolve_scope] with the fallback selector
    find nothing that the first one missed. *)
Theorem resolve_scope_fast_agrees (cfg : Config.AppConfig) :
  (forall (W : Type) (ask : forall o : op, W -> answer o * W) (w : W),
      exists s,
        outcome_of (run ask (Assistant._resolve_scope_fast cfg) w) = Returned s) /\
  (forall d : snapshot,
      result_in d (Assistant._resolve_scope_fast cfg) =
      result_in d (Assistant._resolve_scope cfg)).
Proof.
  split.
  - intros W ask w.
    assert (H : sat (fun _ => True) (fun _ => False) False (fun _ => True)
                    (Assistant._resolve_scope_fast cfg)) by sat_auto.
    destruct (sat_run W ask _ _ _ _ _ H w) as [_ Ho].
    destruct (outcome_of (run ask (Assistant._resolve_scope_fast cfg) w)) as [s | e | ];
      [ exists s; reflexivity | contradiction | contradiction ].
  - intros d. rewrite resolve_scope_fast_static, resolve_scope_static. reflexivity.
Qed.

(** [_td_text] gives the empty text for a cell that is not there,
    without asking for it: for a negative index nothing is asked at all,
    for an index that is not below the number of cells only the number is
    asked; for a cell that is there it gives the text of the cell,
    stripped. *)
Theorem td_text_in_range (d : snapshot) (tds : locator) (index : Z) (n : nat) :
  d (Count tds) = Ok n ->
  ((index < 0)%Z -> Assistant._td_text tds index = Ret EmptyString) /\
  ((Z.of_nat n <= index)%Z ->
   result_in d (Assistant._td_text tds index) = Returned EmptyString /\
   ops_in d (Assistant._td_text tds index) = [Count tds]) /\
  ((0 <= index < Z.of_nat n)%Z ->
   forall t, d (InnerText (Nth tds index)) = Ok t ->
             result_in d (Assistant._td_text tds index) = Returned (Py.strip t) /\
             ops_in d (Assistant._td_text tds index) =
             [Count tds; InnerText (Nth tds index)]).
Proof.
  intros Hn. unfold Assistant._td_text. split; [ | split ].
  - intros H. apply Z.ltb_lt in H. rewrite H. reflexivity.
  - intros H.
    destruct (index <? 0)%Z eqn:E; [ apply Z.ltb_lt in E; lia | ].
    assert (E2 : (index >=? Z.of_nat n)%Z = true) by (apply Z.geb_le; lia).
    unfold result_in, ops_in, trace_in. cbn. rewrite Hn. cbn. rewrite E2.
    split; reflexivity.
  - intros H t Ht.
    destruct (index <? 0)%Z eqn:E; [ apply Z.ltb_lt in E; lia | ].
    assert (E2 : (index >=? Z.of_nat n)%Z = false).
    { destruct (index >=? Z.of_nat n)%Z eqn:E2;
        [ apply Z.geb_le in E2; lia | reflexivity ]. }
    unfold result_in, ops_in, trace_in. cbn. rewrite Hn. cbn. rewrite E2. cbn.
    rewrite Ht. split; reflexivity.
Qed.

Lemma td_text_in_range_witness :
  result_in blank (Assistant._td_text (Locator ThePage "td") 7) = Returned EmptyString.
Proof.
  apply (td_text_in_range blank (Locator ThePage "td") 7 0 eq_refl). simpl. lia.
Defined.

(** On a page that does not change [_safe_click_handle] does to the
    element what [_safe_click] does to a locator of it: the operations are
    the same but for the text of the log lines, and the outcome is the
    same. *)
Theorem safe_click_handle_agrees (d : snapshot) (h : handle) :
  result_in d (Assistant._safe_click_handle h) =
  result_in d (Assistant._safe_click (Element h)) /\
  Expected.without_logs (ops_in d (Assistant._safe_click_handle h)) =
  Expected.without_logs (ops_in d (Assistant._safe_click (Element h))).
Proof.
  unfold ops_in, trace_in, result_in, Assistant._safe_click_handle,
    Assistant._safe_click, Assistant.click_ladder, Assistant.best_effort,
    act, logger_info.
  cbn.
  destruct (d (Act (Click (Element h) (Some 2000%Z) false))) as [[] | [m1 | m1 | m1]];
    cbn; try (split; reflexivity).
  destruct (d (Act (ScrollIntoViewIfNeeded (Element h) 2000))) as [[] | e]; cbn;
    destruct (d (Act (Hover (Element h) 1000))) as [[] | e']; cbn;
    (destruct (d (Act (Click (Element h) (Some 2000%Z) true))) as [[] | [m2 | m2 | m2]];
     cbn; try (split; reflexivity);
     destruct (d (Act (Evaluate (Element h) Assistant.js_click))) as [[] | e3];
     cbn; try (split; reflexivity);
     destruct (d (Act (Evaluate (Element h) Assistant.js_dispatch_click))) as [[] | e4];
     cbn; split; reflexivity).
Qed.

(* ================================================================== *)
(** * Further properties: texts *)
(* ================================================================== *)

Section Texts.

Lemma prefix_app (x s q : string) :
  prefix x s = true -> prefix x (s ++ q) = true.
Proof.
  revert s. induction x as [ | a x IH]; intros s H.
  - destruct (s ++ q)%string; reflexivity.
  - destruct s as [ | b s]; simpl in *; [ discriminate | ].
    destruct (ascii_dec a b); [ apply IH; exact H | discriminate ].
Qed.

Lemma str_in_cons (x : string) (c : ascii) (s : string) :
  Py.str_in x (String c s) =
  if prefix x (String c s) then true else Py.str_in x s.
Proof. reflexivity. Qed.

Lemma str_in_app_r (x s q : string) :
  Py.str_in x s = true -> Py.str_in x (s ++ q) = true.
Proof.
  induction s as [ | c s IH]; intros H.
  - destruct x as [ | a x]; [ | discriminate ].
    destruct q; reflexivity.
  - rewrite str_in_cons in H.
    change (String c s ++ q)%string with (String c (s ++ q)).
    rewrite str_in_cons.
    destruct (prefix x (String c s)) eqn:E.
    + apply (prefix_app _ _ q) in E.
      change (String c s ++ q)%string with (String c (s ++ q)) in E.
      rewrite E. reflexivity.
    + destruct (prefix x (String c (s ++ q))); [ reflexivity | ].
      apply IH. exact H.
Qed.

Lemma str_in_app_l (x p s : string) :
  Py.str_in x s = true -> Py.str_in x (p ++ s) = true.
Proof.
  intros H. induction p as [ | c p IH]; [ exact H | ].
  change (String c p ++ s)%string with (String c (p ++ s)).
  rewrite str_in_cons.
  destruct (prefix x (String c (p ++ s))); [ reflexivity | exact IH ].
Qed.

Lemma lower_app (a b : string) :
  Py.lower (a ++ b) = (Py.lower a ++ Py.lower b)%string.
Proof.
  induction a as [ | c a IH]; simpl; [ reflexivity | ].
  rewrite IH. reflexivity.
Qed.

Lemma lower_ascii_again (a : ascii) :
  Py.lower_ascii (Py.lower_ascii a) = Py.lower_ascii a.
Proof.
  destruct a as [[ | ] [ | ] [ | ] [ | ] [ | ] [ | ] [ | ] [ | ]]; reflexivity.
Qed.

Lemma lower_again (s : string) : Py.lower (Py.lower s) = Py.lower s.
Proof.
  induction s as [ | c s IH]; simpl; [ reflexivity | ].
  rewrite lower_ascii_again, IH. reflexivity.
Qed.

End Texts.

(** A class attribute that looks active still does with other classes
    around it and in any letter case: an attribute that is equal, up to
    the case of its ASCII letters, to one that contains it looks active
    too. *)
Theorem tab_looks_active_in_context (c pre post other : string) :
  Assistant._tab_looks_active c = true ->
  Py.lower other = Py.lower (pre ++ c ++ post) ->
  Assistant._tab_looks_active other = true.
Proof.
  unfold Assistant._tab_looks_active. cbv zeta. intros H E. rewrite E.
  rewrite !lower_app.
  apply existsb_exists in H. destruct H as [x [Hx Hin]].
  apply existsb_exists. exists x. split; [ exact Hx | ].
  apply str_in_app_l, str_in_app_r. exact Hin.
Qed.

Lemma tab_looks_active_in_context_witness :
  Assistant._tab_looks_active "nav-item ACTIVE jsxx" = true.
Proof.
  apply (tab_looks_active_in_context "active" "nav-item " " jsxx");
    reflexivity.
Defined.

Section Progress.






(** ** Reading a number that was written *)

Lemma digits_of_uint (u : Decimal.uint) (rest : string) (acc : nat) :
  Expected.no_digit_ahead rest = true ->
  Py.digits (NilEmpty.string_of_uint u ++ rest) (Z.of_nat acc) true =
  Some (Z.of_nat (Nat.of_uint_acc u acc), rest).
Proof.
  intros Hrest. revert acc.
  induction u as [ | u IH | u IH | u IH | u IH | u IH | u IH | u IH | u IH | u IH | u IH];
    intros acc;
    try (cbn [NilEmpty.string_of_uint append Py.digits Nat.of_uint_acc];
         match goal with
         | |- context [Py.digit_val ?c] =>
             let v := eval cbv in (Py.digit_val c) in
             change (Py.digit_val c) with v
         end; cbv iota;
         rewrite <- IH; f_equal; rewrite Nat.tail_mul_spec; lia).
  simpl. destruct rest as [ | a r]; [ reflexivity | ].
  simpl. unfold Expected.no_digit_ahead, Expected.plain in Hrest.
  apply andb_true_iff in Hrest. destruct Hrest as [_ Hrest].
  destruct (Py.digit_val a); [ discriminate | reflexivity ].
Qed.

Lemma digits_of_nat (n : nat) (rest : string) :
  Expected.no_digit_ahead rest = true ->
  Py.digits (Py.str_of_nat n ++ rest) 0 false = Some (Z.of_nat n, rest).
Proof.
  intros Hrest. unfold Py.str_of_nat.
  rewrite <- (DecimalNat.Unsigned.of_to n) at 2. unfold Nat.of_uint.
  destruct (Nat.to_uint n) as [ | u | u | u | u | u | u | u | u | u | u];
    try (cbn [NilZero.string_of_uint NilEmpty.string_of_uint append Py.digits
                Nat.of_uint_acc];
         match goal with
         | |- context [Py.digit_val ?c] =>
             let v := eval cbv in (Py.digit_val c) in
             change (Py.digit_val c) with v
         end; cbv iota;
         rewrite <- (digits_of_uint u rest _ Hrest); f_equal).
  simpl. destruct rest as [ | a r]; [ reflexivity | ].
  simpl. unfold Expected.no_digit_ahead, Expected.plain in Hrest.
  apply andb_true_iff in Hrest. destruct Hrest as [_ Hrest].
  destruct (Py.digit_val a); [ discriminate | reflexivity ].
Qed.

Lemma lstrip_kept (a : ascii) (r : string) :
  Py.space1 a = false ->
  (forall b, Py.space2 a b = false) ->
  (forall b c, Py.space3 a b c = false) ->
  Py.lstrip (String a r) = String a r.
Proof.
  intros H1 H2 H3. simpl. rewrite H1.
  destruct r as [ | b r2]; [ reflexivity | ]. rewrite H2.
  destruct r2 as [ | c r3]; [ reflexivity | ]. rewrite H3. reflexivity.
Qed.

Lemma lstrip_blanks (ws s : string) :
  Expected.blanks ws = true -> Py.lstrip (ws ++ s) = Py.lstrip s.
Proof.
  induction ws as [ | a ws IH]; intros H; [ reflexivity | ].
  simpl in H. apply andb_true_iff in H. destruct H as [Ha Hws].
  apply Ascii.eqb_eq in Ha. subst a.
  change (Py.lstrip (" " ++ ws ++ s)) with (Py.lstrip (ws ++ s)).
  apply IH. exact Hws.
Qed.

Lemma lstrip_number (n : nat) (rest : string) :
  Py.lstrip (Py.str_of_nat n ++ rest) = (Py.str_of_nat n ++ rest)%string.
Proof.
  unfold Py.str_of_nat.
  destruct (Nat.to_uint n) as [ | u | u | u | u | u | u | u | u | u | u];
    simpl NilZero.string_of_uint; simpl NilEmpty.string_of_uint; simpl append;
    apply lstrip_kept; intros; reflexivity.
Qed.

Lemma blanks_then_slash_ahead (ws s : string) :
  Expected.blanks ws = true ->
  Expected.no_digit_ahead (ws ++ "/" ++ s) = true.
Proof.
  destruct ws as [ | a ws]; [ reflexivity | ].
  simpl. intros H. apply andb_true_iff in H. destruct H as [Ha _].
  apply Ascii.eqb_eq in Ha. subst a. reflexivity.
Qed.

Lemma search_after_plain (pre s : string) :
  Expected.all_plain pre = true ->
  Py.search_progress (pre ++ s) = Py.search_progress s.
Proof.
  induction pre as [ | a pre IH]; intros H; [ reflexivity | ].
  simpl in H. apply andb_true_iff in H. destruct H as [Ha Hpre].
  simpl append. simpl Py.search_progress.
  assert (E : Py.match_progress_here (String a (pre ++ s)) = None).
  { unfold Py.match_progress_here. simpl Py.digits.
    unfold Expected.plain in Ha. apply andb_true_iff in Ha.
    destruct Ha as [_ Ha]. destruct (Py.digit_val a); [ discriminate | reflexivity ]. }
  rewrite E. apply IH. exact Hpre.
Qed.

Lemma search_found (s : string) (r : Z * Z) :
  Py.match_progress_here s = Some r -> Py.search_progress s = Some r.
Proof.
  intros H. destruct s; cbn [Py.search_progress]; rewrite H; reflexivity.
Qed.

End Progress.



(** Reading back: two numbers written in decimal with a slash between
    them, spaces allowed on both sides of the slash, are read as these
    numbers, after any ASCII text without a digit and before a text that
    is empty or begins with an ASCII character that is not a digit. *)
Theorem parse_progress_reads_back (a b : nat) (pre ws1 ws2 post : string) :
  Expected.all_plain pre = true ->
  Expected.blanks ws1 = true ->
  Expected.blanks ws2 = true ->
  Expected.no_digit_ahead post = true ->
  Assistant._parse_progress
    (pre ++ Py.str_of_nat a ++ ws1 ++ "/" ++ ws2 ++ Py.str_of_nat b ++ post) =
  Some (Z.of_nat a, Z.of_nat b).
Proof.
  intros Hpre H1 H2 Hpost. unfold Assistant._parse_progress.
  rewrite (search_after_plain _ _ Hpre).
  assert (E : Py.match_progress_here
                (Py.str_of_nat a ++ ws1 ++ "/" ++ ws2 ++ Py.str_of_nat b ++ post) =
              Some (Z.of_nat a, Z.of_nat b)).
  { unfold Py.match_progress_here.
    rewrite (digits_of_nat a _ (blanks_then_slash_ahead ws1 _ H1)).
    rewrite (lstrip_blanks ws1 _ H1).
    change ("/" ++ ws2 ++ Py.str_of_nat b ++ post)%string
      with (String "/"%char (ws2 ++ Py.str_of_nat b ++ post)).
    rewrite (lstrip_kept "/" _ eq_refl (fun _ => eq_refl) (fun _ _ => eq_refl)).
    rewrite Ascii.eqb_refl.
    rewrite (lstrip_blanks ws2 _ H2), lstrip_number.
    rewrite (digits_of_nat b _ Hpost). reflexivity. }
  apply search_found. exact E.
Qed.

Lemma parse_progress_reads_back_witness :
  Assistant._parse_progress "done: 10 / 11 items" = Some (10%Z, 11%Z).
Proof.
  apply (parse_progress_reads_back 10 11 "done: " " " " " " items"); reflexivity.
Defined.

(* ================================================================== *)
(** * Further properties: the waits, in every environment *)
(* ================================================================== *)

Section SatReturns.

Variable Pop : op -> Prop.
Variable Pexn : exn -> Prop.

(** The rules for loops that return a value. *)
Lemma sat_for_each_ret {T R} (Q : R -> Prop) (xs : list T)
      (body : T -> prog (ctl R)) :
  (forall x, In x xs ->
             sat Pop Pexn True (fun c => forall r, c = Return r -> Q r) (body x)) ->
  sat Pop Pexn True (fun o => forall r, o = Some r -> Q r) (for_each xs body).
Proof.
  intros Hbody. unfold for_each.
  apply sat_bind with (Q := fun p : unit * option R => forall r, snd p = Some r -> Q r);
    [ | intros p Hp; exact Hp ].
  induction xs as [ | x rest IH]; simpl.
  - discriminate.
  - apply sat_bind
      with (Q := fun p : unit * ctl R => forall r, snd p = Return r -> Q r).
    + apply sat_bind with (Q := fun c : ctl R => forall r, c = Return r -> Q r);
        [ apply Hbody; left; reflexivity | ].
      intros c Hc. simpl. exact Hc.
    + intros [[] c] Hc. simpl in *. destruct c as [ | | r].
      * apply IH. intros y Hy. apply Hbody. right. exact Hy.
      * simpl. discriminate.
      * simpl. intros r' E. inversion E; subst. apply Hc. reflexivity.
Qed.

Lemma sat_while_do_ret {R} (Q : R -> Prop) (fuel : nat) (cond : prog bool)
      (body : prog (ctl R)) :
  sat Pop Pexn True (fun _ => True) cond ->
  sat Pop Pexn True (fun c => forall r, c = Return r -> Q r) body ->
  sat Pop Pexn True (fun o => forall r, o = Some r -> Q r)
      (while_do fuel cond body).
Proof.
  intros Hcond Hbody. unfold while_do.
  apply sat_bind with (Q := fun p : unit * option R => forall r, snd p = Some r -> Q r);
    [ | intros p Hp; exact Hp ].
  eapply sat_weaken;
    [ | apply (@sat_while_ Pop Pexn True unit R (fun _ => True) Q);
        [ exact I | exact I | exact Hcond | ] ].
  - intros p [_ H]. exact H.
  - intros s _.
    apply sat_bind with (Q := fun c : ctl R => forall r, c = Return r -> Q r);
      [ exact Hbody | ].
    intros c Hc. simpl. split; [ exact I | exact Hc ].
Qed.

Lemma sat_iter_scopes_ret {R} (Q : R -> Prop)
      (body : string * scope -> prog (ctl R)) :
  (forall it, sat Pop Pexn True (fun c => forall r, c = Return r -> Q r) (body it)) ->
  Pop PageFrames -> Pop PageMainFrame -> (forall f, Pop (FrameUrl f)) ->
  sat Pop Pexn True (fun o => forall r, o = Some r -> Q r)
      (Assistant._iter_scopes body).
Proof.
  intros Hbody H1 H2 H3. unfold Assistant._iter_scopes.
  apply sat_bind with (Q := fun c : ctl R => forall r, c = Return r -> Q r);
    [ apply Hbody | ].
  intros c Hc. destruct c as [ | | r]; simpl.
  - split; [ exact H1 | ]. intros frames.
    apply sat_for_each_ret. intros it _.
    simpl. split; [ exact H2 | ]. intros main.
    destruct (Nat.eqb (snd it) main); simpl; [ discriminate | ].
    split; [ apply H3 | ]. intros url. apply Hbody.
  - discriminate.
  - intros r' E. inversion E; subst. apply Hc. reflexivity.
Qed.

End SatReturns.

Section Waits.

Import Config Assistant Expected.

Lemma sat_only_looked {W A} (ask : forall o : op, W -> answer o * W)
      (m : prog A) (w : W) :
  sat looks_only (fun _ => False) True (fun _ => True) m ->
  only_looked (run ask m w).
Proof.
  intros H. destruct (sat_run W ask _ _ _ _ _ H w) as [Ht Ho].
  split; [ exact Ht | ].
  intros e E. rewrite E in Ho. exact Ho.
Qed.

End Waits.

(** The three waits for a tab never act on the page and never fail: in
    every environment they only look, and end without an exception
    whatever the queries answer. *)
Theorem tab_waits_only_look (fuel : nat) (cfg : Config.AppConfig)
        (h : handle) (tab modal_locator : locator)
        (before_progress : option string) (timeout_s : Q)
        (W : Type) (ask : forall o : op, W -> answer o * W) (w : W) :
  Expected.only_looked
    (run ask (Assistant._wait_tab_active_handle fuel h timeout_s) w) /\
  Expected.only_looked
    (run ask (Assistant._wait_tab_active_locator fuel tab timeout_s) w) /\
  Expected.only_looked
    (run ask (Assistant._wait_teacher_tab_switched fuel modal_locator cfg
                                                   before_progress timeout_s) w).
Proof.
  split; [ | split ]; apply sat_only_looked; unfold Assistant.return_if; sat_auto.
Qed.

(** [_wait_for_explicit_teacher_tabs] only looks, never fails, and
    returns the locator of the explicit tabs of its scope, whether the
    tabs have appeared or the time is over. *)
Theorem explicit_tabs_wait_returns_locator (fuel : nat) (s : scope) (timeout_s : Q)
        (W : Type) (ask : forall o : op, W -> answer o * W) (w : W) :
  let r := run ask (Assistant._wait_for_explicit_teacher_tabs fuel s timeout_s) w in
  Expected.only_looked r /\
  forall l, outcome_of r = Returned l ->
            l = Locator s Assistant.explicit_tabs_selector.
Proof.
  assert (H : sat Expected.looks_only (fun _ => False) True
                  (fun l => l = Locator s Assistant.explicit_tabs_selector)
                  (Assistant._wait_for_explicit_teacher_tabs fuel s timeout_s)).
  { unfold Assistant._wait_for_explicit_teacher_tabs, monotonic.
    split; [ exact I | ]. intros start.
    apply sat_or_else; [ | reflexivity ].
    apply sat_bind
      with (Q := fun p : Z * option locator =>
                   forall x, snd p = Some x ->
                             x = Locator s Assistant.explicit_tabs_selector);
      [ | intros p Hp; exact Hp ].
    eapply sat_weaken;
      [ | apply (@sat_while_ Expected.looks_only (fun _ => False) True Z locator
                             (fun _ => True)
                             (fun x => x = Locator s Assistant.explicit_tabs_selector));
          [ exact I | exact I | unfold Assistant.within; sat_auto | ] ].
    - intros p [_ Hp]. exact Hp.
    - intros last_count _.
      apply sat_bind_any; [ sat_auto | ].
      intros c. destruct (nonzero c); simpl.
      + split; [ exact I | ]. intros r E. inversion E. reflexivity.
      + split; [ exact I | ]. intros _. simpl. split; [ exact I | discriminate ]. }
  intros r. subst r. destruct (sat_run W ask _ _ _ _ _ H w) as [Ht Ho].
  split; [ split; [ exact Ht | ] | ].
  - intros e E. rewrite E in Ho. exact Ho.
  - intros l E. rewrite E in Ho. exact Ho.
Qed.

Lemma wait_for_modal_sat (fuel : nat) (cfg : Config.AppConfig) (timeout_ms : Z) :
  sat Expected.looks_only (fun e => e = Expected.modal_missing cfg) True
      (fun p : scope * locator =>
         exists sel, In sel (Expected.modal_candidates cfg) /\
                     snd p = First (Locator (fst p) sel))
      (Assistant._wait_for_modal fuel cfg timeout_ms).
Proof.
  set (Q := fun p : scope * locator =>
              exists sel, In sel (Expected.modal_candidates cfg) /\
                          snd p = First (Locator (fst p) sel)).
  unfold Assistant._wait_for_modal, monotonic. cbv zeta.
  split; [ exact I | ]. intros t0.
  apply sat_or_else; [ | reflexivity ].
  apply sat_while_do_ret; [ sat_auto | ].
  apply sat_bind with (Q := fun o : option (scope * locator) =>
                              forall x, o = Some x -> Q x).
  - apply sat_iter_scopes_ret; try exact I; [ | intros; exact I ].
    intros it.
    apply sat_bind with (Q := fun o : option (scope * locator) =>
                                forall x, o = Some x -> Q x).
    + apply sat_for_each_ret. intros sel Hsel.
      apply sat_try_except; [ | simpl; discriminate ].
      unfold count, is_visible, logger_info. simpl.
      split; [ exact I | ]. intros [n | e]; simpl; [ | discriminate ].
      destruct (Nat.eqb n 0); simpl; [ discriminate | ].
      split; [ exact I | ]. intros [[ | ] | e]; simpl; try discriminate.
      split; [ exact I | ]. intros _ r E. inversion E; subst.
      exists sel. split; [ exact Hsel | reflexivity ].
    + intros [x | ] Hx; simpl.
      * intros r E. inversion E; subst. apply Hx. reflexivity.
      * discriminate.
  - intros [x | ] Hx; simpl.
    + intros r E. inversion E; subst. apply Hx. reflexivity.
    + split; [ exact I | ]. intros _. simpl. discriminate.
Qed.

(** [_wait_for_modal] only looks.  What it returns is a scope with the
    first element of one of its five candidate selectors in that scope;
    the only exception that leaves it is the [RuntimeError] that names the
    configured selector. *)
Theorem wait_for_modal_returns_candidate (fuel : nat) (cfg : Config.AppConfig)
        (timeout_ms : Z)
        (W : Type) (ask : forall o : op, W -> answer o * W) (w : W) :
  let r := run ask (Assistant._wait_for_modal fuel cfg timeout_ms) w in
  Forall (fun e => Expected.looks_only (ev_op e)) (trace r) /\
  (forall s l, outcome_of r = Returned (s, l) ->
               exists sel, In sel (Expected.modal_candidates cfg) /\
                           l = First (Locator s sel)) /\
  (forall e, outcome_of r = Raised e -> e = Expected.modal_missing cfg).
Proof.
  intros r. subst r.
  destruct (sat_run W ask _ _ _ _ _ (wait_for_modal_sat fuel cfg timeout_ms) w)
    as [Ht Ho].
  split; [ exact Ht | ]. split.
  - intros s l E. rewrite E in Ho. exact Ho.
  - intros e E. rewrite E in Ho. exact Ho.
Qed.

Section TableWait.

Import Config Assistant Expected.

Lemma find_table_fast_in_scope (s : scope) (cfg : AppConfig) :
  sat looks_for_table from_browser True
      (fun t => forall l, t = Some l -> scope_of l = Some s)
      (_find_table_fast s cfg).
Proof.
  unfold _find_table_fast, if_count, count. cbv zeta. simpl.
  split; [ exact I | ]. intros [n1 | e1]; simpl; [ | exact I ].
  destruct (nonzero n1); simpl;
    [ intros l E; inversion E; reflexivity | ].
  split; [ exact I | ]. intros [n2 | e2]; simpl; [ | exact I ].
  destruct (nonzero n2); simpl;
    [ intros l E; inversion E; reflexivity | ].
  split; [ exact I | ]. intros [n3 | e3]; simpl; [ | exact I ].
  destruct (nonzero n3); simpl;
    [ intros l E; inversion E; reflexivity | discriminate ].
Qed.

Lemma resolve_scope_fast_looks (cfg : AppConfig) :
  sat looks_for_table from_browser True (fun _ => True) (_resolve_scope_fast cfg).
Proof. sat_auto. Qed.

(** One look for the table: the scope and, when there is one, a table in
    it. *)
Lemma look_for_table (cfg : AppConfig) {B} (Q : B -> Prop)
      (k : scope -> option locator -> prog B) :
  (forall s t, (forall l, t = Some l -> scope_of l = Some s) ->
               sat looks_for_table from_browser True Q (k s t)) ->
  sat looks_for_table from_browser True Q
      (s <- _resolve_scope_fast cfg ;; table <- _find_table_fast s cfg ;; k s table).
Proof.
  intros Hk. apply sat_bind_any; [ apply resolve_scope_fast_looks | ].
  intros s.
  apply sat_bind with (Q := fun t => forall l, t = Some l -> scope_of l = Some s);
    [ apply find_table_fast_in_scope | ].
  intros t Ht. apply Hk. exact Ht.
Qed.

End TableWait.

Lemma wait_for_table_sat (fuel : nat) (cfg : Config.AppConfig) (timeout_ms : Z) :
  sat Expected.looks_for_table Expected.from_browser True
      (fun p : scope * locator => Expected.scope_of (snd p) = Some (fst p))
      (Assistant._wait_for_table fuel cfg timeout_ms).
Proof.
  set (Q := fun p : scope * locator => Expected.scope_of (snd p) = Some (fst p)).
  unfold Assistant._wait_for_table, monotonic. cbv zeta.
  split; [ exact I | ]. intros t0.
  apply sat_or_else.
  - apply sat_bind
      with (Q := fun p : option string * option (scope * locator) =>
                   forall x, snd p = Some x -> Q x);
      [ | intros p Hp; exact Hp ].
    eapply sat_weaken;
      [ | apply (@sat_while_ Expected.looks_for_table Expected.from_browser True
                             (option string) (scope * locator)
                             (fun _ => True) Q);
          [ exact I | exact I | sat_auto | ] ].
    + intros p [_ Hp]. exact Hp.
    + intros last_url _. unfold page_url. simpl.
      split; [ exact I | ]. intros url.
      apply sat_bind_any; [ sat_auto | ]. intros last_url'.
      apply look_for_table. intros s t Ht.
      apply sat_bind
        with (Q := fun c : ctl (scope * locator) => forall r, c = Return r -> Q r).
      * destruct t as [l | ]; [ | simpl; discriminate ].
        unfold count. simpl. split; [ exact I | ].
        intros [n | e]; simpl; [ | exact I ].
        destruct (nonzero n); simpl; [ | discriminate ].
        split; [ reflexivity | ]. intros [[] | e]; simpl; [ | discriminate ].
        intros r E. inversion E; subst. apply Ht. reflexivity.
      * intros c Hc. destruct c as [ | | r]; simpl.
        -- split; [ exact I | ]. intros _. simpl. split; [ exact I | discriminate ].
        -- split; [ exact I | discriminate ].
        -- split; [ exact I | ]. intros r' E. inversion E; subst. apply Hc. reflexivity.
  - apply look_for_table. intros s t Ht. unfold act. simpl.
    split; [ reflexivity | ]. intros [[] | e]; simpl; [ | exact I ].
    unfold Q. simpl. destruct t as [l | ]; [ apply Ht; reflexivity | reflexivity ].
Qed.

(** [_wait_for_table] looks and checks, for a second at a time, that a
    table is visible; it does nothing else to the page.  The table it
    returns is in the scope it returns with it, and only an error of the
    browser leaves it. *)
Theorem wait_for_table_in_scope (fuel : nat) (cfg : Config.AppConfig)
        (timeout_ms : Z)
        (W : Type) (ask : forall o : op, W -> answer o * W) (w : W) :
  let r := run ask (Assistant._wait_for_table fuel cfg timeout_ms) w in
  Forall (fun e => Expected.looks_for_table (ev_op e)) (trace r) /\
  (forall s t, outcome_of r = Returned (s, t) -> Expected.scope_of t = Some s) /\
  (forall e, outcome_of r = Raised e -> Expected.from_browser e).
Proof.
  intros r. subst r.
  destruct (sat_run W ask _ _ _ _ _ (wait_for_table_sat fuel cfg timeout_ms) w)
    as [Ht Ho].
  split; [ exact Ht | ]. split.
  - intros s t E. rewrite E in Ho. exact Ho.
  - intros e E. rewrite E in Ho. exact Ho.
Qed.

(* ================================================================== *)
(** * Further properties: what the flow takes from the configuration *)
(* ================================================================== *)

Lemma sat_exn_any {A} (Pop : op -> Prop) (Pexn : exn -> Prop) (Pspin : Prop)
      (Q : A -> Prop) (m : prog A) :
  sat Pop (fun _ => True) Pspin Q m ->
  (forall e, Pexn e) ->
  sat Pop Pexn Pspin Q m.
Proof.
  intros H Hall. induction m as [a | e | | o k IH]; simpl in *; auto.
  destruct H as [Ho Hk]. split; auto.
Qed.

Section FromTheConfiguration.

Import Config Assistant Expected.

Variable cfg : AppConfig.

Lemma choice_from_pool :
  sat (as_configured cfg) (fun _ => True) True
      (fun text => In text (comment_templates cfg))
      (choice (comment_templates cfg)).
Proof.
  unfold choice. destruct (comment_templates cfg) as [ | x rest] eqn:E;
    [ exact I | ].
  cbn [sat]. split; [ exact I | ]. intros r.
  apply nth_In. apply Nat.mod_upper_bound. discriminate.
Qed.

Lemma prefill_as_configured (modal_locator : locator) :
  sat (as_configured cfg) (fun _ => True) True (fun _ => True)
      (_prefill_active_block modal_locator cfg).
Proof.
  unfold _prefill_active_block. cbv zeta.
  apply sat_bind_any; [ sat_auto | intros _ ].
  apply sat_bind_any; [ sat_auto | intros _ ].
  apply sat_bind_any; [ sat_auto | intros _ ].
  apply sat_bind with (Q := fun text => In text (comment_templates cfg));
    [ apply choice_from_pool | ].
  intros text Htext.
  apply sat_bind_any; [ unfold act; simpl; split; [ exact Htext | intros; sat_auto ] | ].
  intros _. sat_auto.
Qed.

Lemma flow_as_configured (fuel : nat) :
  sat (as_configured cfg) (fun _ => True) True (fun _ => True)
      (assist_all_pages fuel cfg).
Proof.
  repeat lazymatch goal with
         | |- sat _ _ _ _ (_prefill_active_block _ _) =>
             apply sat_exn_any;
             [ apply prefill_as_configured | solve [ simpl; intros; exact I ] ]
         | _ => sat_step
         end.
Qed.

End FromTheConfiguration.

(** Whatever the browser answers, a text that the flow types into the
    page is one of the configured comments, and an address it opens is the
    configured list. *)
Theorem flow_fills_from_pool (fuel : nat) (cfg : Config.AppConfig)
        (W : Type) (ask : forall o : op, W -> answer o * W) (w : W) :
  Forall (fun e => Expected.as_configured cfg (ev_op e))
         (trace (run ask (Assistant.assist_all_pages fuel cfg) w)).
Proof.
  apply (sat_run W ask _ _ _ _ _ (flow_as_configured cfg fuel) w).
Qed.

(* ================================================================== *)
(** * Further properties: the entry programs *)
(* ================================================================== *)

Section Finally.

Variable Pop : op -> Prop.
Variable Pexn : exn -> Prop.
Variable Pspin : Prop.

Lemma sat_try_finally {A} (body : prog A) (final : prog unit) :
  sat Pop Pexn Pspin (fun _ => True) body ->
  sat Pop Pexn Pspin (fun _ => True) final ->
  sat Pop Pexn Pspin (fun _ => True) (try_finally body final).
Proof.
  intros Hb Hf. induction body as [a | e | | o k IH]; simpl in *.
  - apply sat_bind_any; [ exact Hf | intros; exact I ].
  - apply sat_bind_any; [ exact Hf | intros; exact Hb ].
  - exact Hb.
  - destruct Hb as [Ho Hk]. split; auto.
Qed.

End Finally.

Lemma login_hands_off (data : Config.Document) (storage : string) :
  sat Expected.hands_off (fun _ => True) True (fun _ => True)
      (Entry.run_login_main data storage).
Proof.
  unfold Entry.run_login_main.
  apply sat_bind_any; [ sat_auto | intros cfg ].
  apply sat_bind_any; [ sat_auto | intros _ ].
  apply sat_bind_any; [ | intros; exact I ].
  apply sat_try_finally; sat_auto.
Qed.

(** The login helper leaves the login to the user: whatever the browser
    answers, it never clicks, types or runs a script in the page, and it
    saves the login state only after the return key has been read. *)
Theorem login_saves_after_return (data : Config.Document) (storage : string)
        (W : Type) (ask : forall o : op, W -> answer o * W) (w : W) :
  let performed := ops (run ask (Entry.run_login_main data storage) w) in
  Forall Expected.hands_off performed /\
  Expected.saves_after_return performed = true.
Proof.
  intros performed. subst performed. split.
  - destruct (sat_run W ask _ _ _ _ _ (login_hands_off data storage) w) as [Ht _].
    unfold ops. apply Forall_map. exact Ht.
  - unfold Entry.run_login_main, ops.
    destruct (Config.load_config data) as [cfg | e]; [ | reflexivity ].
    unfold act, print, input. cbn.
    repeat (match goal with
            | |- context [ask ?o ?w0] =>
                is_var w0;
                let a := fresh "a" in
                let w' := fresh "w" in
                destruct (ask o w0) as [a w'];
                cbn [fst snd];
                lazymatch o with
                | Act _ => destruct a as [[] | ?]
                | _ => idtac
                end
            end; cbn); reflexivity.
Qed.

Section StaticFinally.

Variable d : snapshot.

Lemma result_in_try_finally {A} (body : prog A) (final : prog unit) :
  result_in d (try_finally body final) =
  match result_in d body with
  | Returned a =>
      match result_in d final with
      | Returned _ => Returned a
      | Raised e => Raised e
      | Running => Running
      end
  | Raised e =>
      match result_in d final with
      | Returned _ => Raised e
      | Raised e' => Raised e'
      | Running => Running
      end
  | Running => Running
  end.
Proof.
  induction body as [a | e | | o k IH].
  - simpl try_finally. rewrite result_in_bind.
    destruct (result_in d final); reflexivity.
  - simpl try_finally. rewrite result_in_bind.
    destruct (result_in d final); reflexivity.
  - reflexivity.
  - simpl try_finally. rewrite !result_in_do. apply IH.
Qed.

Lemma ops_in_try_finally {A} (body : prog A) (final : prog unit) :
  ops_in d (try_finally body final) =
  (ops_in d body ++
   match result_in d body with
   | Running => []
   | _ => ops_in d final
   end)%list.
Proof.
  induction body as [a | e | | o k IH].
  - simpl try_finally. rewrite ops_in_bind.
    destruct (result_in d final); simpl; rewrite ?app_nil_r; reflexivity.
  - simpl try_finally. rewrite ops_in_bind.
    destruct (result_in d final); simpl; rewrite ?app_nil_r; reflexivity.
  - reflexivity.
  - simpl try_finally. rewrite !ops_in_do, result_in_do, IH. reflexivity.
Qed.

Lemma result_in_try_except_as {A} (body : prog A) (handles : exn -> bool)
      (handler : exn -> prog A) :
  result_in d (try_except_as body handles handler) =
  match result_in d body with
  | Raised e => if handles e then result_in d (handler e) else Raised e
  | r => r
  end.
Proof.
  induction body as [a | e | | o k IH]; try reflexivity.
  - simpl. destruct (handles e); reflexivity.
  - simpl try_except_as. rewrite !result_in_do. apply IH.
Qed.

Lemma ops_in_try_except_as {A} (body : prog A) (handles : exn -> bool)
      (handler : exn -> prog A) :
  ops_in d (try_except_as body handles handler) =
  (ops_in d body ++
   match result_in d body with
   | Raised e => if handles e then ops_in d (handler e) else []
   | _ => []
   end)%list.
Proof.
  induction body as [a | e | | o k IH]; try reflexivity.
  - simpl. destruct (handles e); reflexivity.
  - simpl try_except_as. rewrite !ops_in_do, result_in_do, IH. reflexivity.
Qed.

Lemma act_ok (a : action) :
  d (Act a) = Ok tt ->
  result_in d (act a) = Returned tt /\ ops_in d (act a) = [Act a].
Proof.
  intros H. unfold act. rewrite result_in_do, ops_in_do, H. split; reflexivity.
Qed.

End StaticFinally.

(** On a page that does not change, with a configuration that loads and
    a browser that starts and closes without error: [run_assist.main]
    closes the context, the browser and Playwright after the flow, whether
    the flow returned or raised; an exception of the flow is re-raised
    unchanged, after a screenshot and a log entry; nothing else is done
    outside the flow. *)
Theorem assist_main_cleans_up (d : snapshot) (fuel : nat) (data : Config.Document)
        (storage : string) (cfg : Config.AppConfig) :
  Config.load_config data = Ok cfg ->
  Expected.succeed d (Expected.opening d cfg storage ++ Expected.reporting d
                      ++ Expected.closing) ->
  let flow := Assistant.assist_all_pages fuel cfg in
  let main := Entry.run_assist_main fuel data storage in
  match result_in d flow with
  | Returned _ =>
      result_in d main = Returned 0%Z /\
      ops_in d main =
      (Expected.opening d cfg storage ++ ops_in d flow ++ Expected.closing)%list
  | Raised e =>
      result_in d main = Raised e /\
      ops_in d main =
      (Expected.opening d cfg storage ++ ops_in d flow ++ Expected.reporting d
       ++ Expected.closing)%list
  | Running =>
      result_in d main = Running /\
      ops_in d main = (Expected.opening d cfg storage ++ ops_in d flow)%list
  end.
Proof.
  intros Hcfg Hok flow main. subst main. unfold Entry.run_assist_main.
  rewrite Hcfg. cbn [of_result bind].
  assert (Hact : forall a,
             In (Act a) (Expected.opening d cfg storage ++ Expected.reporting d
                         ++ Expected.closing) ->
             result_in d (act a) = Returned tt /\ ops_in d (act a) = [Act a])
    by (intros a Ha; apply act_ok, Hok, Ha).
  destruct (Hact StartPlaywright) as [R1 O1]; [ simpl; tauto | ].
  destruct (Hact (Launch (Config.headless (Config.browser cfg))
                         (Config.slow_mo_ms (Config.browser cfg)))) as [R2 O2];
    [ simpl; tauto | ].
  destruct (Hact (NewContext (Some storage))) as [R3 O3]; [ simpl; tauto | ].
  destruct (Hact NewPage) as [R4 O4]; [ simpl; tauto | ].
  destruct (Hact (Screenshot (Expected.screenshot_path d) true)) as [R5 O5];
    [ simpl; tauto | ].
  destruct (Hact CloseContext) as [R6 O6]; [ simpl; tauto | ].
  destruct (Hact CloseBrowser) as [R7 O7]; [ simpl; tauto | ].
  destruct (Hact StopPlaywright) as [R8 O8]; [ simpl; tauto | ].
  clear Hact Hok.
  assert (Hlog : result_in d Entry._setup_logger = Returned tt /\
                 ops_in d Entry._setup_logger =
                 [Mkdir "logs"; Strftime "%Y%m%d_%H%M%S";
                  OpenLog (Expected.log_path d);
                  LoggerInfo "log=%s" [LStr (Expected.log_path d)]]).
  { unfold Entry._setup_logger, Expected.log_path, result_in, ops_in, trace_in.
    cbn. destruct (d (LoggerInfo _ _)). split; reflexivity. }
  destruct Hlog as [RL OL].
  repeat (progress
            (rewrite ?result_in_bind, ?ops_in_bind, ?result_in_try_finally,
               ?ops_in_try_finally, ?result_in_try_except_as,
               ?ops_in_try_except_as, ?RL, ?OL, ?R1, ?O1, ?R2, ?O2, ?R3, ?O3,
               ?R4, ?O4, ?R6, ?O6, ?R7, ?O7, ?R8, ?O8;
             cbv beta iota)).
  fold flow.
  destruct (result_in d flow) as [[] | e | ] eqn:Eflow.
  - cbv beta iota. split; [ reflexivity | ].
    unfold Expected.opening, Expected.closing. cbn [app].
    rewrite <- ?app_assoc. reflexivity.
  - unfold is_Exception. cbv beta iota.
    unfold mkdir, strftime, logger_exception. cbn [bind].
    rewrite !result_in_do, !ops_in_do. cbv zeta.
    fold (Expected.screenshot_path d).
    rewrite result_in_bind, ops_in_bind, R5, O5. cbv beta iota.
    cbn [bind]. rewrite result_in_do, ops_in_do.
    change (result_in d (Raise e)) with (Raised (A := unit) e).
    change (ops_in d (Raise (A := unit) e)) with (@nil op).
    cbv beta iota.
    split; [ reflexivity | ].
    unfold Expected.opening, Expected.closing, Expected.reporting. cbn [app].
    rewrite <- ?app_assoc. cbn [app]. reflexivity.
  - cbv beta iota. split; [ reflexivity | ].
    unfold Expected.opening. cbn [app]. rewrite ?app_nil_r. reflexivity.
Qed.

(** Off line the flow fails at once; the error comes back after the
    screenshot, and everything is closed. *)
Lemma assist_main_cleans_up_witness :
  result_in Sample.offline (Entry.run_assist_main 1 Sample.document "state.json") =
  Raised (Browser (PlaywrightError "net::ERR_INTERNET_DISCONNECTED")).
Proof.
  pose proof (assist_main_cleans_up Sample.offline 1 Sample.document "state.json"
                                    Sample.cfg eq_refl) as H.
  cbv zeta in H.
  assert (Hok : Expected.succeed Sample.offline
                  (Expected.opening Sample.offline Sample.cfg "state.json"
                   ++ Expected.reporting Sample.offline ++ Expected.closing)).
  { intros a Ha. simpl in Ha.
    repeat (destruct Ha as [Ha | Ha]; [ inversion Ha; subst; reflexivity || discriminate | ]).
    contradiction. }
  specialize (H Hok).
  change (result_in Sample.offline (Assistant.assist_all_pages 1 Sample.cfg))
    with (Raised (A := unit) (Browser (PlaywrightError "net::ERR_INTERNET_DISCONNECTED")))
    in H.
  apply H.
Defined.

(* ================================================================== *)
(** * Further properties: the waits while the clock runs *)
(* ================================================================== *)

Section Ticking.

Variable obs : nat -> snapshot.



Lemma run_bind_raised {A B} (m : prog A) (f : A -> prog B) (k k' : nat) (e : exn) :
  outcome_of (run (ticking obs) m k) = Raised e ->
  final (run (ticking obs) m k) = k' ->
  outcome_of (run (ticking obs) (bind m f) k) = Raised e /\
  final (run (ticking obs) (bind m f) k) = k'.
Proof.
  intros Ho Hf. rewrite run_bind. unfold then_run. rewrite Ho, Hf.
  split; reflexivity.
Qed.






End Ticking.

Arguments Assistant._tab_looks_active : simpl never.
Arguments Py.lower : simpl never.

Section TabWait.

Import Config Assistant Expected.

Variable obs : nat -> snapshot.
Variable h : handle.



End TabWait.



Section ModalWait.

Import Config Assistant Expected.

Variable d : snapshot.

Lemma result_in_for_each_next {T R} (xs : list T) (body : T -> prog (ctl R)) :
  (forall x, In x xs -> result_in d (body x) = Returned Next) ->
  result_in d (for_each xs body) = Returned None.
Proof.
  intros Hbody. unfold for_each. rewrite result_in_bind.
  induction xs as [ | x rest IH]; [ reflexivity | ].
  rewrite result_in_for_cons, result_in_bind, (Hbody x (or_introl eq_refl)).
  simpl. apply IH. intros y Hy. apply Hbody. right. exact Hy.
Qed.

Lemma iter_scopes_none {R} (body : string * scope -> prog (ctl R)) :
  (forall name s, In s (candidate_scopes d) ->
                  result_in d (body (name, s)) = Returned Next) ->
  result_in d (_iter_scopes body) = Returned None.
Proof.
  intros Hbody. unfold _iter_scopes.
  rewrite result_in_bind, (Hbody "page" ThePage (or_introl eq_refl)).
  cbv beta iota. unfold page_frames. cbn [bind]. rewrite result_in_do.
  apply result_in_for_each_next. intros [i f] Hit. cbn [fst snd].
  unfold page_main_frame, frame_url. cbn [bind]. rewrite result_in_do.
  destruct (Nat.eqb f (d PageMainFrame)) eqn:E; [ reflexivity | ].
  rewrite result_in_do. apply Hbody. right.
  apply in_map, filter_In. split.
  - unfold enumerate in Hit. apply in_combine_r in Hit. exact Hit.
  - rewrite E. reflexivity.
Qed.


End ModalWait.

Section ModalRounds.

Import Config Assistant Expected.

Variable obs : nat -> snapshot.
Variable cfg : AppConfig.






End ModalRounds.



(* ================================================================== *)
(** * Further properties: clicking, submitting, dismissing *)
(* ================================================================== *)

Section Targets.

Import Config Assistant Expected.

Lemma click_ladder_target (l : locator) (force_msg js_msg : string) :
  sat (clicks_only l) from_browser False (fun _ => True)
      (click_ladder l force_msg js_msg).
Proof. unfold click_ladder, best_effort. sat_auto. Qed.

Variable cfg : AppConfig.
Variable modal_scope : scope.
Variable modal : locator.

Lemma safe_click_submits (l : locator) :
  l = submit_of cfg modal \/ l = confirm_of cfg modal_scope \/
  l = confirm_of cfg ThePage ->
  sat (submits_only cfg modal_scope modal) (fun _ => True) True (fun _ => True)
      (_safe_click l).
Proof.
  intros H. unfold _safe_click, click_ladder, best_effort. sat_auto.
Qed.

Lemma sat_for_in {T S R} (Pop : op -> Prop) (Pexn : exn -> Prop) (Pspin : Prop)
      (xs : list T) (s : S) (body : T -> S -> prog (S * ctl R)) :
  (forall x s, In x xs -> sat Pop Pexn Pspin (fun _ => True) (body x s)) ->
  sat Pop Pexn Pspin (fun _ => True) (for_ xs s body).
Proof.
  revert s. induction xs as [ | x rest IH]; intros s Hbody; simpl; [ exact I | ].
  apply sat_bind_any; [ apply Hbody; left; reflexivity | ].
  intros [s' c]. simpl. destruct c; simpl; try exact I.
  apply IH. intros y s0 Hy. apply Hbody. right. exact Hy.
Qed.

Lemma submit_and_confirm_submits (fuel : nat) (log_line : string) :
  sat (submits_only cfg modal_scope modal) (fun _ => True) True (fun _ => True)
      (submit_and_confirm fuel cfg modal_scope modal log_line).
Proof.
  unfold submit_and_confirm. cbv zeta.
  apply sat_bind_any; [ sat_auto | intros _ ].
  apply sat_bind_any; [ sat_auto | intros _ ].
  apply sat_bind_any; [ apply safe_click_submits; left; reflexivity | intros _ ].
  apply sat_bind_any; [ sat_auto | intros t0 ].
  apply sat_bind_any; [ | intros _; sat_auto ].
  apply sat_while_any; [ exact I | sat_auto | intros confirmed ].
  apply sat_bind_any; [ unfold best_effort; sat_auto | intros _ ].
  apply sat_bind_any; [ | intros p; sat_auto ].
  apply sat_for_in. intros scope_chk c Hin.
  apply sat_try_except; [ | exact I ].
  apply sat_bind_any; [ sat_auto | intros n ].
  destruct (Nat.ltb 0 n); [ | sat_auto ].
  apply sat_bind_any; [ sat_auto | intros v ].
  destruct v; [ | sat_auto ].
  apply sat_bind_any; [ sat_auto | intros _ ].
  apply sat_bind_any; [ | intros; exact I ].
  apply sat_exn_any; [ | intros; exact I ].
  apply safe_click_submits.
  destruct Hin as [<- | [<- | []]];
    [ right; left; reflexivity | right; right; reflexivity ].
Qed.

End Targets.

(** A safe click acts on its element only: whatever the browser
    answers, every click, scroll, hover and script of [_safe_click] and of
    [_safe_click_handle] has the element as its target, the call always
    ends, and only an error of the browser leaves it. *)
Theorem safe_click_acts_on_target (l : locator) (h : handle)
        (W : Type) (ask : forall o : op, W -> answer o * W) (w : W) :
  let r1 := run ask (Assistant._safe_click l) w in
  let r2 := run ask (Assistant._safe_click_handle h) w in
  (Forall (fun e => Expected.clicks_only l (ev_op e)) (trace r1) /\
   (outcome_of r1 = Returned tt \/
    exists b, outcome_of r1 = Raised (Browser b))) /\
  (Forall (fun e => Expected.clicks_only (Element h) (ev_op e)) (trace r2) /\
   (outcome_of r2 = Returned tt \/
    exists b, outcome_of r2 = Raised (Browser b))).
Proof.
  assert (G : forall l' (m : prog unit),
             sat (Expected.clicks_only l') Expected.from_browser False (fun _ => True) m ->
             Forall (fun e => Expected.clicks_only l' (ev_op e)) (trace (run ask m w)) /\
             (outcome_of (run ask m w) = Returned tt \/
              exists b, outcome_of (run ask m w) = Raised (Browser b))).
  { intros l' m H. destruct (sat_run W ask _ _ _ _ _ H w) as [Ht Ho].
    split; [ exact Ht | ].
    destruct (outcome_of (run ask m w)) as [[] | [b | | | | | | ] | ];
      try contradiction; [ left; reflexivity | right; exists b; reflexivity ]. }
  split; apply G; apply click_ladder_target.
Qed.

(** After the block is filled, [submit_and_confirm] does nothing to the
    page but this, whatever the browser answers: it clicks the submit
    button of the modal and the first confirm button of the scope of the
    modal or of the page, presses Enter, and waits for elements to show or
    to hide. *)
Theorem submit_touches_buttons_only (fuel : nat) (cfg : Config.AppConfig)
        (modal_scope : scope) (modal : locator) (log_line : string)
        (W : Type) (ask : forall o : op, W -> answer o * W) (w : W) :
  Forall (fun e => Expected.submits_only cfg modal_scope modal (ev_op e))
         (trace (run ask (Assistant.submit_and_confirm fuel cfg modal_scope modal
                                                       log_line) w)).
Proof.
  apply (sat_run W ask _ _ _ _ _
                 (submit_and_confirm_submits cfg modal_scope modal fuel log_line) w).
Qed.

(* ================================================================== *)
(** * Further properties: the success dialog *)
(* ================================================================== *)

Section StaticOps.

Variable d : snapshot.
Variable P : op -> Prop.

Lemma Forall_ops_bind {A B} (m : prog A) (f : A -> prog B) :
  Forall P (ops_in d m) ->
  (forall a, result_in d m = Returned a -> Forall P (ops_in d (f a))) ->
  Forall P (ops_in d (bind m f)).
Proof.
  intros Hm Hf. rewrite ops_in_bind. apply Forall_app. split; [ exact Hm | ].
  destruct (result_in d m) as [a | e | ];
    [ apply Hf; reflexivity | apply Forall_nil | apply Forall_nil ].
Qed.

Lemma Forall_ops_for_each {T R} (xs : list T) (body : T -> prog (ctl R)) :
  (forall x, In x xs -> Forall P (ops_in d (body x))) ->
  Forall P (ops_in d (for_each xs body)).
Proof.
  intros Hbody. unfold for_each.
  apply Forall_ops_bind; [ | intros; apply Forall_nil ].
  induction xs as [ | x rest IH]; [ apply Forall_nil | ].
  simpl for_. apply Forall_ops_bind.
  - apply Forall_ops_bind;
      [ apply Hbody; left; reflexivity | intros; apply Forall_nil ].
  - intros [[] c] _. simpl. destruct c as [ | | r];
      [ | apply Forall_nil | apply Forall_nil ].
    apply IH. intros y Hy. apply Hbody. right. exact Hy.
Qed.

Lemma Forall_ops_iter_scopes {R} (body : string * scope -> prog (ctl R)) :
  P PageFrames -> P PageMainFrame -> (forall f, P (FrameUrl f)) ->
  (forall name s, In s (Expected.candidate_scopes d) ->
                  Forall P (ops_in d (body (name, s)))) ->
  Forall P (ops_in d (Assistant._iter_scopes body)).
Proof.
  intros H1 H2 H3 Hbody. unfold Assistant._iter_scopes.
  apply Forall_ops_bind; [ apply Hbody; left; reflexivity | ].
  intros c _. destruct c as [ | | r]; [ | apply Forall_nil | apply Forall_nil ].
  unfold page_frames. cbn [bind]. rewrite ops_in_do. constructor; [ exact H1 | ].
  apply Forall_ops_for_each. intros [i f] Hit. cbn [fst snd].
  unfold page_main_frame, frame_url. cbn [bind]. rewrite ops_in_do.
  constructor; [ exact H2 | ].
  destruct (Nat.eqb f (d PageMainFrame)) eqn:E; [ apply Forall_nil | ].
  rewrite ops_in_do. constructor; [ apply H3 | ].
  apply Hbody. right. apply in_map, filter_In. split.
  - unfold enumerate in Hit. apply in_combine_r in Hit. exact Hit.
  - rewrite E. reflexivity.
Qed.

End StaticOps.

Lemma dismiss_total :
  sat (fun _ => True) (fun _ => False) False (fun _ => True)
      Assistant._dismiss_success_dialog.
Proof. unfold Assistant._dismiss_success_dialog. sat_auto. Qed.

(** [_dismiss_success_dialog] always answers: whatever the browser does,
    it returns a truth value and raises nothing.  On a page without the
    success text in any scope it answers [False], having only looked. *)
Theorem dismiss_without_dialog :
  (forall (W : Type) (ask : forall o : op, W -> answer o * W) (w : W),
      exists b,
        outcome_of (run ask Assistant._dismiss_success_dialog w) = Returned b) /\
  (forall d : snapshot,
      Expected.no_success_text d ->
      result_in d Assistant._dismiss_success_dialog = Returned false /\
      Forall Expected.looks_only (ops_in d Assistant._dismiss_success_dialog)).
Proof.
  split.
  - intros W ask w. destruct (sat_run W ask _ _ _ _ _ dismiss_total w) as [_ Ho].
    destruct (outcome_of (run ask Assistant._dismiss_success_dialog w)) as [b | e | ];
      [ exists b; reflexivity | contradiction | contradiction ].
  - intros d Hd.
    assert (Hprobe : forall s,
               In s (Expected.candidate_scopes d) ->
               d (Count (Locator s Assistant.success_text)) = Ok 0%nat \/
               exists e, d (Count (Locator s Assistant.success_text)) = Err e).
    { intros s Hs. specialize (Hd s Hs). unfold Expected.has_match in Hd.
      destruct (d (Count (Locator s Assistant.success_text))) as [[ | n] | e];
        [ left; reflexivity | discriminate | right; exists e; reflexivity ]. }
    unfold Assistant._dismiss_success_dialog. split.
    + rewrite result_in_bind, iter_scopes_none; [ reflexivity | ].
      intros name s Hs. cbn [fst snd]. rewrite result_in_try_except.
      unfold count. cbn [bind]. rewrite result_in_do.
      destruct (Hprobe s Hs) as [E | [e E]]; rewrite E; reflexivity.
    + apply Forall_ops_bind; [ | intros; apply Forall_nil ].
      apply Forall_ops_iter_scopes; try exact I; [ intros; exact I | ].
      intros name s Hs. cbn [fst snd].
      unfold ops_in. rewrite trace_in_try_except.
      unfold count. cbn [bind]. rewrite trace_in_do, result_in_do.
      destruct (Hprobe s Hs) as [E | [e E]]; rewrite E;
        repeat constructor.
Qed.

(** On the blank page there is no success text. *)
Lemma dismiss_without_dialog_witness :
  result_in blank Assistant._dismiss_success_dialog = Returned false.
Proof.
  destruct dismiss_without_dialog as [_ H].
  apply (H blank). intros s Hs. reflexivity.
Defined.

(* ================================================================== *)
(** * Further properties: a page with nothing pending *)
(* ================================================================== *)

Section NothingPending.

Import Config Assistant Expected.

Variable d : snapshot.
Variable cfg : AppConfig.

Let s := resolved_scope d cfg.
Let t := First (Locator s (table (selectors cfg))).

Lemma deadline_ahead (q : Q) (ms : Z) :
  (0 < ms)%Z -> Qlt_bool q (q + inject_Z ms / 1000)%Q = true.
Proof.
  intros H. unfold Qlt_bool. apply negb_true_iff.
  destruct (Qle_bool (q + inject_Z ms / 1000) q) eqn:E; [ | reflexivity ].
  apply Qle_bool_iff in E.
  assert (P : (0 < inject_Z ms / 1000)%Q).
  { apply Qlt_shift_div_l; [ reflexivity | ].
    rewrite Qmult_0_l. change 0%Q with (inject_Z 0). rewrite <- Zlt_Qlt. exact H. }
  lra.
Qed.

Hypothesis table_there : exists n, d (Count (Locator s (table (selectors cfg)))) = Ok (S n).
Hypothesis table_first : exists n, d (Count t) = Ok (S n).
Hypothesis table_visible : d (Act (ExpectToBeVisible t (Some 1000%Z))) = Ok tt.

Lemma result_in_while_succ {S R} (fuel : nat) (cond : prog bool) (st : S)
      (body : S -> prog (S * ctl R)) :
  result_in d (while_ (Datatypes.S fuel) cond st body) =
  match result_in d cond with
  | Returned true =>
      match result_in d (body st) with
      | Returned p =>
          match snd p with
          | Next => result_in d (while_ fuel cond (fst p) body)
          | Break => Returned (fst p, None)
          | Return r => Returned (fst p, Some r)
          end
      | Raised e => Raised e
      | Running => Running
      end
  | Returned false => Returned (st, None)
  | Raised e => Raised e
  | Running => Running
  end.
Proof.
  cbn [while_]. rewrite result_in_bind.
  destruct (result_in d cond) as [[ | ] | e | ]; try reflexivity.
  rewrite result_in_bind.
  destruct (result_in d (body st)) as [[s' c] | e | ]; try reflexivity.
  destruct c; reflexivity.
Qed.

(** One look that finds the table. *)
Lemma table_look (last_url : option string) :
  exists last_url',
    result_in d
      (url <- page_url ;;
       last_url' <-
         (if option_string_eqb (Some url) last_url then Ret last_url
          else logger_info "url=%s" [LStr url] ;; Ret (Some url)) ;;
       s <- _resolve_scope_fast cfg ;;
       table <- _find_table_fast s cfg ;;
       c <- match table with
            | None => Ret Next
            | Some t =>
                n <- count t ;;
                if nonzero n then
                  try_except
                    (act (ExpectToBeVisible t (Some 1000%Z)) ;;
                     Ret (Return (s, t)))
                    is_Exception
                    (Ret Next)
                else Ret Next
            end ;;
       match c with
       | Next => sleep (1 # 10) ;; Ret (last_url', Next)
       | _ => Ret (last_url', c)
       end) = Returned (last_url', Return (s, t)).
Proof.
  destruct table_there as [n1 H1]. destruct table_first as [n2 H2].
  rewrite result_in_bind.
  change (result_in d page_url) with (Returned (d PageUrl)). cbv beta iota.
  rewrite result_in_bind.
  assert (Hurl : exists lu,
             result_in d
               (if option_string_eqb (Some (d PageUrl)) last_url then Ret last_url
                else logger_info "url=%s" [LStr (d PageUrl)] ;; Ret (Some (d PageUrl))) =
             Returned lu).
  { destruct (option_string_eqb (Some (d PageUrl)) last_url);
      eexists; reflexivity. }
  destruct Hurl as [lu Elu]. exists lu.
  match goal with
  | |- match ?X with _ => _ end = _ =>
      assert (Elu' : X = Returned lu) by exact Elu; rewrite Elu'
  end.
  cbv beta iota.
  rewrite result_in_bind, resolve_scope_fast_static. cbv beta iota.
  fold s. rewrite result_in_bind.
  unfold _find_table_fast. cbv zeta.
  rewrite (result_in_if_count d _ _ _ _ H1). cbn [nonzero Nat.eqb negb].
  cbv beta iota. fold t.
  rewrite !result_in_bind. unfold count. cbn [bind]. rewrite result_in_do, H2.
  cbn [of_answer bind].
  change (result_in d (Ret (Datatypes.S n2))) with (Returned (Datatypes.S n2)).
  cbv beta iota. cbn [nonzero Nat.eqb negb].
  rewrite result_in_try_except, result_in_bind. unfold act.
  rewrite result_in_do, table_visible. reflexivity.
Qed.

(** The table is found at the first look. *)
Lemma wait_for_table_at_once (fuel : nat) (timeout_ms : Z) :
  (0 < timeout_ms)%Z ->
  result_in d (_wait_for_table (Datatypes.S fuel) cfg timeout_ms) = Returned (s, t).
Proof.
  intros Hms. unfold _wait_for_table. cbv zeta.
  rewrite result_in_bind.
  change (result_in d monotonic) with (Returned (d Monotonic)). cbv beta iota.
  unfold or_else. rewrite !result_in_bind, result_in_while_succ.
  assert (Hc : result_in d
                 (now <- monotonic ;;
                  Ret (Qlt_bool now (d Monotonic + inject_Z timeout_ms / 1000)%Q)) =
               Returned true).
  { rewrite result_in_bind.
    change (result_in d monotonic) with (Returned (d Monotonic)). cbv beta iota.
    change (result_in d (Ret ?x)) with (Returned x).
    rewrite (deadline_ahead _ _ Hms). reflexivity. }
  rewrite Hc. destruct (table_look None) as [lu E]. rewrite E. reflexivity.
Qed.

Hypothesis rows_counted : exists n, d (Count (Within t "tbody tr")) = Ok n.
Hypothesis none_pending :
  d (Count (Within t (pending_button (selectors cfg)))) = Ok 0%nat.

Lemma sat_ops_in {A} (P : op -> Prop) (Pexn : exn -> Prop) (Q : A -> Prop)
      (m : prog A) :
  sat P Pexn True Q m -> Forall P (ops_in d m).
Proof.
  intros H. destruct (sat_run unit (still d) _ _ _ _ _ H tt) as [Ht _].
  unfold ops_in, trace_in. apply Forall_map. exact Ht.
Qed.

Lemma drained_round :
  result_in d
    (let btns := Within t (pending_button (selectors cfg)) in
     k <- count btns ;;
     if Nat.eqb k 0 then Ret (Return tt) else Ret Next) = Returned (Return tt).
Proof.
  cbv zeta. rewrite result_in_bind. unfold count. rewrite result_in_do, none_pending.
  reflexivity.
Qed.

Lemma assist_page_idle (fuel : nat) :
  result_in d (assist_page (Datatypes.S fuel) cfg) = Returned tt /\
  Forall looks_for_table (ops_in d (assist_page (Datatypes.S fuel) cfg)).
Proof.
  destruct rows_counted as [rows Hrows].
  pose proof (wait_for_table_at_once fuel 30000 eq_refl) as Hwait.
  unfold assist_page. split.
  - rewrite result_in_bind, Hwait. cbv beta iota zeta. cbn [snd].
    fold t. rewrite result_in_bind. unfold count at 1.
    rewrite result_in_do, Hrows. cbn [of_answer].
    change (result_in d (Ret rows)) with (Returned rows). cbv beta iota.
    rewrite result_in_bind.
    change (result_in d (logger_info ?f ?a)) with (Returned (d (LoggerInfo f a))).
    cbv beta iota. rewrite result_in_bind, result_in_while_do_succ.
    rewrite result_in_bind. unfold count. rewrite result_in_do, none_pending.
    reflexivity.
  - apply Forall_ops_bind;
      [ apply (sat_ops_in _ _ _ _ (wait_for_table_sat (Datatypes.S fuel) cfg 30000)) | ].
    intros st Est. rewrite Hwait in Est. inversion Est; subst st. cbn [snd].
    fold t. cbv zeta.
    apply Forall_ops_bind;
      [ unfold count; rewrite ops_in_do, Hrows;
        apply Forall_cons; [ exact I | apply Forall_nil ]
      | intros ? ? ].
    apply Forall_ops_bind;
      [ apply Forall_cons; [ exact I | apply Forall_nil ] | intros ? ? ].
    apply Forall_ops_bind; [ | intros; apply Forall_nil ].
    unfold while_do. apply Forall_ops_bind; [ | intros; apply Forall_nil ].
    cbn [while_]. apply Forall_ops_bind; [ apply Forall_nil | intros c _ ].
    destruct c; [ | apply Forall_nil ].
    apply Forall_ops_bind.
    + apply Forall_ops_bind; [ | intros; apply Forall_nil ].
      apply Forall_ops_bind;
        [ unfold count; rewrite ops_in_do, none_pending;
          apply Forall_cons; [ exact I | apply Forall_nil ]
        | ].
      intros k Ek. unfold count in Ek. rewrite result_in_do, none_pending in Ek.
      inversion Ek; subst k. apply Forall_nil.
    + intros p Ep. rewrite result_in_bind in Ep.
      rewrite result_in_bind in Ep. unfold count in Ep.
      rewrite result_in_do, none_pending in Ep. inversion Ep; subst p.
      apply Forall_nil.
Qed.

End NothingPending.

(** A page without a pending course is left as it is.  On a page that
    does not change, where the table is there and visible and has no
    pending button, [assist_page] returns having only looked: no click, no
    fill, no key. *)
Theorem assist_page_nothing_pending (d : snapshot) (cfg : Config.AppConfig)
        (fuel n1 n2 rows : nat) :
  let s := Expected.resolved_scope d cfg in
  let t := First (Locator s (Config.table (Config.selectors cfg))) in
  d (Count (Locator s (Config.table (Config.selectors cfg)))) = Ok (S n1) ->
  d (Count t) = Ok (S n2) ->
  d (Act (ExpectToBeVisible t (Some 1000%Z))) = Ok tt ->
  d (Count (Within t "tbody tr")) = Ok rows ->
  d (Count (Within t (Config.pending_button (Config.selectors cfg)))) = Ok 0%nat ->
  result_in d (Assistant.assist_page (S fuel) cfg) = Returned tt /\
  Forall Expected.looks_for_table (ops_in d (Assistant.assist_page (S fuel) cfg)).
Proof.
  intros s t H1 H2 H3 H4 H5.
  apply (assist_page_idle d cfg (ex_intro _ n1 H1) (ex_intro _ n2 H2) H3
                          (ex_intro _ rows H4) H5 fuel).
Qed.

(** The sample page with the table of courses all rated. *)
Lemma assist_page_nothing_pending_witness :
  result_in Sample.page_with_next (Assistant.assist_page 1 Sample.cfg) = Returned tt.
Proof.
  apply (assist_page_nothing_pending Sample.page_with_next Sample.cfg 0 0 0 0);
    reflexivity.
Defined.

(* ================================================================== *)
(** * Further properties: how the flow can fail *)
(* ================================================================== *)

Lemma sat_weaken_all {A} (P P' : op -> Prop) (E E' : exn -> Prop) (S : Prop)
      (Q Q' : A -> Prop) (m : prog A) :
  sat P E S Q m ->
  (forall o, P o -> P' o) -> (forall e, E e -> E' e) -> (forall a, Q a -> Q' a) ->
  sat P' E' S Q' m.
Proof.
  intros H HP HE HQ. induction m as [a | e | | o k IH]; simpl in *; auto.
  destruct H as [Ho Hk]. split; auto.
Qed.

Section Failures.

Import Config Assistant Expected.

Variable cfg : AppConfig.
Hypothesis pool : comment_templates cfg <> [].
Hypothesis bounds : (min (delays_ms cfg) <= max (delays_ms cfg))%Z.

Lemma rand_delay_safe :
  sat (fun _ => True) (fun _ => False) True (fun _ => True) (_rand_delay cfg).
Proof.
  unfold _rand_delay, randint.
  assert (E : (max (delays_ms cfg) <? min (delays_ms cfg))%Z = false)
    by (apply Z.ltb_ge; exact bounds).
  rewrite E. sat_auto.
Qed.

Lemma choice_safe :
  sat (fun _ => True) (fun _ => False) True (fun _ => True)
      (choice (comment_templates cfg)).
Proof.
  unfold choice. destruct (comment_templates cfg) as [ | x rest];
    [ contradiction pool; reflexivity | ].
  cbn [sat]. split; [ exact I | intros; exact I ].
Qed.

Lemma flow_failures (fuel : nat) :
  sat (fun _ => True) (flow_failure cfg) True (fun _ => True)
      (assist_all_pages fuel cfg).
Proof.
  unfold flow_failure.
  repeat lazymatch goal with
         | |- sat _ _ _ _ (_rand_delay _) =>
             apply (sat_weaken_all _ _ _ _ _ _ _ _ rand_delay_safe);
             [ intros; exact I | intros e []  | intros; exact I ]
         | |- sat _ _ _ _ (choice _) =>
             apply (sat_weaken_all _ _ _ _ _ _ _ _ choice_safe);
             [ intros; exact I | intros e []  | intros; exact I ]
         | |- sat _ _ _ _ (_wait_for_modal ?f _ ?t) =>
             apply (sat_weaken_all _ _ _ _ _ _ _ _ (wait_for_modal_sat f cfg t));
             [ intros; exact I
             | let e := fresh "e" in
               let H := fresh "H" in
               intros e H; try intros _; right; exact H
             | intros; exact I ]
         | _ => sat_step
         end.
Qed.

End Failures.

(** Under a configuration that [load_config] has accepted, and whatever
    the browser answers, the only exceptions that leave the flow are the
    errors of the browser and the [RuntimeError] of the modal that did not
    appear: no comment is drawn from an empty pool, no delay from an empty
    range, and what the program raises itself on the way is handled. *)
Theorem flow_fails_on_browser_only (fuel : nat) (data : Config.Document)
        (cfg : Config.AppConfig)
        (W : Type) (ask : forall o : op, W -> answer o * W) (w : W) (e : exn) :
  Config.load_config data = Ok cfg ->
  outcome_of (run ask (Assistant.assist_all_pages fuel cfg) w) = Raised e ->
  Expected.flow_failure cfg e.
Proof.
  intros Hcfg E.
  destruct (load_config_loaded data cfg Hcfg) as [Ht [Hne [Hlo [Hhi Hb]]]].
  assert (Hpool : Config.comment_templates cfg <> []) by (rewrite Ht; exact Hne).
  assert (Hbounds : (Config.min (Config.delays_ms cfg)
                     <= Config.max (Config.delays_ms cfg))%Z)
    by (rewrite Hlo, Hhi; lia).
  destruct (sat_run W ask _ _ _ _ _ (flow_failures cfg Hpool Hbounds fuel) w)
    as [_ Ho].
  rewrite E in Ho. exact Ho.
Qed.

(** Off line the flow fails with the error of the browser. *)
Lemma flow_fails_on_browser_only_witness :
  Expected.flow_failure Sample.cfg
    (Browser (PlaywrightError "net::ERR_INTERNET_DISCONNECTED")).
Proof.
  apply (flow_fails_on_browser_only 1 Sample.document Sample.cfg unit
                                    (still Sample.offline) tt);
    reflexivity.
Defined.
